(** * fetch-nuts.py: the NUTS address-point extraction script

    A shallow embedding of [src/fetch-nuts.py] and the properties of its
    four functions and of the file-writing tail of the script.

    - JSON values are Python's: [None], [bool], [int], [float], [str],
      [list], [dict] (string keys, as [json.loads] produces them).
    - Network, sleeping, printing and writing files are effects on a
      [world]; a Python exception is the [Raise] result of a computation.
    - What the script calls outside itself and may raise is a parameter
      that returns or raises: [**] and [time.sleep] of the interpreter,
      and the sort, [unique] and [sorted] of the last lines.
    - A URL is a value like any other: the annotations say [str], and
      [parse_dataset] passes on the [iri] values as it finds them.
    - The progress bar of [tqdm] shows nothing that the script reads and is
      left out, as is [last_err], which is assigned and never read. *)

From Stdlib Require Import ZArith List Ascii String Floats Permutation.
From stdpp Require Import gmap strings pretty list fin_maps.

Set Warnings "-register-all,-inexact-float".
Local Open Scope Z_scope.

(** ** Python values *)

(** A value decoded by [resp.json()].  A [str] is held as its UTF-8 bytes. *)
Inductive json : Type :=
| JNull
| JBool (b : bool)
| JInt (z : Z)
| JFloat (f : float)
| JStr (s : string)
| JList (l : list json)
| JDict (d : gmap string json).

(** [bool(v)]: what [v or default] and [if v:] test. *)
Definition truthy (v : json) : bool :=
  match v with
  | JNull => false
  | JBool b => b
  | JInt z => negb (z =? 0)
  | JFloat f => negb (PrimFloat.eqb f 0%float)
  | JStr s => negb (String.eqb s "")
  | JList l => match l with [] => false | _ :: _ => true end
  | JDict d => negb (Nat.eqb (size d) 0)
  end.

(** [a or b] *)
Definition py_or (a b : json) : json := if truthy a then a else b.

(** [isinstance(v, dict)] *)
Definition is_dict (v : json) : bool :=
  match v with JDict _ => true | _ => false end.

(** ** Exceptions *)

Inductive exn_class :=
| HTTPError          (* requests.exceptions.HTTPError, a RequestException *)
| RequestException   (* any other requests.exceptions.RequestException *)
| JSONDecodeError    (* what resp.json() raises: a ValueError *)
| ValueError
| AttributeError
| KeyError
| IndexError
| TypeError
| OverflowError
| OtherException.    (* any class outside the ones above *)

Record exn := Exn { exn_cls : exn_class; exn_msg : string }.

Inductive result (A : Type) :=
| Ok (a : A)
| Raise (e : exn).
Arguments Ok {A} a.
Arguments Raise {A} e.

Definition is_RequestException (c : exn_class) : bool :=
  match c with HTTPError | RequestException | JSONDecodeError => true | _ => false end.

Definition is_ValueError (c : exn_class) : bool :=
  match c with JSONDecodeError | ValueError => true | _ => false end.

(** [except (requests.exceptions.RequestException, ValueError)] *)
Definition fetch_catches (e : exn) : bool :=
  is_RequestException (exn_cls e) || is_ValueError (exn_cls e).

(** ** Pure operations on values, with the exceptions Python raises *)

Module Py.

Definition bind {A B} (r : result A) (k : A -> result B) : result B :=
  match r with Ok a => k a | Raise e => Raise e end.

Definition no_attribute_get : exn := Exn AttributeError "object has no attribute 'get'".
Definition not_iterable : exn := Exn TypeError "object is not iterable".
Definition not_subscriptable : exn := Exn TypeError "object is not subscriptable".
Definition bad_index_type : exn := Exn TypeError "indices must be integers".
Definition no_len : exn := Exn TypeError "object has no len()".
Definition out_of_range : exn := Exn IndexError "index out of range".
Definition key_error (k : string) : exn := Exn KeyError k.

(** A byte 10xxxxxx continues a UTF-8 character. *)
Definition is_continuation (a : ascii) : bool :=
  match a with Ascii _ _ _ _ _ _ b6 b7 => b7 && negb b6 end.

Definition starts_with_continuation (s : string) : bool :=
  match s with String a _ => is_continuation a | EmptyString => false end.

(** The characters of a [str], each as a one-character [str]. *)
Fixpoint chars (s : string) : list string :=
  match s with
  | EmptyString => []
  | String a rest =>
      match chars rest with
      | c :: cs => if starts_with_continuation c
                   then String a c :: cs
                   else String a EmptyString :: c :: cs
      | [] => [String a EmptyString]
      end
  end.

(** [v.get(key, default)] *)
Definition get (v : json) (key : string) (dflt : json) : result json :=
  match v with
  | JDict d => Ok (default dflt (d !! key))
  | _ => Raise no_attribute_get
  end.

(** [iter(v)]: the values a [for] loop or a comprehension runs over.  A
    [dict] yields its keys; no caller below depends on their order. *)
Definition iter (v : json) : result (list json) :=
  match v with
  | JList l => Ok l
  | JStr s => Ok (JStr <$> chars s)
  | JDict d => Ok ((λ kv, JStr kv.1) <$> map_to_list d)
  | _ => Raise not_iterable
  end.

(** [len(v)] *)
Definition len (v : json) : result Z :=
  match v with
  | JList l => Ok (Z.of_nat (length l))
  | JStr s => Ok (Z.of_nat (length (chars s)))
  | JDict d => Ok (Z.of_nat (size d))
  | _ => Raise no_len
  end.

(** [v[key]] for a string key *)
Definition getitem (v : json) (key : string) : result json :=
  match v with
  | JDict d => match d !! key with Some x => Ok x | None => Raise (key_error key) end
  | JList _ | JStr _ => Raise bad_index_type
  | _ => Raise not_subscriptable
  end.

(** [v[i]] for a literal index [i >= 0]; the keys of a [dict] are strings,
    so an integer is never one of them. *)
Definition index (v : json) (i : nat) : result json :=
  match v with
  | JList l => match l !! i with Some x => Ok x | None => Raise out_of_range end
  | JStr s => match chars s !! i with Some c => Ok (JStr c) | None => Raise out_of_range end
  | JDict _ => Raise (key_error (pretty i))
  | _ => Raise not_subscriptable
  end.

(** [[f(x) for x in l]] *)
Fixpoint comprehension {A B} (f : A -> result B) (l : list A) : result (list B) :=
  match l with
  | [] => Ok []
  | x :: rest => bind (f x) (fun y => bind (comprehension f rest) (fun ys => Ok (y :: ys)))
  end.

End Py.

Example chars_utf8 : Py.chars "Žil" = ["Ž"; "i"; "l"]%string.
Proof. reflexivity. Qed.

Notation "'let?' x ':=' c 'in' k" := (Py.bind c (fun x => k))
  (at level 10, x name, c at level 100, k at level 200).

(** ** Tables *)

(** The [dict] that [create_table] returns: column name to column, in
    insertion order. *)
Definition table : Type := list (string * list json).

(** A [pandas.DataFrame]: column labels and the rows under them. *)
Record DataFrame := { df_columns : list string; df_rows : list (list json) }.

(** ** The world: network, clock, standard output and disk *)

(** [requests.Session()] *)
Inductive session := Session.

(** What [.get] is called on: [s = session or requests]. *)
Inductive transport :=
| RequestsModule
| ViaSession (s : session).

Definition session_or_requests (o : option session) : transport :=
  match o with Some s => ViaSession s | None => RequestsModule end.

(** The response object of a GET: what its two methods do when called. *)
Record response := {
  raise_for_status : result unit;   (* raises HTTPError on an error status *)
  resp_json : result json           (* raises a ValueError on a body that is not JSON *)
}.

Inductive message :=
| FetchFailed (url : json) (tries : Z) (e : exn)  (* [FAIL] {url} after {tries} tries: {e} *)
| FeaturesEmpty (uri : json)    (* Warning: features in {uri} is empty/does not exist! *)
| UnmappedNames                 (* Warning: Kraj values not in name_to_abb: *)
| Unmapped (k : json)           (*   - {k} *)
| Banner (text : string).

Inductive event :=
| Get (via : transport) (url : json) (timeout : float)
| Sleep (seconds : float)
| Print (m : message)
| Mkdir (path : string)
| ToCsv (path : string) (df : DataFrame).

(** [network n url] is what the [n]-th GET of the run yields when it asks
    for [url]: an exception of [.get], or a response. *)
Record world := World {
  network : nat -> json -> result response;
  issued : nat;
  log : list event
}.

(** A computation of the script: a result or an exception, and the world
    after it. *)
Definition M (A : Type) : Type := world -> result A * world.

Definition ret {A} (a : A) : M A := fun w => (Ok a, w).

Definition raise {A} (e : exn) : M A := fun w => (Raise e, w).

Definition bind {A B} (c : M A) (k : A -> M B) : M B :=
  fun w => match c w with
           | (Ok a, w') => k a w'
           | (Raise e, w') => (Raise e, w')
           end.

Notation "'let*' x ':=' c 'in' k" := (bind c (fun x => k))
  (at level 10, x name, c at level 100, k at level 200).
Notation "c ';;' k" := (bind c (fun _ => k))
  (at level 100, k at level 200, right associativity).

Definition lift {A} (r : result A) : M A := fun w => (r, w).

(** [try: body  except <handles> as e: handler(e)] *)
Definition try_except {A} (body : M A) (handles : exn -> bool) (handler : exn -> M A) : M A :=
  fun w => match body w with
           | (Raise e, w') => if handles e then handler e w' else (Raise e, w')
           | done => done
           end.

Definition emit (e : event) : M unit :=
  fun w => (Ok tt, World (network w) (issued w) (log w ++ [e])).

(** What the fetcher calls outside the script: [b ** n] on a [float] and
    an [int], and [time.sleep(seconds)].  Each returns or raises: [**]
    raises [OverflowError] when the power is out of the range of a
    [float]; [time.sleep] raises [ValueError] on a negative length and on
    NaN, and [OverflowError] on a length too large to be a timestamp. *)
Record interpreter := Interpreter {
  float_pow : float -> Z -> result float;
  time_sleep : float -> result unit
}.

(** [time.sleep(seconds)]: the wait is in the log when the call returns. *)
Definition sleep (py : interpreter) (seconds : float) : M unit :=
  let* _ := lift (time_sleep py seconds) in
  emit (Sleep seconds).

Definition print (m : message) : M unit := emit (Print m).
Definition mkdir (path : string) : M unit := emit (Mkdir path).
Definition to_csv (df : DataFrame) (path : string) : M unit := emit (ToCsv path df).

(** [s.get(url, timeout=timeout)] *)
Definition http_get (s : transport) (url : json) (timeout : float) : M response :=
  fun w => (network w (issued w) url,
            World (network w) (S (issued w)) (log w ++ [Get s url timeout])).

(** [for x in xs: body], where an iteration either returns from the
    enclosing function ([Some v]) or falls through to the next one. *)
Fixpoint for_return {A R} (xs : list A) (body : A -> M (option R)) : M (option R) :=
  match xs with
  | [] => ret None
  | x :: rest =>
      let* r := body x in
      match r with
      | Some v => ret (Some v)
      | None => for_return rest body
      end
  end.

(** [for x in xs: acc = body(acc, x)] *)
Fixpoint for_each {A S} (xs : list A) (acc : S) (body : S -> A -> M S) : M S :=
  match xs with
  | [] => ret acc
  | x :: rest => let* acc' := body acc x in for_each rest acc' body
  end.

(** [range(n)] *)
Definition range (n : Z) : list Z := Z.of_nat <$> seq 0 (Z.to_nat n).

(** ** The script *)

Definition URI_root : string := "https://rageo.minv.sk/opendata/katalog.json".

(** The defaults of the keyword arguments of [fetch_json_with_retry]. *)
Definition default_tries : Z := 5.
Definition default_timeout : float := 30.0%float.
Definition default_backoff : float := 1.5%float.

Section Script.

Variable py : interpreter.

(** One iteration of the loop of [fetch_json_with_retry].  The handler runs
    outside the [try]: what [backoff ** attempt] or [time.sleep] raises
    there is not caught, and ends the call. *)
Definition attempt_once (s : transport) (url : json) (tries : Z)
    (timeout backoff : float) (attempt : Z) : M (option json) :=
  try_except
    (let* resp := http_get s url timeout in
     let* _ := lift (raise_for_status resp) in
     let* j := lift (resp_json resp) in
     ret (Some j))
    fetch_catches
    (fun e =>
       (if attempt <? tries - 1
        then let* seconds := lift (float_pow py backoff attempt) in
             sleep py seconds
        else print (FetchFailed url tries e));;
       ret None).

(** A call names each keyword argument; one that the caller leaves out is
    passed as its default above. *)
Definition fetch_json_with_retry (url : json) (session : option session)
    (tries : Z) (timeout backoff : float) : M json :=
  let s := session_or_requests session in
  let* r := for_return (range tries) (attempt_once s url tries timeout backoff) in
  match r with
  | Some j => ret j
  | None => ret JNull
  end.

(** The body of the loop of [parse_dataset], lines 44 to 46. *)
Definition dataset_of_node (g : json) : M (option (list json)) :=
  let* ds := lift (Py.get g "dcat:dataset" JNull) in
  match ds with
  | JNull => ret None
  | _ =>
      let* entries := lift (Py.iter ds) in
      let* iris := lift (Py.comprehension (fun o => Py.getitem o "iri") entries) in
      ret (Some iris)
  end.

Definition parse_dataset (uri : json) : M (list json) :=
  let* r := fetch_json_with_retry uri None default_tries default_timeout default_backoff in
  let* graph := lift (Py.get r "@graph" (JList [])) in
  let* nodes := lift (Py.iter graph) in
  let* found := for_return nodes dataset_of_node in
  match found with
  | Some iris => ret iris
  | None => ret []
  end.

(** The inner loop of [collect_features]: [features.append(f)] for the
    entries that are a [dict]. *)
Definition append_dicts (features F : list json) : list json :=
  fold_left (fun acc f => if is_dict f then acc ++ [f] else acc) F features.

(** The body of the loop of [collect_features], lines 56 to 66. *)
Definition collect_from (s : session) (features : list json) (uri : json)
    : M (list json) :=
  let* r := fetch_json_with_retry uri (Some s) 6 30.0%float 1.7%float in
  match r with
  | JNull => ret features
  | _ =>
      let* F := lift (Py.get r "features" (JList [])) in
      if truthy F
      then let* entries := lift (Py.iter F) in
           ret (append_dicts features entries)
      else print (FeaturesEmpty uri);; ret features
  end.

Definition collect_features (uris : list json) : M (list json) :=
  let s := Session in
  for_each uris [] (collect_from s).

(** The fourteen lists that the loop of [create_table] appends to. *)
Record columns := Columns {
  ids : list json;
  nuts3_names : list json;
  nuts3_ids : list json;
  lau1_names : list json;
  lau1_ids : list json;
  lau2_names : list json;
  lau2_ids : list json;
  district_names : list json;
  streetnames : list json;
  propertyregistrationnumbers : list json;
  orientationnumbers : list json;
  postalcodes : list json;
  coord_x : list json;
  coord_y : list json
}.

Definition no_columns : columns :=
  Columns [] [] [] [] [] [] [] [] [] [] [] [] [] [].

(** The body of the loop of [create_table], lines 87 to 106. *)
Definition flatten_feature (c : columns) (feature : json) : result columns :=
  let? p := Py.get feature "properties" JNull in
  let properties := py_or p (JDict ∅) in
  let? g := Py.get feature "geometry" JNull in
  let geometry := py_or g (JDict ∅) in
  let? cs := Py.get geometry "coordinates" JNull in
  let coords := py_or cs (JList []) in
  let? n := Py.len coords in
  let? x := if 2 <=? n then Py.index coords 0 else Ok (JStr "") in
  let? n' := Py.len coords in
  let? y := if 2 <=? n' then Py.index coords 1 else Ok (JStr "") in
  let? v_id := Py.get properties "identifier" (JStr "") in
  let? v_n3n := Py.get properties "nuts3_name" (JStr "") in
  let? v_n3i := Py.get properties "nuts3_id" (JStr "") in
  let? v_l1n := Py.get properties "lau1_name" (JStr "") in
  let? v_l1i := Py.get properties "lau1_id" (JStr "") in
  let? v_l2n := Py.get properties "lau2_name" (JStr "") in
  let? v_l2i := Py.get properties "lau2_id" (JStr "") in
  let? v_dn := Py.get properties "district_name" (JStr "") in
  let? v_sn := Py.get properties "streetname" (JStr "") in
  let? v_prn := Py.get properties "propertyregistrationnumber" (JStr "") in
  let? v_on := Py.get properties "orientationnumber" (JStr "") in
  let? v_pc := Py.get properties "postalcode" (JStr "") in
  Ok {| ids := ids c ++ [v_id];
        nuts3_names := nuts3_names c ++ [v_n3n];
        nuts3_ids := nuts3_ids c ++ [v_n3i];
        lau1_names := lau1_names c ++ [v_l1n];
        lau1_ids := lau1_ids c ++ [v_l1i];
        lau2_names := lau2_names c ++ [v_l2n];
        lau2_ids := lau2_ids c ++ [v_l2i];
        district_names := district_names c ++ [v_dn];
        streetnames := streetnames c ++ [v_sn];
        propertyregistrationnumbers := propertyregistrationnumbers c ++ [v_prn];
        orientationnumbers := orientationnumbers c ++ [v_on];
        postalcodes := postalcodes c ++ [v_pc];
        coord_x := coord_x c ++ [x];
        coord_y := coord_y c ++ [y] |}.

(** [for feature in features: ...] *)
Fixpoint flatten_all (c : columns) (features : list json) : result columns :=
  match features with
  | [] => Ok c
  | feature :: rest => let? c' := flatten_feature c feature in flatten_all c' rest
  end.

(** The [dict] literal [res], lines 107 to 122. *)
Definition res_of (c : columns) : table :=
  [ ("Identifikátor", ids c);
    ("Kraj", nuts3_names c);
    ("ID kraja", nuts3_ids c);
    ("Okres", lau1_names c);
    ("ID Okresu", lau1_ids c);
    ("Obec", lau2_names c);
    ("ID obce", lau2_ids c);
    ("Časť obce", district_names c);
    ("Ulica", streetnames c);
    ("Súpisné číslo", propertyregistrationnumbers c);
    ("Orientačné číslo celé", orientationnumbers c);
    ("PSČ", postalcodes c);
    ("ADRBOD_X", coord_x c);
    ("ADRBOD_Y", coord_y c) ]%string.

Definition create_table (features : list json) : result table :=
  let? c := flatten_all no_columns features in
  Ok (res_of c).

Definition name_to_abb : list (string * string) :=
  [ ("Banskobystrický", "BBSK");
    ("Bratislavský", "BSK");
    ("Nitriansky", "NSK");
    ("Košický", "KSK");
    ("Prešovský", "PSK");
    ("Trenčiansky", "TSK");
    ("Trnavský", "TTSK");
    ("Žilinský", "ZSK") ]%string.

Definition dest_root : string := "data/egov/".

(** Lines 137 to 147: from the catalog to the table. *)
Definition load_table : M table :=
  mkdir dest_root;;
  print (Banner "Obtaining URIs...");;
  let* uris := parse_dataset (JStr URI_root) in
  print (Banner "Fetching features...");;
  let* features := collect_features uris in
  print (Banner "Creating table...");;
  lift (create_table features).

End Script.

(** ** The data frame and the files written from it *)

(** Index of the column labelled [name]. *)
Fixpoint position (name : string) (labels : list string) : option nat :=
  match labels with
  | [] => None
  | l :: rest => if String.eqb l name then Some O else S <$> position name rest
  end.

Definition cell (i : nat) (row : list json) : json := nth i row JNull.

(** [pd.DataFrame(table)]: the columns must all have the same length. *)
Definition DataFrame_of (t : table) : result DataFrame :=
  match t with
  | [] => Ok {| df_columns := []; df_rows := [] |}
  | (_, first) :: _ =>
      let n := length first in
      if forallb (fun c => Nat.eqb (length c.2) n) t
      then Ok {| df_columns := fst <$> t;
                 df_rows := (fun i => (fun c => nth i c.2 JNull) <$> t) <$> seq 0 n |}
      else Raise (Exn ValueError "All arrays must be of the same length")
  end.

(** [df[name]] *)
Definition column (df : DataFrame) (name : string) : result (list json) :=
  match position name (df_columns df) with
  | Some i => Ok (cell i <$> df_rows df)
  | None => Raise (Py.key_error name)
  end.

(** [v == s] for a [str] [s], as the comparison [df["Kraj"] == kraj] does
    it cell by cell. *)
Definition eq_str (s : string) (v : json) : bool :=
  match v with JStr s' => String.eqb s' s | _ => false end.

Fixpoint select_rows (rows : list (list json)) (mask : list bool) : list (list json) :=
  match rows, mask with
  | r :: rows', b :: mask' =>
      if b then r :: select_rows rows' mask' else select_rows rows' mask'
  | _, _ => []
  end.

(** [df[mask]] *)
Definition select (df : DataFrame) (mask : list bool) : DataFrame :=
  {| df_columns := df_columns df; df_rows := select_rows (df_rows df) mask |}.

(** [df.empty]: one of the two axes has length 0. *)
Definition df_empty (df : DataFrame) : bool :=
  match df_columns df, df_rows df with
  | [], _ | _, [] => true
  | _, _ => false
  end.

(** [pd.isna(v)] on a cell: [None] and NaN are the missing values. *)
Definition isna (v : json) : bool :=
  match v with
  | JNull => true
  | JFloat f => PrimFloat.is_nan f
  | _ => false
  end.

(** [.dropna()] *)
Definition dropna (values : list json) : list json :=
  List.filter (fun v => negb (isna v)) values.

(** The character with the given UTF-8 bytes. *)
Definition utf8 (bytes : list nat) : string :=
  foldr (fun b rest => String (ascii_of_nat b) rest) EmptyString bytes.

(** The characters that [str.strip()] removes, those of [str.isspace()]:
    U+0009 to U+000D, U+001C to U+0020, U+0085, U+00A0, U+1680, U+2000 to
    U+200A, U+2028, U+2029, U+202F, U+205F and U+3000. *)
Definition whitespace : list string :=
  utf8 <$> [ [9]; [10]; [11]; [12]; [13]; [28]; [29]; [30]; [31]; [32];
             [194; 133]; [194; 160]; [225; 154; 128];
             [226; 128; 128]; [226; 128; 129]; [226; 128; 130]; [226; 128; 131];
             [226; 128; 132]; [226; 128; 133]; [226; 128; 134]; [226; 128; 135];
             [226; 128; 136]; [226; 128; 137]; [226; 128; 138];
             [226; 128; 168]; [226; 128; 169]; [226; 128; 175];
             [226; 129; 159]; [227; 128; 128] ]%nat.

Definition isspace (c : string) : bool := existsb (String.eqb c) whitespace.

(** [str(k).strip() != ""]: only a [str] can have a text of white space
    alone; the text of a number, of [True] or of a list has none. *)
Definition not_blank (k : json) : bool :=
  match k with
  | JStr s => negb (forallb isspace (Py.chars s))
  | _ => true
  end.

(** [k in known], for [known = set(name_to_abb.keys())]. *)
Definition known (k : json) : bool :=
  match k with
  | JStr s => existsb (fun entry => String.eqb entry.1 s) name_to_abb
  | _ => false
  end.

(** The elements of [seen - known], for the distinct [values] of the
    column: those that are not blank and are no key of [name_to_abb]. *)
Definition unmapped (values : list json) : list json :=
  List.filter (fun k => negb (known k)) (List.filter not_blank values).

(** What the last lines call outside the script and may raise.
    - [sort_rows_by key rows] is the stable sort of pandas,
      [sort_values(by, kind="stable")], of [rows] by [key]; it raises
      [TypeError] on keys that [<] does not order, a [str] and an [int].
    - [unique values] is [Series.unique()], the distinct values in the
      order they come; it raises [TypeError] on a value that cannot be
      hashed, a [list] or a [dict].
    - [sorted values] is Python's [sorted(s)] on the set [s] of the
      values; it raises [TypeError] on values that [<] does not order. *)
Record pandas := Pandas {
  sort_rows_by : (list json -> json) -> list (list json) -> result (list (list json));
  unique : list json -> result (list json);
  sorted : list json -> result (list json)
}.

Section Files.

Variable pd : pandas.

(** [df.sort_values(by, kind="stable")] *)
Definition sort_values (df : DataFrame) (by_ : string) : result DataFrame :=
  match position by_ (df_columns df) with
  | Some i =>
      let? rows := sort_rows_by pd (cell i) (df_rows df) in
      Ok {| df_columns := df_columns df; df_rows := rows |}
  | None => Raise (Py.key_error by_)
  end.

(** Lines 149 to 157: the aggregate file. *)
Definition save_aggregate (t : table) : M DataFrame :=
  let* df := lift (DataFrame_of t) in
  print (Banner "Sorting by Kraj...");;
  let* df := lift (sort_values df "Kraj") in
  print (Banner "Saving to kraje...");;
  to_csv df (dest_root ++ "kraje.csv");;
  ret df.

(** Lines 174 to 181: the warning about the region names outside
    [name_to_abb]. *)
Definition warn_unmapped (df : DataFrame) : M unit :=
  let* col := lift (column df "Kraj") in
  let* values := lift (unique pd (dropna col)) in
  let* missing := lift (sorted pd (unmapped values)) in
  match missing with
  | [] => ret tt
  | _ :: _ =>
      print UnmappedNames;;
      for_each missing tt (fun _ k => print (Unmapped k))
  end.

(** The body of the loop over [name_to_abb.items()], lines 186 to 190. *)
Definition save_region (df : DataFrame) (_ : unit) (entry : string * string) : M unit :=
  let kraj := entry.1 in
  let abb := entry.2 in
  let* col := lift (column df "Kraj") in
  let df_k := select df (eq_str kraj <$> col) in
  if df_empty df_k
  then ret tt
  else to_csv df_k (dest_root ++ abb ++ ".csv").

(** Lines 183 to 190: one file for each region that has rows. *)
Definition save_regions (df : DataFrame) : M unit :=
  print (Banner "Saving to individual...");;
  for_each name_to_abb tt (save_region df).

(** Lines 149 to 190: the files of a run, from the table on. *)
Definition save_tables (t : table) : M unit :=
  let* df := save_aggregate t in
  warn_unmapped df;;
  save_regions df.

End Files.

(** ** Reading a log *)

Definition attempts_in (tr : list event) : list json :=
  omap (fun e => match e with Get _ url _ => Some url | _ => None end) tr.

Definition sleeps_in (tr : list event) : list float :=
  omap (fun e => match e with Sleep d => Some d | _ => None end) tr.

Definition prints_in (tr : list event) : list message :=
  omap (fun e => match e with Print m => Some m | _ => None end) tr.

Definition files_in (tr : list event) : list (string * DataFrame) :=
  omap (fun e => match e with ToCsv path df => Some (path, df) | _ => None end) tr.

(** What [s.get], [raise_for_status] and [resp.json] together give: the
    decoded body, or the first exception. *)
Definition attempt_outcome (r : result response) : result json :=
  let? resp := r in
  let? _ := raise_for_status resp in
  resp_json resp.

(** [wait_is py backoff i d]: after attempt [i], [backoff ** i] is
    computed, it is [d], and [time.sleep(d)] returns. *)
Definition wait_is (py : interpreter) (backoff : float) (i : nat) (d : float) : Prop :=
  float_pow py backoff (Z.of_nat i) = Ok d /\ time_sleep py d = Ok tt.

(** Every wait of a call with [tries] tries is computed and slept:
    those after the attempts [0] to [tries - 2]. *)
Definition waits_through (py : interpreter) (backoff : float) (tries : Z) : Prop :=
  forall i : nat, Z.of_nat i < tries - 1 -> exists d, wait_is py backoff i d.

(** The events of attempt number [i] when it ends in the caught exception
    [e] and the wait after it, if there is one, is [d]: the request, then
    the sleep or, after the last attempt, the diagnostic. *)
Definition failed_attempt (s : transport) (url : json) (tries : Z)
    (timeout : float) (d : float) (e : exn) (i : nat) : list event :=
  [ Get s url timeout;
    if Z.of_nat i <? tries - 1
    then Sleep d
    else Print (FetchFailed url tries e) ].

(** The log of a call of [fetch_json_with_retry] in which attempt [i] ends
    in the caught exception [errs i], for every [i] in [range(tries)], and
    the wait after attempt [i] is [wait i]. *)
Definition failing_trace (s : transport) (url : json) (tries : Z)
    (timeout : float) (wait : nat -> float) (errs : nat -> exn) : list event :=
  flat_map (fun i => failed_attempt s url tries timeout (wait i) (errs i) i)
           (seq 0 (Z.to_nat tries)).

(** ** The words of the specification *)

(** A graph node with a dataset relation: a map whose [dcat:dataset] is
    there and is not [null]. *)
Definition has_dataset (node : json) : Prop :=
  exists d ds, node = JDict d /\ d !! "dcat:dataset" = Some ds /\ ds <> JNull.

(** A graph node that is a map without a dataset relation. *)
Definition no_dataset (node : json) : Prop :=
  exists d, node = JDict d
            /\ (d !! "dcat:dataset" = None \/ d !! "dcat:dataset" = Some JNull).

(** [iri] is the [iri] field of the entry [o]. *)
Definition iri_of (o iri : json) : Prop :=
  exists d, o = JDict d /\ d !! "iri" = Some iri.

(** An entry that is a map without the [iri] key, or is not a map. *)
Definition lacks_iri (o : json) : Prop :=
  match o with JDict d => d !! "iri" = None | _ => True end.

Definition key_or_type_error (e : exn) : Prop :=
  exn_cls e = KeyError \/ exn_cls e = TypeError.

(** A dataset document: [null] (which the fetcher also returns when it
    gives up), or a map whose [features], when there, is a list. *)
Definition dataset_document (doc : json) : Prop :=
  doc = JNull
  \/ exists d, doc = JDict d
               /\ (d !! "features" = None \/ exists l, d !! "features" = Some (JList l)).

(** The features list of a document; empty when it has none. *)
Definition features_list (doc : json) : list json :=
  match doc with
  | JDict d => match d !! "features" with Some (JList l) => l | _ => [] end
  | _ => []
  end.

(** The entries of the features list that are maps. *)
Definition contribution (doc : json) : list json :=
  List.filter is_dict (features_list doc).

(** A fetched document whose features list is missing or empty. *)
Definition lacks_features (doc : json) : bool :=
  match doc with
  | JNull => false
  | _ => match features_list doc with [] => true | _ :: _ => false end
  end.

(** The world after the warning for [uri], when [doc] calls for one. *)
Definition warned (uri doc : json) (w : world) : world :=
  if lacks_features doc
  then World (network w) (issued w) (log w ++ [Print (FeaturesEmpty uri)])
  else w.

(** [fetched py uris w docs w']: starting in [w], the patient fetch of
    each of [uris] in turn returns the corresponding one of [docs] ([null]
    for a fetch that gave up), each followed by its warning if it lacks
    features, and leaves [w']. *)
Inductive fetched (py : interpreter)
    : list json -> world -> list json -> world -> Prop :=
| fetched_nil (w : world) : fetched py [] w [] w
| fetched_cons (uri : json) (uris : list json) (w w1 w2 : world)
      (doc : json) (docs : list json) :
    fetch_json_with_retry py uri (Some Session) 6 30.0%float 1.7%float w
    = (Ok doc, w1) ->
    fetched py uris (warned uri doc w1) docs w2 ->
    fetched py (uri :: uris) w (doc :: docs) w2.

(** Every request is answered by a dataset document or ends in an
    exception that the fetcher catches. *)
Definition well_served (w : world) : Prop :=
  forall n url,
    match attempt_outcome (network w n url) with
    | Ok doc => dataset_document doc
    | Raise e => fetch_catches e = true
    end.

(** The properties mapping of a feature; empty when the feature has none. *)
Definition properties_of (feature : json) : gmap string json :=
  match feature with
  | JDict f => match f !! "properties" with Some (JDict p) => p | _ => ∅ end
  | _ => ∅
  end.

Definition geometry_of (feature : json) : gmap string json :=
  match feature with
  | JDict f => match f !! "geometry" with Some (JDict g) => g | _ => ∅ end
  | _ => ∅
  end.

(** The coordinate sequence of a feature; empty when it has none. *)
Definition coordinates_of (feature : json) : list json :=
  match geometry_of feature !! "coordinates" with
  | Some (JList cs) => cs
  | _ => []
  end.

(** A field of the properties mapping, the empty string when absent. *)
Definition field (name : string) (feature : json) : json :=
  default (JStr "") (properties_of feature !! name).

(** The first two coordinates when there are at least two, as they are;
    the empty string otherwise. *)
Definition x_of (feature : json) : json :=
  match coordinates_of feature with x :: _ :: _ => x | _ => JStr "" end.

Definition y_of (feature : json) : json :=
  match coordinates_of feature with _ :: y :: _ => y | _ => JStr "" end.

(** The elements of the coordinates of a feature: those of a list, the
    characters of a string, and none when the coordinates are absent or
    anything else. *)
Definition coordinate_values (feature : json) : list json :=
  match geometry_of feature !! "coordinates" with
  | Some (JList cs) => cs
  | Some (JStr s) => JStr <$> Py.chars s
  | _ => []
  end.

(** The first two of them when there are at least two; the empty string
    otherwise. *)
Definition first_coordinate (feature : json) : json :=
  match coordinate_values feature with x :: _ :: _ => x | _ => JStr "" end.

Definition second_coordinate (feature : json) : json :=
  match coordinate_values feature with _ :: y :: _ => y | _ => JStr "" end.

(** A value that is absent, a map, or falsy ([null], [false], [0], [""],
    [[]], [{}]). *)
Definition map_or_falsy (o : option json) : Prop :=
  match o with
  | None | Some (JDict _) => True
  | Some v => truthy v = false
  end.

Definition list_or_falsy (o : option json) : Prop :=
  match o with
  | None | Some (JList _) => True
  | Some v => truthy v = false
  end.

(** A feature of the data model: a map whose [properties] and [geometry]
    are maps and whose [coordinates] is a list, each possibly absent or
    falsy. *)
Definition well_shaped (feature : json) : Prop :=
  exists f, feature = JDict f
            /\ map_or_falsy (f !! "properties")
            /\ map_or_falsy (f !! "geometry")
            /\ list_or_falsy (geometry_of feature !! "coordinates").

(** The fourteen columns, each as the values of its field over the
    features. *)
Definition columns_of (features : list json) : columns :=
  {| ids := field "identifier" <$> features;
     nuts3_names := field "nuts3_name" <$> features;
     nuts3_ids := field "nuts3_id" <$> features;
     lau1_names := field "lau1_name" <$> features;
     lau1_ids := field "lau1_id" <$> features;
     lau2_names := field "lau2_name" <$> features;
     lau2_ids := field "lau2_id" <$> features;
     district_names := field "district_name" <$> features;
     streetnames := field "streetname" <$> features;
     propertyregistrationnumbers := field "propertyregistrationnumber" <$> features;
     orientationnumbers := field "orientationnumber" <$> features;
     postalcodes := field "postalcode" <$> features;
     coord_x := x_of <$> features;
     coord_y := y_of <$> features |}.

(** Column by column, the lists of [a] followed by those of [b]. *)
Definition columns_app (a b : columns) : columns :=
  {| ids := ids a ++ ids b;
     nuts3_names := nuts3_names a ++ nuts3_names b;
     nuts3_ids := nuts3_ids a ++ nuts3_ids b;
     lau1_names := lau1_names a ++ lau1_names b;
     lau1_ids := lau1_ids a ++ lau1_ids b;
     lau2_names := lau2_names a ++ lau2_names b;
     lau2_ids := lau2_ids a ++ lau2_ids b;
     district_names := district_names a ++ district_names b;
     streetnames := streetnames a ++ streetnames b;
     propertyregistrationnumbers :=
       propertyregistrationnumbers a ++ propertyregistrationnumbers b;
     orientationnumbers := orientationnumbers a ++ orientationnumbers b;
     postalcodes := postalcodes a ++ postalcodes b;
     coord_x := coord_x a ++ coord_x b;
     coord_y := coord_y a ++ coord_y b |}.

(** The fourteen cells of one feature, each in its list. *)
Definition cells_of (feature : json) : columns :=
  {| ids := [field "identifier" feature];
     nuts3_names := [field "nuts3_name" feature];
     nuts3_ids := [field "nuts3_id" feature];
     lau1_names := [field "lau1_name" feature];
     lau1_ids := [field "lau1_id" feature];
     lau2_names := [field "lau2_name" feature];
     lau2_ids := [field "lau2_id" feature];
     district_names := [field "district_name" feature];
     streetnames := [field "streetname" feature];
     propertyregistrationnumbers := [field "propertyregistrationnumber" feature];
     orientationnumbers := [field "orientationnumber" feature];
     postalcodes := [field "postalcode" feature];
     coord_x := [first_coordinate feature];
     coord_y := [second_coordinate feature] |}.

(** The column names of the table that come from a property, each with
    its property. *)
Definition property_columns : list (string * string) :=
  [ ("Identifikátor", "identifier");
    ("Kraj", "nuts3_name");
    ("ID kraja", "nuts3_id");
    ("Okres", "lau1_name");
    ("ID Okresu", "lau1_id");
    ("Obec", "lau2_name");
    ("ID obce", "lau2_id");
    ("Časť obce", "district_name");
    ("Ulica", "streetname");
    ("Súpisné číslo", "propertyregistrationnumber");
    ("Orientačné číslo celé", "orientationnumber");
    ("PSČ", "postalcode") ]%string.

(** The column of [t] named [name]. *)
Fixpoint table_column (t : table) (name : string) : option (list json) :=
  match t with
  | [] => None
  | (n, col) :: rest => if String.eqb n name then Some col else table_column rest name
  end.

(** The cell of [t] in column [name] and row [i]. *)
Definition table_cell (t : table) (name : string) (i : nat) : option json :=
  match table_column t name with
  | Some col => col !! i
  | None => None
  end.

(** Every list of [c] has [n] entries. *)
Definition all_length (n : nat) (c : columns) : Prop :=
  Forall (fun col => length col.2 = n) (res_of c).

(** The names of the output files. *)
Definition aggregate_path : string := dest_root ++ "kraje.csv".

Definition region_path (abb : string) : string := dest_root ++ abb ++ ".csv".

(** The rows of [df] whose cell in column [i] is the region name [kraj]. *)
Definition rows_of_region (df : DataFrame) (i : nat) (kraj : string) : list (list json) :=
  List.filter (fun row => eq_str kraj (cell i row)) (df_rows df).

(** The file of one entry of [name_to_abb]: none when no row is of that
    region. *)
Definition region_file (df : DataFrame) (i : nat) (entry : string * string)
    : option (string * DataFrame) :=
  match rows_of_region df i entry.1 with
  | [] => None
  | rows => Some (region_path entry.2, {| df_columns := df_columns df; df_rows := rows |})
  end.

(** The sort of the rows of [df] by column [i] returns [rows], which are
    the rows of [df] permuted. *)
Definition sort_returns (pd : pandas) (df : DataFrame) (i : nat)
    (rows : list (list json)) : Prop :=
  sort_rows_by pd (cell i) (df_rows df) = Ok rows
  /\ Permutation rows (df_rows df).

(** The check of the names in column [i] of [rows] returns: [unique]
    gives the distinct values that are not missing, and [sorted] gives
    [missing], the names to warn about. *)
Definition names_checked (pd : pandas) (rows : list (list json)) (i : nat)
    (missing : list json) : Prop :=
  exists values,
    unique pd (dropna (cell i <$> rows)) = Ok values
    /\ sorted pd (unmapped values) = Ok missing.

(** The lines of the warning about the names [missing]. *)
Definition warning (missing : list json) : list event :=
  match missing with
  | [] => []
  | _ :: _ => Print UnmappedNames :: ((fun k => Print (Unmapped k)) <$> missing)
  end.

(** The world in which the script calls [parse_dataset]: the directory is
    made and the first banner printed. *)
Definition started (w : world) : world :=
  World (network w) (issued w)
        ((log w ++ [Mkdir dest_root]) ++ [Print (Banner "Obtaining URIs...")]).

(** ** Concrete instances, for the examples *)

Module Sample.

(** [b ** n] by repeated multiplication; exact for [n = 0] and [n = 1]. *)
Definition pow (b : float) (n : Z) : float :=
  Nat.iter (Z.to_nat n) (fun acc => (acc * b)%float) 1%float.

(** [**] as CPython has it: a power of a finite base that is out of the
    range of a [float] is an [OverflowError]. *)
Definition power (b : float) (n : Z) : result float :=
  let r := pow b n in
  if PrimFloat.is_infinity r && PrimFloat.is_finite b
  then Raise (Exn OverflowError "(34, 'Numerical result out of range')")
  else Ok r.

(** [time.sleep] as CPython has it: NaN is refused; the length in
    nanoseconds has to fit the signed 64-bit timestamp, which about 9.2e9
    seconds no longer do; and the length must not be negative. *)
Definition nap (seconds : float) : result unit :=
  if PrimFloat.is_nan seconds
  then Raise (Exn ValueError "Invalid value NaN (not a number)")
  else if ((-9223372036854775808 <=? seconds * 1e9)
           && (seconds * 1e9 <? 9223372036854775808))%float
  then if (seconds <? 0)%float
       then Raise (Exn ValueError "sleep length must be non-negative")
       else Ok tt
  else Raise (Exn OverflowError "timestamp too large to convert to C _PyTime_t").

Definition cpython : interpreter := Interpreter power nap.

(** A number as Python compares it: an [int] ([True] is 1 and [False]
    is 0) or a [float]. *)
Inductive number :=
| Int (z : Z)
| Float (f : float).

Definition number_of (v : json) : option number :=
  match v with
  | JBool b => Some (Int (if b then 1 else 0))
  | JInt z => Some (Int z)
  | JFloat f => Some (Float f)
  | _ => None
  end.

(** An [int] against a [float], by their exact values; nothing for NaN. *)
Definition compare_int_float (z : Z) (f : float) : option comparison :=
  match Prim2SF f with
  | S754_nan => None
  | S754_infinity negative => Some (if negative then Gt else Lt)
  | S754_zero _ => Some (z ?= 0)
  | S754_finite negative m e =>
      let v := if negative then Z.neg m else Z.pos m in
      Some (if 0 <=? e then z ?= v * 2 ^ e else z * 2 ^ (- e) ?= v)
  end.

Definition number_lt (a b : number) : bool :=
  match a, b with
  | Int x, Int y => x <? y
  | Float x, Float y => (x <? y)%float
  | Int x, Float y => match compare_int_float x y with Some Lt => true | _ => false end
  | Float x, Int y => match compare_int_float y x with Some Gt => true | _ => false end
  end.

Definition number_eq (a b : number) : bool :=
  match a, b with
  | Int x, Int y => x =? y
  | Float x, Float y => (x =? y)%float
  | Int x, Float y | Float y, Int x =>
      match compare_int_float x y with Some Eq => true | _ => false end
  end.

Definition unorderable : exn := Exn TypeError "'<' not supported between instances".
Definition unhashable : exn := Exn TypeError "unhashable type".

(** [a < b] on cells: two strings by their characters, two numbers by
    their values, and a [TypeError] on a string against a number, on
    [None] and on a [dict].  (Python orders two lists by their elements;
    no list is compared in the examples.) *)
Definition lt (a b : json) : result bool :=
  match a, b with
  | JStr s, JStr t => Ok (String.ltb s t)
  | _, _ =>
      match number_of a, number_of b with
      | Some x, Some y => Ok (number_lt x y)
      | _, _ => Raise unorderable
      end
  end.

Fixpoint insert {A} (key : A -> json) (x : A) (ordered : list A) : result (list A) :=
  match ordered with
  | [] => Ok [x]
  | y :: rest =>
      let? smaller := lt (key y) (key x) in
      if smaller
      then let? rest' := insert key x rest in Ok (y :: rest')
      else Ok (x :: y :: rest)
  end.

(** A stable insertion sort: equal keys keep their order, and the
    [TypeError] of a comparison ends it. *)
Definition sort_by {A} (key : A -> json) (xs : list A) : result (list A) :=
  foldr (fun x acc => let? ordered := acc in insert key x ordered) (Ok []) xs.

(** The sort of pandas: the rows whose key is missing come last, in the
    order they have; the others are sorted. *)
Definition stable_sort (key : list json -> json) (rows : list (list json))
    : result (list (list json)) :=
  let? ordered := sort_by key (List.filter (fun r => negb (isna (key r))) rows) in
  Ok (ordered ++ List.filter (fun r => isna (key r)) rows).

(** What can be hashed: anything but a [list] and a [dict]. *)
Definition hashable (v : json) : bool :=
  match v with JList _ | JDict _ => false | _ => true end.

(** [a == b] on values that can be hashed. *)
Definition same (a b : json) : bool :=
  match a, b with
  | JNull, JNull => true
  | JStr s, JStr t => String.eqb s t
  | _, _ =>
      match number_of a, number_of b with
      | Some x, Some y => number_eq x y
      | _, _ => false
      end
  end.

(** The distinct values, each where it comes first. *)
Definition distinct (values : list json) : result (list json) :=
  if forallb hashable values
  then Ok (foldl (fun seen v => if existsb (same v) seen then seen else seen ++ [v])
                 [] values)
  else Raise unhashable.

(** [sorted(s)] for the set [s] of the values. *)
Definition ascending (values : list json) : result (list json) :=
  let? set := distinct values in
  sort_by id set.

Definition frames : pandas := Pandas stable_sort distinct ascending.

Definition http_500 : exn := Exn HTTPError "500 Server Error".
Definition not_json : exn := Exn JSONDecodeError "Expecting value: line 1 column 1 (char 0)".

Definition ok_response (body : json) : result response :=
  Ok {| raise_for_status := Ok tt; resp_json := Ok body |}.

Definition status_500 : result response :=
  Ok {| raise_for_status := Raise http_500; resp_json := Raise not_json |}.

Definition html_page : result response :=
  Ok {| raise_for_status := Ok tt; resp_json := Raise not_json |}.

(** Every request is answered by status 500. *)
Definition down : world := World (fun _ _ => status_500) O [].

(** Requests are answered in turn by status 500 and by a page that is not
    JSON. *)
Definition flaky : world :=
  World (fun n _ => if Nat.even n then status_500 else html_page) O [].

Definition feature1 : json :=
  JDict (<["properties" :=
             JDict (<["nuts3_name" := JStr "Bratislavský"]>
                    (<["identifier" := JStr "A1"]> ∅))]>
         (<["geometry" :=
             JDict (<["coordinates" := JList [JFloat 17.1; JFloat 48.1]]> ∅)]> ∅)).

Definition catalog : json :=
  JDict (<["@graph" :=
     JList [JDict (<["dcat:dataset" := JList [JDict (<["iri" := JStr "http://x/1"]> ∅)]]> ∅)]]> ∅).

Definition dataset1 : json :=
  JDict (<["features" := JList [feature1]]> ∅).

(** A catalog whose second node lists two datasets and whose third node
    lists another. *)
Definition catalog3 : json :=
  JDict (<["@graph" :=
     JList [ JDict ∅;
             JDict (<["dcat:dataset" :=
                        JList [JDict (<["iri" := JStr "http://x/1"]> ∅);
                               JDict (<["iri" := JStr "http://x/2"]> ∅)]]> ∅);
             JDict (<["dcat:dataset" := JList [JDict (<["iri" := JStr "http://y"]> ∅)]]> ∅) ]]> ∅).

(** A catalog whose dataset relation has an entry without [iri]. *)
Definition catalog_bad : json :=
  JDict (<["@graph" :=
     JList [ JDict (<["dcat:dataset" :=
                        JList [JDict (<["iri" := JStr "http://x/1"]> ∅);
                               JDict (<["url" := JStr "http://x/2"]> ∅)]]> ∅) ]]> ∅).

Definition serving (doc : json) : world := World (fun _ _ => ok_response doc) O [].

(** A feature with one coordinate only. *)
Definition feature_short : json :=
  JDict (<["properties" := JDict (<["postalcode" := JStr "81101"]> ∅)]>
         (<["geometry" := JDict (<["coordinates" := JList [JFloat 17.1]]> ∅)]> ∅)).

(** Features whose parts are [null], [0], [""] and [false]. *)
Definition feature_nulls : json :=
  JDict (<["properties" := JNull]>
         (<["geometry" := JDict (<["coordinates" := JNull]> ∅)]> ∅)).

Definition feature_zeros : json :=
  JDict (<["properties" := JStr ""]> (<["geometry" := JInt 0]> ∅)).

(** A table of four rows: two regions of [name_to_abb], a name outside
    it and an empty name. *)
Definition table4 : table :=
  [ ("Identifikátor", [JStr "A1"; JStr "A2"; JStr "A3"; JStr "A4"]);
    ("Kraj", [JStr "Žilinský"; JStr "Atlantis"; JStr "Bratislavský"; JStr ""]) ]%string.

Definition frame4 : DataFrame :=
  {| df_columns := ["Identifikátor"; "Kraj"]%string;
     df_rows := [ [JStr "A1"; JStr "Žilinský"]; [JStr "A2"; JStr "Atlantis"];
                  [JStr "A3"; JStr "Bratislavský"]; [JStr "A4"; JStr ""] ] |}.

(** A dataset whose features list has entries that are not maps. *)
Definition dataset_mixed : json :=
  JDict (<["features" := JList [feature1; JInt 3; JStr "x"; JDict ∅; JNull]]> ∅).

(** [http://x/1] serves [dataset_mixed], [http://x/2] a document without
    features, and every other URL status 500. *)
Definition datasets : world :=
  World (fun _ url =>
           match url with
           | JStr u => if String.eqb u "http://x/1" then ok_response dataset_mixed
                       else if String.eqb u "http://x/2" then ok_response (JDict ∅)
                       else status_500
           | _ => Raise (Exn RequestException "Invalid URL")
           end) O [].

(** The catalog lists one dataset, which holds one feature. *)
Definition served : world :=
  World (fun _ url =>
           match url with
           | JStr u => if String.eqb u URI_root then ok_response catalog
                       else if String.eqb u "http://x/1" then ok_response dataset1
                       else status_500
           | _ => Raise (Exn RequestException "Invalid URL")
           end) O [].

End Sample.

(** ** What a call may leave in the log *)

(** An event of a call of the fetcher for [url] through [s]: a request for
    that URL with that timeout, a sleep, or the diagnostic of that URL. *)
Definition fetcher_event (s : transport) (url : json) (tries : Z) (timeout : float)
    (e : event) : Prop :=
  match e with
  | Get s' url' timeout' => s' = s /\ url' = url /\ timeout' = timeout
  | Sleep _ => True
  | Print (FetchFailed url' tries' _) => url' = url /\ tries' = tries
  | _ => False
  end.

(** An event of [collect_features] on [uris]: an event of the patient fetch
    of one of them through the session, or the warning for one of them. *)
Definition collector_event (uris : list json) (e : event) : Prop :=
  match e with
  | Print (FeaturesEmpty uri) => In uri uris
  | _ => exists uri, In uri uris
                     /\ fetcher_event (ViaSession Session) uri 6 30.0%float e
  end.

(** A value that is neither a list, a map nor a string. *)
Definition scalar (v : json) : Prop :=
  match v with
  | JNull | JBool _ | JInt _ | JFloat _ => True
  | _ => False
  end.

(** Column by column, the entries of [ta] followed by those of [tb]. *)
Definition table_app (ta tb : table) : table :=
  zip_with (fun ca cb => (ca.1, ca.2 ++ cb.2)) ta tb.

(** A truthy value that is not a map. *)
Definition not_a_map (v : json) : Prop := truthy v = true /\ is_dict v = false.

(** ** More concrete instances *)

Module Cases.

(** Status 500, then a page that is not JSON, then the catalog. *)
Definition third_time : world :=
  World (fun n _ => match n with
                    | O => Sample.status_500
                    | S O => Sample.html_page
                    | _ => Sample.ok_response Sample.catalog
                    end) O [].

(** Status 500, then a request that ends in an exception of a class that
    the fetcher does not catch. *)
Definition interrupted : world :=
  World (fun n _ => match n with
                    | O => Sample.status_500
                    | _ => Raise (Exn OtherException "interrupted")
                    end) O [].

(** A catalog whose graph is [null]. *)
Definition catalog_null_graph : json := JDict (<["@graph" := JNull]> ∅).

(** A catalog whose second node is a string; the third lists a dataset. *)
Definition catalog_string_node : json :=
  JDict (<["@graph" :=
     JList [ JDict ∅; JStr "node";
             JDict (<["dcat:dataset" := JList [JDict (<["iri" := JStr "http://y"]> ∅)]]> ∅) ]]> ∅).

(** [http://x/1] serves a dataset document, any other URL a JSON array. *)
Definition arrays : world :=
  World (fun _ url =>
           match url with
           | JStr u => if String.eqb u "http://x/1" then Sample.ok_response Sample.dataset_mixed
                       else Sample.ok_response (JList [Sample.feature1])
           | _ => Raise (Exn RequestException "Invalid URL")
           end) O [].

(** A feature whose [properties] is a string. *)
Definition feature_text : json :=
  JDict (<["properties" := JStr "Bratislavský"]> ∅).

(** A feature whose [coordinates] is a number. *)
Definition feature_number : json :=
  JDict (<["geometry" := JDict (<["coordinates" := JFloat 17.1]> ∅)]> ∅).

(** A feature whose region name is [null] and whose postal code is a
    number. *)
Definition feature_typed : json :=
  JDict (<["properties" :=
             JDict (<["nuts3_name" := JNull]> (<["postalcode" := JInt 81101]> ∅))]> ∅).

(** A table whose Kraj column holds a string and a number. *)
Definition table_mixed : table :=
  [ ("Identifikátor", [JStr "A1"; JStr "A2"]);
    ("Kraj", [JStr "Bratislavský"; JInt 5]) ]%string.

Definition frame_mixed : DataFrame :=
  {| df_columns := ["Identifikátor"; "Kraj"]%string;
     df_rows := [ [JStr "A1"; JStr "Bratislavský"]; [JStr "A2"; JInt 5] ] |}.

(** A table of one row whose Kraj is a list. *)
Definition table_list : table :=
  [ ("Identifikátor", [JStr "A1"]); ("Kraj", [JList [JStr "a"]]) ]%string.

Definition frame_list : DataFrame :=
  {| df_columns := ["Identifikátor"; "Kraj"]%string;
     df_rows := [ [JStr "A1"; JList [JStr "a"]] ] |}.

(** The rows of the table of three features, as the sample sort orders
    them by their second cell, Kraj. *)
Definition rows3 : list (list json) :=
  Eval vm_compute in
    match create_table [Sample.feature1; JDict ∅; Sample.feature_short] with
    | Ok t => match DataFrame_of t with
              | Ok df => match Sample.stable_sort (cell 1) (df_rows df) with
                         | Ok rows => rows
                         | Raise _ => []
                         end
              | Raise _ => []
              end
    | Raise _ => []
    end.

(** A table with a header and no rows. *)
Definition table0 : table := [ ("Identifikátor", []); ("Kraj", []) ]%string.

Definition frame0 : DataFrame :=
  {| df_columns := ["Identifikátor"; "Kraj"]%string; df_rows := [] |}.

End Cases.

(** * Properties *)

(** ** The monad *)

Lemma bind_ok {A B} (c : M A) (k : A -> M B) (w w' : world) (a : A) :
  c w = (Ok a, w') -> bind c k w = k a w'.
Proof. intros H. unfold bind. now rewrite H. Qed.

Lemma bind_raise {A B} (c : M A) (k : A -> M B) (w w' : world) (e : exn) :
  c w = (Raise e, w') -> bind c k w = (Raise e, w').
Proof. intros H. unfold bind. now rewrite H. Qed.

Lemma log_app_assoc (w : world) (a b : list event) :
  (log w ++ a) ++ b = log w ++ (a ++ b).
Proof. now rewrite <- app_assoc. Qed.

(** ** The retrying fetcher *)

Section Fetcher.

Variable py : interpreter.
Variables (s : transport) (url : json) (tries : Z) (timeout backoff : float).

(** One attempt: the request is issued and logged, and what follows is
    decided by the outcome of the three calls of the [try] body and, in
    the handler, by the power and the sleep. *)
Lemma attempt_once_unfold (attempt : Z) (w : world) :
  attempt_once py s url tries timeout backoff attempt w =
  let w1 := World (network w) (S (issued w)) (log w ++ [Get s url timeout]) in
  match attempt_outcome (network w (issued w) url) with
  | Ok j => (Ok (Some j), w1)
  | Raise e =>
      if fetch_catches e
      then if attempt <? tries - 1
           then match float_pow py backoff attempt with
                | Ok d =>
                    match time_sleep py d with
                    | Ok _ => (Ok None,
                               World (network w) (S (issued w))
                                 (log w ++ [Get s url timeout; Sleep d]))
                    | Raise e' => (Raise e', w1)
                    end
                | Raise e' => (Raise e', w1)
                end
           else (Ok None,
                 World (network w) (S (issued w))
                   (log w ++ [Get s url timeout; Print (FetchFailed url tries e)]))
      else (Raise e, w1)
  end.
Proof.
  unfold attempt_once, try_except, bind, http_get, lift, attempt_outcome, Py.bind.
  destruct (network w (issued w) url) as [[[[]|e1] [j|e2]]|e0]; cbn;
    try reflexivity;
    match goal with
    | |- context [fetch_catches ?e] => destruct (fetch_catches e); try reflexivity
    end;
    (destruct (attempt <? tries - 1); cbn;
     [ destruct (float_pow py backoff attempt) as [d|e']; cbn; [|reflexivity];
       unfold sleep, bind, lift, emit, ret; cbn;
       destruct (time_sleep py d) as [[]|e']; cbn; [|reflexivity];
       now rewrite <- app_assoc
     | unfold ret, print, emit; cbn; now rewrite <- app_assoc ]).
Qed.

(** A caught failure that is followed by its wait, or is the last one,
    lets the loop go on. *)
Lemma attempt_once_caught (attempt : nat) (w : world) (e : exn) (d : float) :
  attempt_outcome (network w (issued w) url) = Raise e ->
  fetch_catches e = true ->
  (Z.of_nat attempt < tries - 1 -> wait_is py backoff attempt d) ->
  attempt_once py s url tries timeout backoff (Z.of_nat attempt) w
  = (Ok None,
     World (network w) (S (issued w))
       (log w ++ failed_attempt s url tries timeout d e attempt)).
Proof.
  intros Hout Hcatch Hwait. rewrite attempt_once_unfold. cbn zeta.
  rewrite Hout, Hcatch. unfold failed_attempt.
  destruct (Z.of_nat attempt <? tries - 1) eqn:Hlast; [|reflexivity].
  apply Z.ltb_lt in Hlast. destruct (Hwait Hlast) as [Hpow Hsleep].
  now rewrite Hpow, Hsleep.
Qed.

Lemma retry_all_fail (errs : nat -> exn) (wait : nat -> float) (base : nat) :
  forall (n k : nat) (w : world),
    issued w = (base + k)%nat ->
    (forall i, (k <= i < k + n)%nat ->
       attempt_outcome (network w (base + i)%nat url) = Raise (errs i)
       /\ fetch_catches (errs i) = true) ->
    (forall i, (k <= i < k + n)%nat -> Z.of_nat i < tries - 1 ->
       wait_is py backoff i (wait i)) ->
    for_return (Z.of_nat <$> seq k n)
               (attempt_once py s url tries timeout backoff) w
    = (Ok None,
       World (network w) (base + k + n)
         (log w ++ flat_map
            (fun i => failed_attempt s url tries timeout (wait i) (errs i) i)
            (seq k n))).
Proof.
  induction n as [|n IH]; intros k w Hk Hfail Hwait.
  - cbn. unfold ret. destruct w as [net iss lg]; cbn in *.
    rewrite app_nil_r. do 2 f_equal. lia.
  - cbn [seq fmap list_fmap for_return flat_map].
    destruct (Hfail k ltac:(lia)) as [Hout Hcatch].
    unfold bind at 1.
    rewrite (attempt_once_caught k w (errs k) (wait k)).
    + rewrite (IH (S k)); cbn [network issued log].
      * rewrite <- app_assoc. do 2 f_equal. lia.
      * lia.
      * intros i Hi. apply Hfail. lia.
      * intros i Hi. apply Hwait. lia.
    + now rewrite Hk.
    + exact Hcatch.
    + apply Hwait. lia.
Qed.

Lemma reads_of_sleeping_attempts (errs : nat -> exn) (wait : nat -> float) :
  forall (m k : nat),
    Z.of_nat (k + m) <= tries - 1 ->
    let tr := flat_map
      (fun i => failed_attempt s url tries timeout (wait i) (errs i) i)
      (seq k m) in
    attempts_in tr = replicate m url
    /\ sleeps_in tr = wait <$> seq k m
    /\ prints_in tr = [].
Proof.
  induction m as [|m IH]; intros k Hk; cbn.
  - auto.
  - destruct (IH (S k) ltac:(lia)) as (Ha & Hs & Hp).
    replace (Z.of_nat k <? tries - 1) with true by (symmetry; apply Z.ltb_lt; lia).
    unfold attempts_in, sleeps_in, prints_in in *. cbn.
    rewrite Ha, Hs, Hp. auto.
Qed.

Lemma reads_of_failing_trace (errs : nat -> exn) (wait : nat -> float) :
  1 <= tries ->
  let tr := failing_trace s url tries timeout wait errs in
  attempts_in tr = replicate (Z.to_nat tries) url
  /\ sleeps_in tr = wait <$> seq 0 (Z.to_nat tries - 1)
  /\ prints_in tr = [FetchFailed url tries (errs (Z.to_nat tries - 1)%nat)].
Proof.
  intros Htries. unfold failing_trace.
  replace (Z.to_nat tries) with (S (Z.to_nat (tries - 1))) by lia.
  set (n := Z.to_nat (tries - 1)).
  rewrite seq_S, flat_map_app. cbn [flat_map Nat.add].
  destruct (reads_of_sleeping_attempts errs wait n 0 ltac:(lia)) as (Ha & Hs & Hp).
  cbn zeta in *. unfold attempts_in, sleeps_in, prints_in in *.
  rewrite !omap_app, Ha, Hs, Hp. unfold failed_attempt.
  replace (Z.of_nat n <? tries - 1) with false by (symmetry; apply Z.ltb_ge; lia).
  cbn. rewrite app_nil_r. repeat split.
  - now rewrite <- replicate_S_end.
  - now rewrite Nat.sub_0_r.
  - now rewrite Nat.sub_0_r.
Qed.

End Fetcher.

(** An interpreter whose power and sleep never raise computes and sleeps
    every wait, whatever the factor and the number of tries. *)
Lemma total_waits_through (pow : float -> Z -> float) (backoff : float) (tries : Z) :
  waits_through (Interpreter (fun b n => Ok (pow b n)) (fun _ => Ok tt)) backoff tries.
Proof. intros i _. eexists. split; reflexivity. Qed.

(** The waits of the sample interpreter for the default policy and for
    the policy of the collector. *)
Lemma cpython_waits (backoff : float) (tries : Z) :
  backoff = 1.5%float \/ backoff = 1.7%float ->
  tries <= 6 ->
  forall i : nat, Z.of_nat i < tries - 1 ->
    wait_is Sample.cpython backoff i (Sample.pow backoff (Z.of_nat i)).
Proof.
  intros Hb Htries i Hi.
  assert (Hcase : i = 0%nat \/ i = 1%nat \/ i = 2%nat \/ i = 3%nat \/ i = 4%nat) by lia.
  destruct Hb as [-> | ->];
    destruct Hcase as [-> | [-> | [-> | [-> | ->]]]];
    split; vm_compute; reflexivity.
Qed.

(** C1, with the condition it needs.  Let each of the [tries >= 1]
    attempts end in an exception that the [except] clause catches (the
    [HTTPError] of an error status, the [ValueError] of a body that is not
    JSON, or another [RequestException]), and let each wait be computed
    and slept: [backoff ** i] is [wait i] and [time.sleep] accepts it, for
    [i = 0 .. tries - 2].  Then [fetch_json_with_retry] returns [None]
    without raising, after exactly [tries] requests, with the sleep
    [backoff ** i] after attempt [i] for [i = 0 .. tries - 2] and, after
    the last attempt, one diagnostic line that carries the URL, [tries]
    and the last exception. *)
Theorem fetch_exhausts_its_tries (py : interpreter)
    (url : json) (session : option session) (tries : Z)
    (timeout backoff : float) (w : world) (errs : nat -> exn) (wait : nat -> float) :
  1 <= tries ->
  (forall i, (i < Z.to_nat tries)%nat ->
     attempt_outcome (network w (issued w + i)%nat url) = Raise (errs i)
     /\ fetch_catches (errs i) = true) ->
  (forall i : nat, Z.of_nat i < tries - 1 -> wait_is py backoff i (wait i)) ->
  let tr := failing_trace (session_or_requests session) url tries timeout wait errs in
  fetch_json_with_retry py url session tries timeout backoff w
  = (Ok JNull, World (network w) (issued w + Z.to_nat tries) (log w ++ tr))
  /\ attempts_in tr = replicate (Z.to_nat tries) url
  /\ sleeps_in tr = wait <$> seq 0 (Z.to_nat tries - 1)
  /\ prints_in tr = [FetchFailed url tries (errs (Z.to_nat tries - 1)%nat)].
Proof.
  intros Htries Hfail Hwait tr. split.
  - unfold fetch_json_with_retry, range. cbn zeta.
    erewrite bind_ok.
    2:{ apply (retry_all_fail py _ url tries timeout backoff errs wait (issued w)).
        - lia.
        - intros i Hi. apply Hfail. lia.
        - intros i _ Hi. now apply Hwait. }
    unfold ret. do 2 f_equal. lia.
  - now apply reads_of_failing_trace.
Qed.

(** C1 on a server that answers in turn with status 500 and with a page
    that is not JSON. *)
Lemma fetch_exhausts_its_tries_flaky :
  let errs := fun i => if Nat.even i then Sample.http_500 else Sample.not_json in
  let wait := fun i => Sample.pow 1.5 (Z.of_nat i) in
  let tr := failing_trace RequestsModule (JStr "u") 3 30.0 wait errs in
  fetch_json_with_retry Sample.cpython (JStr "u") None 3 30.0 1.5 Sample.flaky
  = (Ok JNull, World (network Sample.flaky) 3 tr)
  /\ attempts_in tr = [JStr "u"; JStr "u"; JStr "u"]
  /\ sleeps_in tr = [1; 1.5]%float
  /\ prints_in tr = [FetchFailed (JStr "u") 3 Sample.http_500].
Proof.
  apply (fetch_exhausts_its_tries Sample.cpython (JStr "u") None 3 30.0 1.5 Sample.flaky
           (fun i => if Nat.even i then Sample.http_500 else Sample.not_json)
           (fun i => Sample.pow 1.5 (Z.of_nat i))).
  - lia.
  - intros i Hi.
    destruct i as [|[|[|i]]]; [split; reflexivity .. | exfalso; cbn in Hi; lia].
  - apply cpython_waits; [now left | lia].
Defined.

(** C1 as stated fails.  With [tries = 3] and [backoff = 1e10], on a
    server that answers every request with status 500, the first wait is
    [1e10 ** 0 = 1] second; the second, [1e10 ** 1] seconds, is more than
    [time.sleep] takes: its [OverflowError] is raised inside the handler
    and leaves the function, after two requests instead of three and with
    no diagnostic line. *)
Lemma fetch_raises_on_long_wait :
  fetch_json_with_retry Sample.cpython (JStr "u") None 3 30.0 1e10 Sample.down
  = (Raise (Exn OverflowError "timestamp too large to convert to C _PyTime_t"),
     World (network Sample.down) 2
       [Get RequestsModule (JStr "u") 30.0%float; Sleep 1%float;
        Get RequestsModule (JStr "u") 30.0%float])
  /\ (1 <=? 3) = true /\ (1.0 <? 1e10)%float = true
  /\ (forall i, attempt_outcome (network Sample.down i (JStr "u"))
                = Raise Sample.http_500)
  /\ fetch_catches Sample.http_500 = true.
Proof. repeat split. Qed.

(** ** The catalog resolver *)

Lemma for_return_skip {A R} (body : A -> M (option R)) (before rest : list A) (w : world) :
  Forall (fun x => forall w, body x w = (Ok None, w)) before ->
  for_return (before ++ rest) body w = for_return rest body w.
Proof.
  induction 1 as [|x before Hx _ IH]; [reflexivity|].
  cbn. unfold bind at 1. now rewrite Hx.
Qed.

Lemma for_return_none {A R} (body : A -> M (option R)) (xs : list A) (w : world) :
  Forall (fun x => forall w, body x w = (Ok None, w)) xs ->
  for_return xs body w = (Ok None, w).
Proof.
  intros H. rewrite <- (app_nil_r xs). now rewrite for_return_skip.
Qed.

Lemma comprehension_ok {A B} (f : A -> result B) (l : list A) (ys : list B) :
  Forall2 (fun x y => f x = Ok y) l ys -> Py.comprehension f l = Ok ys.
Proof.
  induction 1 as [|x y l ys Hx _ IH]; [reflexivity|].
  cbn. now rewrite Hx, IH.
Qed.

Lemma comprehension_raise {A B} (f : A -> result B) (P : exn -> Prop) (l : list A) :
  Exists (fun x => exists e, f x = Raise e /\ P e) l ->
  (forall x e, f x = Raise e -> P e) ->
  exists e, Py.comprehension f l = Raise e /\ P e.
Proof.
  intros Hex HP. induction Hex as [x l (e & He & HPe)|x l _ IH].
  - exists e. cbn. now rewrite He.
  - cbn. destruct (f x) as [y|e] eqn:Hx.
    + destruct IH as (e & -> & HPe). now exists e.
    + exists e. split; [reflexivity|]. now apply (HP x).
Qed.

Lemma getitem_iri_of (o iri : json) : iri_of o iri -> Py.getitem o "iri" = Ok iri.
Proof. intros (d & -> & Hd). cbn. now rewrite Hd. Qed.

Lemma getitem_raises (o : json) (key : string) (e : exn) :
  Py.getitem o key = Raise e -> key_or_type_error e.
Proof.
  unfold key_or_type_error.
  destruct o as [| | | | | |d]; cbn; try (intros [= <-]; now auto).
  destruct (d !! key); intros [= <-]; now auto.
Qed.

Lemma getitem_lacks_iri (o : json) :
  lacks_iri o -> exists e, Py.getitem o "iri" = Raise e /\ key_or_type_error e.
Proof.
  intros H. destruct (Py.getitem o "iri") as [v|e] eqn:Hg.
  - destruct o; cbn in *; try discriminate. now rewrite H in Hg.
  - exists e. split; [reflexivity|]. now apply (getitem_raises _ _ _ Hg).
Qed.

Lemma dataset_of_node_none (g : json) (w : world) :
  no_dataset g -> dataset_of_node g w = (Ok None, w).
Proof.
  intros (d & -> & [H|H]); unfold dataset_of_node, bind, lift; cbn; now rewrite H.
Qed.

Lemma dataset_of_node_some (d : gmap string json) (entries iris : list json) (w : world) :
  d !! "dcat:dataset" = Some (JList entries) ->
  Forall2 iri_of entries iris ->
  dataset_of_node (JDict d) w = (Ok (Some iris), w).
Proof.
  intros Hd Hiris. unfold dataset_of_node, bind, lift. cbn. rewrite Hd. cbn.
  rewrite (comprehension_ok _ entries iris); [reflexivity|].
  eapply Forall2_impl; [exact Hiris|]. intros o iri. apply getitem_iri_of.
Qed.

Lemma dataset_of_node_bad_entry (d : gmap string json) (entries : list json) (w : world) :
  d !! "dcat:dataset" = Some (JList entries) ->
  Exists lacks_iri entries ->
  exists e, dataset_of_node (JDict d) w = (Raise e, w) /\ key_or_type_error e.
Proof.
  intros Hd Hbad. unfold dataset_of_node, bind, lift. cbn. rewrite Hd. cbn.
  destruct (comprehension_raise (fun o => Py.getitem o "iri") key_or_type_error entries)
    as (e & -> & He).
  - eapply Exists_impl; [exact Hbad|]. intros o. apply getitem_lacks_iri.
  - intros o e. apply getitem_raises.
  - now exists e.
Qed.

Section Resolver.

Variable py : interpreter.

Lemma parse_dataset_of_null (uri : json) (w w' : world) :
  fetch_json_with_retry py uri None default_tries default_timeout default_backoff w
  = (Ok JNull, w') ->
  parse_dataset py uri w = (Raise Py.no_attribute_get, w').
Proof.
  intros Hfetch. unfold parse_dataset.
  rewrite (bind_ok _ _ _ _ _ Hfetch). reflexivity.
Qed.

(** After a fetched map with a graph list, [parse_dataset] is the scan of
    the nodes. *)
Lemma parse_dataset_of_graph (uri : json) (w w' : world)
    (doc : gmap string json) (nodes : list json) :
  fetch_json_with_retry py uri None default_tries default_timeout default_backoff w
  = (Ok (JDict doc), w') ->
  default (JList []) (doc !! "@graph") = JList nodes ->
  parse_dataset py uri w =
  match for_return nodes dataset_of_node w' with
  | (Ok (Some iris), w'') => (Ok iris, w'')
  | (Ok None, w'') => (Ok [], w'')
  | (Raise e, w'') => (Raise e, w'')
  end.
Proof.
  intros Hfetch Hgraph. unfold parse_dataset.
  rewrite (bind_ok _ _ _ _ _ Hfetch).
  unfold bind, lift. cbn. rewrite Hgraph. cbn.
  destruct (for_return nodes dataset_of_node w') as [[[iris|]|e] w'']; reflexivity.
Qed.

Lemma scan_reaches (before rest : list json) (w : world) :
  Forall (fun n => ~ has_dataset n) before ->
  for_return (before ++ rest) dataset_of_node w = for_return rest dataset_of_node w
  \/ for_return (before ++ rest) dataset_of_node w = (Raise Py.no_attribute_get, w).
Proof.
  induction 1 as [|n before Hn _ IH]; [now left|].
  cbn [app for_return]. unfold bind at 1 2.
  destruct n as [| | | | | |d]; try (right; reflexivity).
  assert (Hno : no_dataset (JDict d)).
  { exists d. split; [reflexivity|].
    destruct (d !! "dcat:dataset") as [ds|] eqn:Hd; [|now left].
    destruct ds; try (exfalso; apply Hn; eexists _, _; now eauto).
    now right. }
  rewrite (dataset_of_node_none _ w Hno). exact IH.
Qed.

End Resolver.

(** C5.  When the fetch of the catalog gives [None], [parse_dataset] raises
    the [AttributeError] of [r.get] in the world the fetch left; and the
    script, which calls it on [URI_root] right after its first banner,
    ends there with that exception: no dataset is requested and no file
    is written. *)
Theorem null_catalog_is_fatal (py : interpreter)
    (uri : json) (w w' : world) :
  fetch_json_with_retry py uri None default_tries default_timeout default_backoff w
  = (Ok JNull, w') ->
  parse_dataset py uri w = (Raise Py.no_attribute_get, w')
  /\ (forall w0, uri = JStr URI_root -> w = started w0 ->
        load_table py w0 = (Raise Py.no_attribute_get, w')).
Proof.
  intros Hfetch.
  pose proof (parse_dataset_of_null py uri w w' Hfetch) as Hparse.
  split; [exact Hparse|].
  intros w0 -> ->. unfold load_table.
  unfold bind at 1, mkdir at 1, emit at 1. cbn.
  unfold bind at 1, print at 1, emit at 1. cbn.
  unfold started in Hparse. now rewrite Hparse.
Qed.

(** C5 on a server that answers every request with status 500: the run
    ends after the five requests for the catalog. *)
Lemma null_catalog_is_fatal_down :
  exists w',
    load_table Sample.cpython Sample.down = (Raise Py.no_attribute_get, w')
    /\ attempts_in (log w') = replicate 5 (JStr URI_root)
    /\ files_in (log w') = [].
Proof.
  eexists. split.
  - apply (null_catalog_is_fatal Sample.cpython (JStr URI_root) (started Sample.down) _);
      [vm_compute; reflexivity | reflexivity | reflexivity].
  - split; reflexivity.
Defined.

(** C6.  Let the fetched catalog be a map whose graph is the list [nodes].
    When the first node that has a dataset relation (a [dcat:dataset] that
    is not [null]) comes after maps without one and lists entries with an
    [iri] each, [parse_dataset] returns those [iri] values in order,
    whatever the nodes after it hold; when no node has a dataset
    relation, it returns the empty list. *)
Theorem parse_dataset_first_relation (py : interpreter)
    (uri : json) (w w' : world) (doc : gmap string json) (nodes : list json) :
  fetch_json_with_retry py uri None default_tries default_timeout default_backoff w
  = (Ok (JDict doc), w') ->
  default (JList []) (doc !! "@graph") = JList nodes ->
  (forall before g after entries iris,
      nodes = before ++ JDict g :: after ->
      Forall no_dataset before ->
      g !! "dcat:dataset" = Some (JList entries) ->
      Forall2 iri_of entries iris ->
      parse_dataset py uri w = (Ok iris, w'))
  /\ (Forall no_dataset nodes -> parse_dataset py uri w = (Ok [], w')).
Proof.
  intros Hfetch Hgraph.
  rewrite (parse_dataset_of_graph py uri w w' doc nodes Hfetch Hgraph).
  split.
  - intros before g after entries iris -> Hbefore Hg Hiris.
    rewrite for_return_skip.
    + cbn [for_return]. unfold bind at 1.
      now rewrite (dataset_of_node_some g entries iris w' Hg Hiris).
    + eapply Forall_impl; [exact Hbefore|]. intros n Hn w0.
      now apply dataset_of_node_none.
  - intros Hnone. rewrite for_return_none; [reflexivity|].
    eapply Forall_impl; [exact Hnone|]. intros n Hn w0.
    now apply dataset_of_node_none.
Qed.

(** C6 on a catalog whose first node has no relation, whose second lists
    two datasets and whose third lists another. *)
Lemma parse_dataset_first_relation_catalog3 :
  parse_dataset Sample.cpython (JStr URI_root) (Sample.serving Sample.catalog3)
  = (Ok [JStr "http://x/1"; JStr "http://x/2"],
     World (network (Sample.serving Sample.catalog3)) 1
           [Get RequestsModule (JStr URI_root) default_timeout]).
Proof.
  refine (proj1 (parse_dataset_first_relation Sample.cpython (JStr URI_root)
                   (Sample.serving Sample.catalog3) _ _ _ _ _)
                [JDict ∅] _ _ _ _ _ _ _ _).
  - vm_compute. reflexivity.
  - vm_compute. reflexivity.
  - reflexivity.
  - repeat constructor. exists ∅. split; [reflexivity | now left].
  - vm_compute. reflexivity.
  - repeat constructor; eexists; (split; [reflexivity|]); vm_compute; reflexivity.
Defined.

(** C9.  Let the fetched catalog be a map whose graph is a list.  When the
    first node with a dataset relation lists an entry that is a map
    without [iri], or that is not a map, [parse_dataset] raises: the
    [KeyError] or [TypeError] of [o["iri"]] (or, when a node before that
    one is not a map, the [AttributeError] of [g.get]).  No entry is
    skipped and no default is put in its place. *)
Theorem parse_dataset_bad_entry_raises (py : interpreter)
    (uri : json) (w w' : world) (doc : gmap string json)
    (before after entries : list json) (g : gmap string json) :
  fetch_json_with_retry py uri None default_tries default_timeout default_backoff w
  = (Ok (JDict doc), w') ->
  default (JList []) (doc !! "@graph") = JList (before ++ JDict g :: after) ->
  Forall (fun n => ~ has_dataset n) before ->
  g !! "dcat:dataset" = Some (JList entries) ->
  Exists lacks_iri entries ->
  exists e,
    parse_dataset py uri w = (Raise e, w')
    /\ (key_or_type_error e
        \/ (e = Py.no_attribute_get /\ ~ Forall no_dataset before)).
Proof.
  intros Hfetch Hgraph Hbefore Hg Hbad.
  rewrite (parse_dataset_of_graph py uri w w' doc _ Hfetch Hgraph).
  destruct (scan_reaches before (JDict g :: after) w' Hbefore) as [Hscan|Hscan];
    rewrite Hscan.
  - cbn [for_return]. unfold bind at 1.
    destruct (dataset_of_node_bad_entry g entries w' Hg Hbad) as (e & -> & He).
    exists e. now auto.
  - exists Py.no_attribute_get. split; [reflexivity|]. right. split; [reflexivity|].
    intros Hall. rewrite for_return_skip in Hscan.
    + cbn [for_return] in Hscan. unfold bind at 1 in Hscan.
      destruct (dataset_of_node_bad_entry g entries w' Hg Hbad) as (e & He & [Hk|Hk]);
        rewrite He in Hscan; injection Hscan as ->; discriminate.
    + eapply Forall_impl; [exact Hall|]. intros n Hn w0.
      now apply dataset_of_node_none.
Qed.

(** C9 on a catalog whose second entry has [url] where [iri] should be. *)
Lemma parse_dataset_bad_entry_raises_sample :
  exists e,
    parse_dataset Sample.cpython (JStr URI_root) (Sample.serving Sample.catalog_bad)
    = (Raise e, World (network (Sample.serving Sample.catalog_bad)) 1
                      [Get RequestsModule (JStr URI_root) default_timeout])
    /\ (key_or_type_error e
        \/ (e = Py.no_attribute_get /\ ~ Forall no_dataset [])).
Proof.
  refine (parse_dataset_bad_entry_raises Sample.cpython (JStr URI_root)
            (Sample.serving Sample.catalog_bad) _ _ [] [] _ _ _ _ _ _ _).
  - vm_compute. reflexivity.
  - vm_compute. reflexivity.
  - constructor.
  - vm_compute. reflexivity.
  - apply Exists_cons_tl, Exists_cons_hd. vm_compute. reflexivity.
Defined.

Example parse_dataset_bad_entry_is_KeyError :
  fst (parse_dataset Sample.cpython (JStr URI_root) (Sample.serving Sample.catalog_bad))
  = Raise (Py.key_error "iri").
Proof. vm_compute. reflexivity. Qed.

(** ** The feature collector *)

Section Collector.

Variable py : interpreter.

Lemma retry_loop_returns (P : json -> Prop) (s : transport) (url : json)
    (tries : Z) (timeout backoff : float) :
  waits_through py backoff tries ->
  forall (n k : nat) (w : world),
    (forall m, match attempt_outcome (network w m url) with
               | Ok doc => P doc
               | Raise e => fetch_catches e = true
               end) ->
    exists r w',
      for_return (Z.of_nat <$> seq k n)
                 (attempt_once py s url tries timeout backoff) w = (Ok r, w')
      /\ network w' = network w
      /\ match r with Some j => P j | None => True end.
Proof.
  intros Hwaits. induction n as [|n IH]; intros k w Hnet.
  - exists None, w. now cbn.
  - cbn [seq fmap list_fmap for_return]. unfold bind at 1.
    pose proof (Hnet (issued w)) as Hnow.
    destruct (attempt_outcome (network w (issued w) url)) as [j|e] eqn:Hout.
    + rewrite attempt_once_unfold. cbn zeta. rewrite Hout.
      eexists (Some j), _. now cbn.
    + assert (Hd : exists d, Z.of_nat k < tries - 1 -> wait_is py backoff k d).
      { destruct (Z_lt_dec (Z.of_nat k) (tries - 1)) as [Hlt|Hge].
        - destruct (Hwaits k Hlt) as [d Hd]. now exists d.
        - exists 0%float. intros Hlt. contradiction. }
      destruct Hd as [d Hd].
      rewrite (attempt_once_caught py s url tries timeout backoff k w e d Hout Hnow Hd).
      edestruct (IH (S k)) as (r & w' & Hloop & Hsame & Hr);
        [|exists r, w'; split; [exact Hloop|split; [|exact Hr]]].
      * cbn. exact Hnet.
      * now rewrite Hsame.
Qed.

(** On a network that raises nothing but what the fetcher catches, and
    with waits that are computed and slept, the fetcher returns: [None],
    or a body that the network served. *)
Lemma fetch_returns (P : json -> Prop) (url : json) (session : option session)
    (tries : Z) (timeout backoff : float) (w : world) :
  waits_through py backoff tries ->
  P JNull ->
  (forall m, match attempt_outcome (network w m url) with
             | Ok doc => P doc
             | Raise e => fetch_catches e = true
             end) ->
  exists j w',
    fetch_json_with_retry py url session tries timeout backoff w = (Ok j, w')
    /\ network w' = network w /\ P j.
Proof.
  intros Hwaits Hnull Hnet. unfold fetch_json_with_retry, range. cbn zeta.
  destruct (retry_loop_returns P (session_or_requests session) url tries timeout
              backoff Hwaits (Z.to_nat tries) 0 w Hnet)
    as (r & w' & Hloop & Hsame & Hr).
  rewrite (bind_ok _ _ _ _ _ Hloop).
  destruct r as [j|]; [exists j, w' | exists JNull, w']; now cbn.
Qed.

Lemma append_dicts_filter (F features : list json) :
  append_dicts features F = features ++ List.filter is_dict F.
Proof.
  unfold append_dicts. revert features.
  induction F as [|f F IH]; intros features; cbn.
  - now rewrite app_nil_r.
  - rewrite IH. destruct (is_dict f); [now rewrite <- app_assoc | reflexivity].
Qed.

(** One turn of the loop on a dataset document. *)
Lemma collect_from_document (features : list json) (uri doc : json) (w w1 : world) :
  fetch_json_with_retry py uri (Some Session) 6 30.0%float 1.7%float w
  = (Ok doc, w1) ->
  dataset_document doc ->
  collect_from py Session features uri w
  = (Ok (features ++ contribution doc), warned uri doc w1).
Proof.
  intros Hfetch Hdoc. unfold collect_from. rewrite (bind_ok _ _ _ _ _ Hfetch).
  unfold contribution, warned, lacks_features, features_list.
  destruct Hdoc as [->|(d & -> & [Hd|(l & Hd)])].
  - cbn. now rewrite app_nil_r.
  - unfold bind, lift, print, emit, ret. cbn. rewrite Hd. cbn.
    now rewrite app_nil_r.
  - unfold bind, lift, print, emit, ret. cbn. rewrite Hd. cbn.
    destruct l as [|f l]; cbn -[append_dicts List.filter].
    + now rewrite app_nil_r.
    + now rewrite append_dicts_filter.
Qed.

Lemma collect_loop (uris docs : list json) (w w' : world) :
  fetched py uris w docs w' ->
  Forall dataset_document docs ->
  forall acc,
    for_each uris acc (collect_from py Session) w
    = (Ok (acc ++ concat (contribution <$> docs)), w').
Proof.
  induction 1 as [w|uri uris w w1 w2 doc docs Hfetch _ IH]; intros Hdocs acc.
  - cbn. now rewrite app_nil_r.
  - apply Forall_cons in Hdocs as [Hdoc Hdocs].
    cbn [for_each]. unfold bind at 1.
    rewrite (collect_from_document acc uri doc w w1 Hfetch Hdoc).
    rewrite (IH Hdocs). cbn. now rewrite <- app_assoc.
Qed.

Lemma warned_network (uri doc : json) (w : world) :
  network (warned uri doc w) = network w.
Proof. unfold warned. now destruct (lacks_features doc). Qed.

Lemma well_served_fetched (uris : list json) :
  waits_through py 1.7%float 6 ->
  forall w, well_served w ->
    exists docs w', fetched py uris w docs w' /\ Forall dataset_document docs.
Proof.
  intros Hwaits. induction uris as [|uri uris IH]; intros w Hw.
  - exists [], w. split; constructor.
  - destruct (fetch_returns dataset_document uri (Some Session) 6 30.0%float 1.7%float w)
      as (doc & w1 & Hfetch & Hsame & Hdoc).
    + exact Hwaits.
    + now left.
    + intros m. apply Hw.
    + destruct (IH (warned uri doc w1)) as (docs & w2 & Hrest & Hdocs).
      * unfold well_served. rewrite warned_network, Hsame. exact Hw.
      * exists (doc :: docs), w2. split; [now apply (fetched_cons _ uri uris w w1 w2)|].
        now constructor.
Qed.

End Collector.

(** C7.  On dataset documents, [collect_features] returns, for the fetches
    of the URIs in turn, the concatenation in that order of the map
    entries of each document's features list.  A fetch that gives [None]
    contributes nothing and raises nothing; a document without features,
    or with an empty list, contributes nothing and has its warning
    printed (this is [warned], inside [fetched]).  And when every request
    is answered by a dataset document or by an exception that the fetcher
    catches, such a run exists for every list of URIs, on an interpreter
    that computes and sleeps the five waits of the collector's policy,
    [1.7 ** 0] to [1.7 ** 4] seconds (about 8.4 at most), as CPython
    does. *)
Theorem collect_features_concatenates (py : interpreter)
    (uris : list json) (w : world) :
  (forall docs w',
     fetched py uris w docs w' ->
     Forall dataset_document docs ->
     collect_features py uris w = (Ok (concat (contribution <$> docs)), w'))
  /\ (well_served w -> waits_through py 1.7%float 6 ->
      exists docs w',
        fetched py uris w docs w' /\ Forall dataset_document docs)
  /\ contribution JNull = []
  /\ (forall uri doc w1,
        doc <> JNull -> features_list doc = [] ->
        contribution doc = []
        /\ prints_in (log (warned uri doc w1))
           = prints_in (log w1) ++ [FeaturesEmpty uri]).
Proof.
  split; [|split; [|split]].
  - intros docs w' Hrun Hdocs. unfold collect_features. cbn zeta.
    now rewrite (collect_loop py uris docs w w' Hrun Hdocs []).
  - intros Hserved Hwaits. now apply well_served_fetched.
  - reflexivity.
  - intros uri doc w1 Hdoc Hnone. unfold contribution, warned, lacks_features.
    rewrite Hnone. split; [reflexivity|].
    destruct doc; try contradiction; cbn; unfold prints_in; now rewrite omap_app.
Qed.

Lemma datasets_well_served : well_served Sample.datasets.
Proof.
  intros n url. destruct url as [| | | |u| |]; try reflexivity. cbn.
  destruct (String.eqb u "http://x/1").
  - right. eexists. split; [reflexivity|]. right. eexists. vm_compute. reflexivity.
  - destruct (String.eqb u "http://x/2"); [|reflexivity].
    right. exists ∅. split; [reflexivity|]. now left.
Qed.

(** The sample interpreter computes and sleeps the five waits of the
    collector: 1, 1.7, 2.89, 4.913 and 8.3521 seconds, up to rounding. *)
Lemma cpython_waits_through : waits_through Sample.cpython 1.7%float 6.
Proof.
  intros i Hi. eexists. apply (cpython_waits 1.7 6); [now right | lia | exact Hi].
Qed.

(** C7 on three URIs: a document with entries that are not maps, a server
    that answers status 500, and a document without features; and, on
    that network, for whatever URIs. *)
Lemma collect_features_concatenates_sample :
  (exists w',
     collect_features Sample.cpython
       [JStr "http://x/1"; JStr "http://down"; JStr "http://x/2"] Sample.datasets
     = (Ok [Sample.feature1; JDict ∅], w')
     /\ prints_in (log w')
        = [FetchFailed (JStr "http://down") 6 Sample.http_500;
           FeaturesEmpty (JStr "http://x/2")])
  /\ forall uris, exists docs w',
       fetched Sample.cpython uris Sample.datasets docs w'
       /\ Forall dataset_document docs.
Proof.
  split.
  - eexists. split.
    + refine (proj1 (collect_features_concatenates Sample.cpython _ Sample.datasets)
                [Sample.dataset_mixed; JNull; JDict ∅] _ _ _).
      * eapply fetched_cons; [vm_compute; reflexivity|].
        eapply fetched_cons; [vm_compute; reflexivity|].
        eapply fetched_cons; [vm_compute; reflexivity|].
        apply fetched_nil.
      * constructor; [|constructor; [now left|constructor; [|constructor]]].
        -- right. eexists. split; [reflexivity|]. right. eexists. vm_compute. reflexivity.
        -- right. exists ∅. split; [reflexivity|]. now left.
    + vm_compute. reflexivity.
  - intros uris.
    exact (proj1 (proj2 (collect_features_concatenates Sample.cpython uris Sample.datasets))
             datasets_well_served cpython_waits_through).
Defined.

(** ** The two fetch policies *)

Section Policies.

Variable py : interpreter.

Lemma lift_world {A} (r : result A) (w : world) : (lift r w).2 = w.
Proof. reflexivity. Qed.

Lemma dataset_of_node_world (g : json) (w : world) : (dataset_of_node g w).2 = w.
Proof.
  unfold dataset_of_node, bind, lift, ret.
  destruct (Py.get g "dcat:dataset" JNull) as [ds|e]; [|reflexivity].
  destruct ds; try reflexivity;
    match goal with
    | |- context [Py.iter ?v] => destruct (Py.iter v) as [entries|e]; [|reflexivity]
    end;
    destruct (Py.comprehension _ entries); reflexivity.
Qed.

Lemma for_return_world {A R} (body : A -> M (option R)) (xs : list A) :
  (forall x w, (body x w).2 = w) ->
  forall w, (for_return xs body w).2 = w.
Proof.
  intros Hbody. induction xs as [|x xs IH]; intros w; [reflexivity|].
  cbn. unfold bind. specialize (Hbody x w).
  destruct (body x w) as [[[v|]|e] w1]; cbn in *; subst; auto.
Qed.

(** The effects of [parse_dataset] are those of one fetch with the
    default policy. *)
Lemma parse_dataset_world (uri : json) (w : world) :
  (parse_dataset py uri w).2
  = (fetch_json_with_retry py uri None default_tries default_timeout
       default_backoff w).2.
Proof.
  unfold parse_dataset. unfold bind at 1.
  destruct (fetch_json_with_retry _ _ _ _ _ _ w) as [[r|e] w1]; [|reflexivity].
  unfold bind at 1, lift at 1.
  destruct (Py.get r "@graph" (JList [])) as [graph|e]; [|reflexivity].
  unfold bind at 1, lift at 1.
  destruct (Py.iter graph) as [nodes|e]; [|reflexivity].
  unfold bind.
  pose proof (for_return_world dataset_of_node nodes dataset_of_node_world w1) as Hw.
  destruct (for_return nodes dataset_of_node w1) as [[[iris|]|e] w2];
    cbn in *; now subst.
Qed.

(** The effects of one turn of [collect_features] are those of one fetch
    with six tries and factor 1.7, and then at most the warning. *)
Lemma collect_from_world (features : list json) (uri : json) (w : world) :
  let w1 := (fetch_json_with_retry py uri (Some Session) 6 30.0%float
               1.7%float w).2 in
  let w2 := (collect_from py Session features uri w).2 in
  w2 = w1
  \/ w2 = World (network w1) (issued w1) (log w1 ++ [Print (FeaturesEmpty uri)]).
Proof.
  cbn zeta. unfold collect_from.
  destruct (fetch_json_with_retry _ _ _ _ _ _ w) as [[r|e] w1] eqn:Hfetch.
  2:{ rewrite (bind_raise _ _ _ _ _ Hfetch). left; reflexivity. }
  rewrite (bind_ok _ _ _ _ _ Hfetch). cbn [snd].
  destruct r as [| | | | | |d]; try (left; reflexivity).
  unfold bind, lift, print, emit, ret. cbn.
  destruct (truthy (default (JList []) (d !! "features"))); [|right; reflexivity].
  left. destruct (Py.iter _); reflexivity.
Qed.

End Policies.

(** C8, as the code has it.  [parse_dataset] fetches with the defaults of
    the fetcher, 5 tries and factor 1.5; each turn of [collect_features]
    fetches with 6 tries and factor 1.7: more tries, and a larger growth
    factor, so that the waits of the per-dataset fetch grow faster than
    the default ones. *)
Theorem fetch_policies (py : interpreter)
    (uri : json) (features : list json) (w : world) :
  (parse_dataset py uri w).2
  = (fetch_json_with_retry py uri None default_tries default_timeout
       default_backoff w).2
  /\ (let w1 := (fetch_json_with_retry py uri (Some Session) 6 30.0%float
                   1.7%float w).2 in
      let w2 := (collect_from py Session features uri w).2 in
      w2 = w1
      \/ w2 = World (network w1) (issued w1) (log w1 ++ [Print (FeaturesEmpty uri)]))
  /\ default_tries = 5 /\ default_backoff = 1.5%float
  /\ default_tries < 6
  /\ (default_backoff <? 1.7)%float = true.
Proof.
  split; [apply parse_dataset_world|].
  split; [apply collect_from_world|].
  repeat split.
Qed.

(** C8 as stated fails: on a server that answers every request with status
    500, the waits of the catalog fetch are 1, 1.5, 2.25, 3.375 and those
    of a dataset fetch are 1, 1.7 and larger, so the per-dataset waits do
    not stay at or under the default ones: they grow faster. *)
Lemma dataset_backoff_is_not_slower :
  let u := JStr "http://x/1" in
  let catalog_sleeps := sleeps_in (log (parse_dataset Sample.cpython u Sample.down).2) in
  let dataset_sleeps := sleeps_in (log (collect_features Sample.cpython [u] Sample.down).2) in
  catalog_sleeps = [1; 1.5; 2.25; 3.375]%float
  /\ dataset_sleeps !! 1%nat = Some 1.7%float
  /\ length dataset_sleeps = 5%nat
  /\ ~ (forall i c d,
          catalog_sleeps !! i = Some c -> dataset_sleeps !! i = Some d ->
          (d <=? c)%float = true).
Proof.
  cbn zeta. split; [vm_compute; reflexivity|].
  split; [vm_compute; reflexivity|].
  split; [vm_compute; reflexivity|].
  intros H. specialize (H 1%nat 1.5%float 1.7%float).
  assert (Hle : (1.7 <=? 1.5)%float = true).
  { apply H; vm_compute; reflexivity. }
  vm_compute in Hle. discriminate.
Qed.

(** ** The row flattener *)

Lemma py_or_map (o : option json) :
  map_or_falsy o ->
  py_or (default JNull o) (JDict ∅)
  = JDict (match o with Some (JDict p) => p | _ => ∅ end).
Proof.
  unfold py_or. destruct o as [v|]; [|reflexivity].
  destruct v as [| | | | | |d]; cbn [map_or_falsy default from_option id]; intros H;
    try (rewrite H; reflexivity).
  cbn. destruct (size d =? 0)%nat eqn:Hsize; [|reflexivity].
  apply Nat.eqb_eq, map_size_empty_iff in Hsize. now subst.
Qed.

Lemma py_or_list (o : option json) :
  list_or_falsy o ->
  py_or (default JNull o) (JList [])
  = JList (match o with Some (JList l) => l | _ => [] end).
Proof.
  unfold py_or. destruct o as [v|]; [|reflexivity].
  destruct v as [| | | | |l|]; cbn [list_or_falsy default from_option id]; intros H;
    try (rewrite H; reflexivity).
  now destruct l.
Qed.

Lemma falsy_map_is_empty (d : gmap string json) : truthy (JDict d) = false -> d = ∅.
Proof.
  cbn. intros H. apply negb_false_iff, Nat.eqb_eq in H.
  now apply map_size_empty_iff.
Qed.

(** [v or {}] is the map [v], or the empty map for a falsy [v]; any other
    [v] stays, and has no [.get]. *)
Lemma py_or_map_cases (v : json) :
  py_or v (JDict ∅) = JDict (match v with JDict d => d | _ => ∅ end)
  \/ (forall key dflt, Py.get (py_or v (JDict ∅)) key dflt = Raise Py.no_attribute_get).
Proof.
  unfold py_or. destruct (truthy v) eqn:Htruthy.
  - destruct v; try (right; reflexivity). now left.
  - left. destruct v; try reflexivity.
    now rewrite (falsy_map_is_empty _ Htruthy).
Qed.

(** The two coordinates that the loop takes from [v or []], when it takes
    them without raising. *)
Lemma coordinate_cells (v x y : json) (n : Z) :
  Py.len (py_or v (JList [])) = Ok n ->
  (if 2 <=? n then Py.index (py_or v (JList [])) 0 else Ok (JStr "")) = Ok x ->
  (if 2 <=? n then Py.index (py_or v (JList [])) 1 else Ok (JStr "")) = Ok y ->
  let values := match v with
                | JList cs => cs
                | JStr s => JStr <$> Py.chars s
                | _ => []
                end in
  x = match values with a :: _ :: _ => a | _ => JStr "" end
  /\ y = match values with _ :: b :: _ => b | _ => JStr "" end.
Proof.
  assert (Hlong : forall m : nat, (2 <=? Z.of_nat (S (S m))) = true).
  { intros m. apply Z.leb_le. lia. }
  assert (Hshort : forall (A : Type) (l : list A),
             (2 <=? Z.of_nat (length l)) = true -> exists a b l', l = a :: b :: l').
  { intros A [|a [|b l']] Hl; try (cbn in Hl; discriminate). now exists a, b, l'. }
  unfold py_or. destruct (truthy v) eqn:Htruthy.
  - destruct v as [| | | |s|l|d]; cbn [Py.len]; try discriminate; intros [= <-].
    + (* a string *)
      cbn [Py.index]. destruct (2 <=? Z.of_nat (length (Py.chars s))) eqn:Hlen.
      * destruct (Hshort _ _ Hlen) as (a & b & l' & ->). cbn.
        now intros [= <-] [= <-].
      * intros [= <-] [= <-]. cbn zeta. revert Hlen.
        destruct (Py.chars s) as [|a [|b l']]; try (now split).
        cbn [length]. now rewrite Hlong.
    + (* a list *)
      cbn [Py.index]. destruct (2 <=? Z.of_nat (length l)) eqn:Hlen.
      * destruct (Hshort _ _ Hlen) as (a & b & l' & ->). cbn.
        now intros [= <-] [= <-].
      * intros [= <-] [= <-]. cbn zeta. revert Hlen.
        destruct l as [|a [|b l']]; try (now split).
        cbn [length]. now rewrite Hlong.
    + (* a map *)
      cbn [Py.index]. destruct (2 <=? Z.of_nat (size d)); [discriminate|].
      now intros [= <-] [= <-].
  - cbn. intros [= <-]. cbn. intros [= <-] [= <-].
    destruct v as [| | | |s|l|d]; try (now split).
    + cbn in Htruthy. apply negb_false_iff, String.eqb_eq in Htruthy. now subst.
    + now destruct l.
Qed.

Lemma get_dict (d : gmap string json) (key : string) (dflt : json) :
  Py.get (JDict d) key dflt = Ok (default dflt (d !! key)).
Proof. reflexivity. Qed.

(** On a feature of the data model, one turn of the loop appends the
    fourteen cells of the feature. *)
Lemma flatten_feature_well_shaped (c : columns) (feature : json) :
  well_shaped feature ->
  flatten_feature c feature = Ok (columns_app c (columns_of [feature])).
Proof.
  intros (f & -> & Hp & Hg & Hc). unfold flatten_feature.
  rewrite !get_dict. cbn [Py.bind].
  rewrite (py_or_map _ Hp), (py_or_map _ Hg).
  rewrite !get_dict. cbn [Py.bind].
  change (match f !! "geometry" with Some (JDict g) => g | _ => ∅ end)
    with (geometry_of (JDict f)).
  rewrite (py_or_list _ Hc).
  change (match geometry_of (JDict f) !! "coordinates" with
          | Some (JList l) => l | _ => [] end)
    with (coordinates_of (JDict f)).
  unfold columns_app, columns_of, x_of, y_of, field. cbn [fmap list_fmap].
  change (match f !! "properties" with Some (JDict p) => p | _ => ∅ end)
    with (properties_of (JDict f)).
  destruct (coordinates_of (JDict f)) as [|x [|y cs]]; try reflexivity.
  cbn [Py.len Py.bind length].
  replace (2 <=? Z.of_nat (S (S (length cs)))) with true
    by (symmetry; apply Z.leb_le; lia).
  reflexivity.
Qed.

Lemma columns_app_assoc (a b c : columns) :
  columns_app (columns_app a b) c = columns_app a (columns_app b c).
Proof. unfold columns_app. cbn. now rewrite <- !app_assoc. Qed.

Lemma columns_app_nil_r (a : columns) : columns_app a no_columns = a.
Proof. destruct a. unfold columns_app. cbn. now rewrite !app_nil_r. Qed.

Lemma flatten_all_well_shaped (features : list json) :
  Forall well_shaped features ->
  forall c, flatten_all c features = Ok (columns_app c (columns_of features)).
Proof.
  induction 1 as [|feature features Hf _ IH]; intros c.
  - cbn [flatten_all]. f_equal. symmetry. apply columns_app_nil_r.
  - cbn [flatten_all]. rewrite (flatten_feature_well_shaped c feature Hf).
    cbn [Py.bind]. rewrite IH, columns_app_assoc. reflexivity.
Qed.

Lemma create_table_well_shaped (features : list json) :
  Forall well_shaped features ->
  create_table features = Ok (res_of (columns_of features)).
Proof.
  intros H. unfold create_table.
  rewrite (flatten_all_well_shaped features H no_columns). reflexivity.
Qed.

Ltac split_binds :=
  repeat match goal with
         | |- context [Py.bind ?r _] =>
             lazymatch r with
             | Ok _ => fail
             | _ => destruct r; cbn [Py.bind]
             end
         end.

(** One turn of the loop appends to the lists what it appends to empty
    lists. *)
Lemma flatten_feature_app (c : columns) (feature : json) :
  flatten_feature c feature
  = let? c1 := flatten_feature no_columns feature in Ok (columns_app c c1).
Proof.
  unfold flatten_feature. split_binds; reflexivity.
Qed.

Lemma flatten_all_app (features : list json) :
  forall c,
    flatten_all c features
    = let? cs := flatten_all no_columns features in Ok (columns_app c cs).
Proof.
  induction features as [|feature features IH]; intros c.
  - cbn. now rewrite columns_app_nil_r.
  - cbn [flatten_all]. rewrite (flatten_feature_app c).
    destruct (flatten_feature no_columns feature) as [c1|e]; [|reflexivity].
    cbn [Py.bind]. rewrite (IH (columns_app c c1)), (IH c1).
    destruct (flatten_all no_columns features) as [cs|e]; [|reflexivity].
    cbn [Py.bind]. now rewrite columns_app_assoc.
Qed.

Lemma all_length_app (n m : nat) (a b : columns) :
  all_length n a -> all_length m b -> all_length (n + m) (columns_app a b).
Proof.
  unfold all_length, res_of, columns_app. cbn [ids nuts3_names nuts3_ids lau1_names
    lau1_ids lau2_names lau2_ids district_names streetnames
    propertyregistrationnumbers orientationnumbers postalcodes coord_x coord_y].
  rewrite !Forall_cons. cbn [snd]. rewrite !length_app.
  intros (?&?&?&?&?&?&?&?&?&?&?&?&?&?&_) (?&?&?&?&?&?&?&?&?&?&?&?&?&?&_).
  repeat split; try lia. constructor.
Qed.

Lemma flatten_feature_singletons (feature : json) (c1 : columns) :
  flatten_feature no_columns feature = Ok c1 -> all_length 1 c1.
Proof.
  unfold flatten_feature. split_binds; intros [= <-].
  unfold all_length, res_of. cbn. repeat constructor.
Qed.

Lemma table_column_app (a b : columns) (name : string) :
  table_column (res_of (columns_app a b)) name
  = match table_column (res_of a) name, table_column (res_of b) name with
    | Some x, Some y => Some (x ++ y)
    | _, _ => None
    end.
Proof.
  unfold res_of, columns_app. cbn [table_column ids nuts3_names nuts3_ids lau1_names
    lau1_ids lau2_names lau2_ids district_names streetnames
    propertyregistrationnumbers orientationnumbers postalcodes coord_x coord_y].
  repeat match goal with
         | |- context [String.eqb ?s name] => destruct (String.eqb s name)
         end; reflexivity.
Qed.

Lemma table_column_length (n : nat) (c : columns) (name : string) (col : list json) :
  all_length n c -> table_column (res_of c) name = Some col -> length col = n.
Proof.
  unfold all_length, res_of. cbn [table_column].
  rewrite !Forall_cons. cbn [snd].
  intros (?&?&?&?&?&?&?&?&?&?&?&?&?&?&_).
  repeat match goal with
         | |- context [String.eqb ?s name] => destruct (String.eqb s name)
         end; intros [= <-]; assumption.
Qed.

Lemma all_length_columns_of (features : list json) :
  all_length (length features) (columns_of features).
Proof.
  unfold all_length, res_of, columns_of. cbn [ids nuts3_names nuts3_ids lau1_names
    lau1_ids lau2_names lau2_ids district_names streetnames
    propertyregistrationnumbers orientationnumbers postalcodes coord_x coord_y].
  repeat (constructor; [cbn [snd]; apply length_fmap|]). constructor.
Qed.

Lemma flatten_all_length (features : list json) (c : columns) :
  flatten_all no_columns features = Ok c -> all_length (length features) c.
Proof.
  revert c. induction features as [|feature features IH]; intros c.
  - cbn. intros [= <-]. unfold all_length, res_of. cbn. repeat constructor.
  - cbn [flatten_all].
    destruct (flatten_feature no_columns feature) as [c1|e] eqn:H1; [|discriminate].
    cbn [Py.bind]. rewrite flatten_all_app.
    destruct (flatten_all no_columns features) as [cs|e]; [|discriminate].
    cbn [Py.bind]. intros [= <-].
    apply (all_length_app 1 (length features)).
    + now apply (flatten_feature_singletons feature).
    + now apply IH.
Qed.

(** The cells of row [i] are those of the table of [features[i]] alone. *)
Lemma flatten_all_row (features : list json) :
  forall c i feature,
    flatten_all no_columns features = Ok c ->
    features !! i = Some feature ->
    exists c1, flatten_feature no_columns feature = Ok c1
               /\ forall name, table_cell (res_of c) name i
                               = table_cell (res_of c1) name 0.
Proof.
  induction features as [|f features IH]; intros c i feature Hall Hi; [discriminate|].
  cbn [flatten_all] in Hall.
  destruct (flatten_feature no_columns f) as [c1|e] eqn:H1; [|discriminate].
  cbn [Py.bind] in Hall. rewrite flatten_all_app in Hall.
  destruct (flatten_all no_columns features) as [cs|e] eqn:Hcs; [|discriminate].
  cbn [Py.bind] in Hall. injection Hall as <-.
  pose proof (flatten_feature_singletons f c1 H1) as Hone.
  destruct i as [|i]; cbn in Hi.
  - injection Hi as <-. exists c1. split; [exact H1|]. intros name.
    unfold table_cell. rewrite table_column_app.
    destruct (table_column (res_of c1) name) as [x|] eqn:Hx;
      destruct (table_column (res_of cs) name) as [y|] eqn:Hy; try reflexivity.
    + pose proof (table_column_length 1 c1 name x Hone Hx).
      destruct x as [|v [|]]; cbn in *; try lia. reflexivity.
    + exfalso. clear -Hx Hy. revert Hx Hy. unfold res_of. cbn [table_column].
      repeat match goal with
             | |- context [String.eqb ?s name] => destruct (String.eqb s name)
             end; discriminate.
  - destruct (IH cs i feature eq_refl Hi) as (c2 & H2 & Hcells).
    exists c2. split; [exact H2|]. intros name. rewrite <- Hcells.
    unfold table_cell. rewrite table_column_app.
    destruct (table_column (res_of c1) name) as [x|] eqn:Hx;
      destruct (table_column (res_of cs) name) as [y|] eqn:Hy; try reflexivity.
    + pose proof (table_column_length 1 c1 name x Hone Hx).
      destruct x as [|v [|]]; cbn in *; try lia. reflexivity.
    + exfalso. clear -Hx Hy. revert Hx Hy. unfold res_of. cbn [table_column].
      repeat match goal with
             | |- context [String.eqb ?s name] => destruct (String.eqb s name)
             end; discriminate.
Qed.

(** One turn of the loop, whenever it does not raise, appends the fourteen
    cells of the feature. *)
Lemma flatten_feature_cells (c c' : columns) (feature : json) :
  flatten_feature c feature = Ok c' -> c' = columns_app c (cells_of feature).
Proof.
  unfold flatten_feature.
  destruct feature as [| | | | | |f]; try discriminate.
  rewrite !get_dict. cbn [Py.bind].
  destruct (py_or_map_cases (default JNull (f !! "geometry"))) as [Hg|Hg];
    [rewrite Hg|now rewrite Hg].
  rewrite get_dict. cbn [Py.bind].
  assert (Hgeometry : match default JNull (f !! "geometry") with
                      | JDict d => d
                      | _ => ∅
                      end = geometry_of (JDict f)).
  { unfold geometry_of. now destruct (f !! "geometry") as [[]|]. }
  rewrite Hgeometry.
  set (v := default JNull (geometry_of (JDict f) !! "coordinates")).
  destruct (Py.len (py_or v (JList []))) as [n|e] eqn:Hn; [|discriminate].
  cbn [Py.bind].
  destruct (if 2 <=? n then Py.index (py_or v (JList [])) 0 else Ok (JStr ""))
    as [x|e] eqn:Hx; [|discriminate].
  cbn [Py.bind].
  destruct (if 2 <=? n then Py.index (py_or v (JList [])) 1 else Ok (JStr ""))
    as [y|e] eqn:Hy; [|discriminate].
  cbn [Py.bind].
  destruct (coordinate_cells v x y n Hn Hx Hy) as [-> ->].
  assert (Hvalues : match v with
                    | JList cs => cs
                    | JStr s => JStr <$> Py.chars s
                    | _ => []
                    end = coordinate_values (JDict f)).
  { unfold coordinate_values, v.
    now destruct (geometry_of (JDict f) !! "coordinates") as [[]|]. }
  cbn zeta. rewrite Hvalues. clear Hn Hx Hy Hvalues.
  destruct (py_or_map_cases (default JNull (f !! "properties"))) as [Hp|Hp];
    [rewrite Hp|now rewrite Hp].
  rewrite !get_dict. cbn [Py.bind].
  assert (Hproperties : match default JNull (f !! "properties") with
                        | JDict d => d
                        | _ => ∅
                        end = properties_of (JDict f)).
  { unfold properties_of. now destruct (f !! "properties") as [[]|]. }
  rewrite Hproperties. now intros [= <-].
Qed.

(** On a feature of the data model the two coordinates are those of the
    list. *)
Lemma coordinates_well_shaped (feature : json) :
  well_shaped feature ->
  first_coordinate feature = x_of feature
  /\ second_coordinate feature = y_of feature.
Proof.
  intros (f & -> & _ & _ & Hc).
  unfold first_coordinate, second_coordinate, x_of, y_of, coordinate_values,
    coordinates_of.
  destruct (geometry_of (JDict f) !! "coordinates") as [[| | | |s|l|d]|];
    try (now split).
  cbn in Hc. apply negb_false_iff, String.eqb_eq in Hc. now subst.
Qed.

(** The cells of a feature alone, in the table of that feature. *)
Lemma cells_of_table (feature : json) :
  let t1 := res_of (columns_app no_columns (cells_of feature)) in
  (forall col prop, In (col, prop) property_columns ->
     table_cell t1 col 0 = Some (field prop feature))
  /\ table_cell t1 "ADRBOD_X" 0 = Some (first_coordinate feature)
  /\ table_cell t1 "ADRBOD_Y" 0 = Some (second_coordinate feature).
Proof.
  cbn zeta. split; [|split; reflexivity].
  intros col prop Hin. unfold property_columns in Hin. cbn [In] in Hin.
  repeat (destruct Hin as [[= <- <-]|Hin]; [reflexivity|]).
  contradiction.
Qed.

(** C2.  On features of the data model, each of the twelve columns that
    come from a property holds, feature by feature, that field of the
    properties mapping, or the empty string when the field is absent; and
    ADRBOD_X and ADRBOD_Y hold the first two coordinates as they are when
    the coordinate sequence has at least two elements, and the empty
    string otherwise. *)
Theorem create_table_cells (features : list json) :
  Forall well_shaped features ->
  create_table features
  = Ok [ ("Identifikátor", field "identifier" <$> features);
         ("Kraj", field "nuts3_name" <$> features);
         ("ID kraja", field "nuts3_id" <$> features);
         ("Okres", field "lau1_name" <$> features);
         ("ID Okresu", field "lau1_id" <$> features);
         ("Obec", field "lau2_name" <$> features);
         ("ID obce", field "lau2_id" <$> features);
         ("Časť obce", field "district_name" <$> features);
         ("Ulica", field "streetname" <$> features);
         ("Súpisné číslo", field "propertyregistrationnumber" <$> features);
         ("Orientačné číslo celé", field "orientationnumber" <$> features);
         ("PSČ", field "postalcode" <$> features);
         ("ADRBOD_X", x_of <$> features);
         ("ADRBOD_Y", y_of <$> features) ]%string.
Proof.
  intros H. now rewrite (create_table_well_shaped features H).
Qed.

Ltac shaped :=
  eexists; split; [reflexivity|]; vm_compute; auto.

(** C2 on a feature with two coordinates, an empty feature and a feature
    with one coordinate. *)
Lemma create_table_cells_sample :
  create_table [Sample.feature1; JDict ∅; Sample.feature_short]
  = Ok [ ("Identifikátor", [JStr "A1"; JStr ""; JStr ""]);
         ("Kraj", [JStr "Bratislavský"; JStr ""; JStr ""]);
         ("ID kraja", [JStr ""; JStr ""; JStr ""]);
         ("Okres", [JStr ""; JStr ""; JStr ""]);
         ("ID Okresu", [JStr ""; JStr ""; JStr ""]);
         ("Obec", [JStr ""; JStr ""; JStr ""]);
         ("ID obce", [JStr ""; JStr ""; JStr ""]);
         ("Časť obce", [JStr ""; JStr ""; JStr ""]);
         ("Ulica", [JStr ""; JStr ""; JStr ""]);
         ("Súpisné číslo", [JStr ""; JStr ""; JStr ""]);
         ("Orientačné číslo celé", [JStr ""; JStr ""; JStr ""]);
         ("PSČ", [JStr ""; JStr ""; JStr "81101"]);
         ("ADRBOD_X", [JFloat 17.1; JStr ""; JStr ""]);
         ("ADRBOD_Y", [JFloat 48.1; JStr ""; JStr ""]) ]%string.
Proof.
  rewrite (create_table_cells [Sample.feature1; JDict ∅; Sample.feature_short]).
  - vm_compute. reflexivity.
  - constructor; [shaped|constructor; [shaped|constructor; [shaped|constructor]]].
Defined.

(** C3.  A table that [create_table] returns has the fourteen column names
    in their order, and every column has as many entries as there are
    features.  Row [i] is made of [features[i]]: each of the twelve
    property columns holds in row [i] that field of the properties of
    [features[i]] (the empty string when it is absent), ADRBOD_X and
    ADRBOD_Y hold its first two coordinates (the empty string when there
    are fewer than two), and the cells of row [i] are the cells of the
    table of [features[i]] alone.  On features of the data model
    [create_table] does return a table. *)
Theorem create_table_shape (features : list json) :
  (forall t, create_table features = Ok t ->
     fst <$> t
     = [ "Identifikátor"; "Kraj"; "ID kraja"; "Okres"; "ID Okresu"; "Obec";
         "ID obce"; "Časť obce"; "Ulica"; "Súpisné číslo";
         "Orientačné číslo celé"; "PSČ"; "ADRBOD_X"; "ADRBOD_Y" ]%string
     /\ Forall (fun col => length col.2 = length features) t
     /\ (forall i, (i < length features)%nat ->
          exists feature, features !! i = Some feature)
     /\ forall i feature,
          features !! i = Some feature ->
          (forall col prop, In (col, prop) property_columns ->
             table_cell t col i = Some (field prop feature))
          /\ table_cell t "ADRBOD_X" i = Some (first_coordinate feature)
          /\ table_cell t "ADRBOD_Y" i = Some (second_coordinate feature)
          /\ exists t1, create_table [feature] = Ok t1
                        /\ forall name, table_cell t name i = table_cell t1 name 0)
  /\ (Forall well_shaped features -> exists t, create_table features = Ok t).
Proof.
  split.
  - intros t. unfold create_table.
    destruct (flatten_all no_columns features) as [c|e] eqn:Hc; [|discriminate].
    cbn [Py.bind]. intros [= <-]. split; [reflexivity|].
    split; [now apply flatten_all_length|].
    split; [intros i Hi; now apply lookup_lt_is_Some_2|].
    intros i feature Hi.
    destruct (flatten_all_row features c i feature Hc Hi) as (c1 & H1 & Hcells).
    pose proof (flatten_feature_cells _ _ _ H1) as Hc1.
    destruct (cells_of_table feature) as (Hprops & Hx & Hy). cbn zeta in *.
    rewrite <- Hc1 in Hprops, Hx, Hy.
    split; [|split; [|split]].
    + intros col prop Hin. rewrite Hcells. now apply Hprops.
    + now rewrite Hcells.
    + now rewrite Hcells.
    + exists (res_of c1). split; [|exact Hcells].
      cbn [flatten_all]. now rewrite H1.
  - intros H. eexists. now apply create_table_well_shaped.
Qed.

(** C3 on three features: three entries in each of the fourteen columns,
    and in the third row the postal code and the one coordinate of the
    third feature. *)
Lemma create_table_shape_sample :
  exists t,
    create_table [Sample.feature1; JDict ∅; Sample.feature_short] = Ok t
    /\ length t = 14%nat
    /\ Forall (fun col => length col.2 = 3%nat) t
    /\ table_cell t "PSČ" 2 = Some (JStr "81101")
    /\ table_cell t "Kraj" 0 = Some (JStr "Bratislavský")
    /\ table_cell t "ADRBOD_X" 0 = Some (JFloat 17.1)
    /\ table_cell t "ADRBOD_X" 2 = Some (JStr "").
Proof.
  destruct (proj2 (create_table_shape [Sample.feature1; JDict ∅; Sample.feature_short]))
    as [t Ht].
  - constructor; [shaped|constructor; [shaped|constructor; [shaped|constructor]]].
  - exists t. split; [exact Ht|].
    destruct (proj1 (create_table_shape _) t Ht) as (Hnames & Hlen & _ & Hrows).
    split; [|split; [exact Hlen|]].
    + rewrite <- (length_fmap fst), Hnames. reflexivity.
    + destruct (Hrows 0%nat Sample.feature1 eq_refl) as (Hp0 & Hx0 & _).
      destruct (Hrows 2%nat Sample.feature_short eq_refl) as (Hp2 & Hx2 & _).
      repeat split.
      * apply (Hp2 "PSČ" "postalcode")%string. cbn. tauto.
      * apply (Hp0 "Kraj" "nuts3_name")%string. cbn. tauto.
      * exact Hx0.
      * exact Hx2.
Defined.

Lemma table_cell_property (features : list json) (col prop : string) (i : nat) :
  In (col, prop) property_columns ->
  table_cell (res_of (columns_of features)) col i = field prop <$> features !! i.
Proof.
  unfold property_columns. cbn [In]. intros H.
  repeat (destruct H as [[= <- <-]|H]; [apply list_lookup_fmap|]).
  contradiction.
Qed.

Lemma table_cell_xy (features : list json) (i : nat) :
  table_cell (res_of (columns_of features)) "ADRBOD_X" i = x_of <$> features !! i
  /\ table_cell (res_of (columns_of features)) "ADRBOD_Y" i = y_of <$> features !! i.
Proof. split; apply list_lookup_fmap. Qed.

Lemma properties_of_falsy (f : gmap string json) (v : json) :
  f !! "properties" = Some v -> truthy v = false -> properties_of (JDict f) = ∅.
Proof.
  intros Hv Hfalsy. unfold properties_of. rewrite Hv.
  destruct v; try reflexivity. now apply falsy_map_is_empty.
Qed.

Lemma geometry_of_falsy (f : gmap string json) (v : json) :
  f !! "geometry" = Some v -> truthy v = false -> geometry_of (JDict f) = ∅.
Proof.
  intros Hv Hfalsy. unfold geometry_of. rewrite Hv.
  destruct v; try reflexivity. now apply falsy_map_is_empty.
Qed.

Lemma coordinates_of_falsy (f g : gmap string json) (v : json) :
  f !! "geometry" = Some (JDict g) -> g !! "coordinates" = Some v ->
  truthy v = false -> coordinates_of (JDict f) = [].
Proof.
  intros Hg Hv Hfalsy. unfold coordinates_of, geometry_of. rewrite Hg, Hv.
  destruct v as [| | | | |l|]; try reflexivity. now destruct l.
Qed.

(** C10.  On features of the data model, where a part may be [null] or
    another falsy value, [create_table] returns a table with one entry
    per feature in every column.  In the row of a feature whose
    [properties] is bound to a falsy value the twelve property columns
    hold the empty string; in the row of a feature whose [geometry], or
    the [coordinates] of whose geometry, is bound to a falsy value,
    ADRBOD_X and ADRBOD_Y hold the empty string. *)
Theorem falsy_parts_are_coalesced (features : list json) :
  Forall well_shaped features ->
  exists t,
    create_table features = Ok t
    /\ Forall (fun col => length col.2 = length features) t
    /\ forall i f,
         features !! i = Some (JDict f) ->
         (forall v, f !! "properties" = Some v -> truthy v = false ->
            forall col prop, In (col, prop) property_columns ->
                             table_cell t col i = Some (JStr ""))
         /\ (forall v, f !! "geometry" = Some v -> truthy v = false ->
               table_cell t "ADRBOD_X" i = Some (JStr "")
               /\ table_cell t "ADRBOD_Y" i = Some (JStr ""))
         /\ (forall g v, f !! "geometry" = Some (JDict g) ->
               g !! "coordinates" = Some v -> truthy v = false ->
               table_cell t "ADRBOD_X" i = Some (JStr "")
               /\ table_cell t "ADRBOD_Y" i = Some (JStr "")).
Proof.
  intros Hshaped. exists (res_of (columns_of features)).
  split; [now apply create_table_well_shaped|].
  split; [apply all_length_columns_of|].
  intros i f Hi.
  destruct (table_cell_xy features i) as [Hx Hy]. rewrite Hx, Hy, Hi.
  cbn [fmap option_fmap option_map]. unfold x_of, y_of.
  split; [|split].
  - intros v Hv Hfalsy col prop Hcol.
    rewrite (table_cell_property features col prop i Hcol), Hi.
    cbn [fmap option_fmap option_map]. unfold field.
    now rewrite (properties_of_falsy f v Hv Hfalsy), lookup_empty.
  - intros v Hv Hfalsy. unfold coordinates_of.
    now rewrite (geometry_of_falsy f v Hv Hfalsy), lookup_empty.
  - intros g v Hg Hv Hfalsy.
    now rewrite (coordinates_of_falsy f g v Hg Hv Hfalsy).
Qed.

(** C10 on a feature whose [properties] and [coordinates] are [null] and
    one whose [properties] is [""] and whose [geometry] is [0]. *)
Lemma falsy_parts_are_coalesced_sample :
  exists t,
    create_table [Sample.feature_nulls; Sample.feature_zeros] = Ok t
    /\ Forall (fun col => length col.2 = 2%nat) t
    /\ table_cell t "Kraj" 0 = Some (JStr "")
    /\ table_cell t "ADRBOD_X" 0 = Some (JStr "")
    /\ table_cell t "PSČ" 1 = Some (JStr "")
    /\ table_cell t "ADRBOD_Y" 1 = Some (JStr "").
Proof.
  destruct (falsy_parts_are_coalesced [Sample.feature_nulls; Sample.feature_zeros])
    as (t & Ht & Hlen & Hrows).
  - constructor; [shaped|constructor; [shaped|constructor]].
  - exists t. split; [exact Ht|]. split; [exact Hlen|].
    destruct (Hrows 0%nat _ eq_refl) as (Hp0 & _ & Hc0).
    destruct (Hrows 1%nat _ eq_refl) as (Hp1 & Hg1 & _).
    repeat split.
    + apply (Hp0 JNull) with (prop := "nuts3_name"%string);
        [reflexivity|reflexivity|cbn; tauto].
    + eapply (Hc0 _ JNull); reflexivity.
    + apply (Hp1 (JStr "")) with (prop := "postalcode"%string);
        [reflexivity|reflexivity|cbn; tauto].
    + apply (Hg1 (JInt 0)); reflexivity.
Defined.

(** ** The files *)

Lemma select_rows_filter (p : json -> bool) (i : nat) (rows : list (list json)) :
  select_rows rows (p <$> (cell i <$> rows))
  = List.filter (fun row => p (cell i row)) rows.
Proof.
  induction rows as [|row rows IH]; [reflexivity|].
  cbn. rewrite IH. reflexivity.
Qed.

(** Case analysis on an entry of [name_to_abb]. *)
Ltac entries H tac :=
  unfold name_to_abb in H; cbn [In] in H;
  repeat (destruct H as [H|H]; [tac H|]);
  try contradiction.




Section FilesWritten.

Variable pd : pandas.
Variables (df : DataFrame) (i : nat).
Hypothesis kraj_column : position "Kraj" (df_columns df) = Some i.

Lemma save_region_file (entry : string * string) (w : world) :
  save_region df tt entry w
  = (Ok tt,
     World (network w) (issued w)
       (log w ++ match region_file df i entry with
                 | Some (path, df_k) => [ToCsv path df_k]
                 | None => []
                 end)).
Proof.
  unfold save_region, column, bind, lift. rewrite kraj_column.
  unfold select, region_file, rows_of_region, df_empty. cbn [df_columns df_rows].
  rewrite select_rows_filter.
  destruct (df_columns df) as [|l labels] eqn:Hlabels; [discriminate|].
  destruct (List.filter _ (df_rows df)) as [|row rows].
  - unfold ret. destruct w. cbn. now rewrite app_nil_r.
  - reflexivity.
Qed.

Lemma save_region_loop (regions : list (string * string)) :
  forall w,
    for_each regions tt (save_region df) w
    = (Ok tt,
       World (network w) (issued w)
         (log w ++ ((fun file => ToCsv file.1 file.2) <$> omap (region_file df i) regions))).
Proof.
  induction regions as [|entry regions IH]; intros w.
  - cbn. unfold ret. destruct w. cbn. now rewrite app_nil_r.
  - cbn [for_each]. unfold bind at 1. rewrite save_region_file.
    rewrite IH. cbn [network issued log omap list_omap].
    destruct (region_file df i entry) as [[path df_k]|]; cbn.
    + now rewrite <- app_assoc.
    + now rewrite app_nil_r.
Qed.

Lemma files_in_to_csv (files : list (string * DataFrame)) :
  files_in ((fun file => ToCsv file.1 file.2) <$> files) = files.
Proof.
  induction files as [|[path d] files IH]; [reflexivity|].
  unfold files_in in *. cbn. now rewrite IH.
Qed.

Lemma print_names_log (names : list json) :
  forall w,
    for_each names tt (fun _ k => print (Unmapped k)) w
    = (Ok tt,
       World (network w) (issued w)
         (log w ++ ((fun k => Print (Unmapped k)) <$> names))).
Proof.
  induction names as [|k names IH]; intros w.
  - cbn. unfold ret. destruct w. cbn. now rewrite app_nil_r.
  - cbn [for_each]. unfold bind at 1, print at 1, emit at 1.
    rewrite IH. cbn [network issued log fmap list_fmap].
    now rewrite <- app_assoc.
Qed.

(** Lines 174 to 181 when [unique] and [sorted] return: the warning, or
    nothing when no name is left. *)
Lemma warn_unmapped_log (missing : list json) (w : world) :
  names_checked pd (df_rows df) i missing ->
  warn_unmapped pd df w
  = (Ok tt, World (network w) (issued w) (log w ++ warning missing)).
Proof.
  intros (values & Hunique & Hsorted).
  unfold warn_unmapped, column. rewrite kraj_column.
  unfold bind at 1, lift at 1. unfold bind at 1, lift at 1. rewrite Hunique.
  unfold bind at 1, lift at 1. rewrite Hsorted.
  destruct missing as [|k names].
  - unfold ret, warning. destruct w. cbn. now rewrite app_nil_r.
  - unfold bind at 1, print at 1, emit at 1.
    rewrite print_names_log. cbn [network issued log warning].
    now rewrite <- app_assoc.
Qed.

(** Lines 174 to 181 when [unique] or [sorted] raises: the exception
    leaves them, and nothing is printed. *)
Lemma warn_unmapped_raises (e : exn) (w : world) :
  unique pd (dropna (cell i <$> df_rows df)) = Raise e
  \/ (exists values, unique pd (dropna (cell i <$> df_rows df)) = Ok values
                     /\ sorted pd (unmapped values) = Raise e) ->
  warn_unmapped pd df w = (Raise e, w).
Proof.
  unfold warn_unmapped, column. rewrite kraj_column.
  unfold bind at 1, lift at 1.
  intros [Hunique|(values & Hunique & Hsorted)].
  - unfold bind at 1, lift at 1. now rewrite Hunique.
  - unfold bind at 1, lift at 1. rewrite Hunique.
    unfold bind at 1, lift at 1. now rewrite Hsorted.
Qed.

Lemma files_in_app (a b : list event) : files_in (a ++ b) = files_in a ++ files_in b.
Proof. apply omap_app. Qed.

Lemma prints_in_app (a b : list event) : prints_in (a ++ b) = prints_in a ++ prints_in b.
Proof. apply omap_app. Qed.

Lemma prints_in_to_csv (files : list (string * DataFrame)) :
  prints_in ((fun file => ToCsv file.1 file.2) <$> files) = [].
Proof. induction files as [|file files IH]; [reflexivity|exact IH]. Qed.

Lemma files_in_names (names : list json) :
  files_in ((fun k => Print (Unmapped k)) <$> names) = [].
Proof. induction names as [|k names IH]; [reflexivity|exact IH]. Qed.

Lemma files_in_warning (missing : list json) : files_in (warning missing) = [].
Proof.
  destruct missing as [|k names]; [reflexivity|].
  exact (files_in_names (k :: names)).
Qed.

End FilesWritten.

Lemma eq_str_true (kraj : string) (v : json) : eq_str kraj v = true <-> v = JStr kraj.
Proof.
  destruct v; cbn; try (split; [discriminate|intros [=]]).
  rewrite String.eqb_eq. split; [now intros ->|now intros [= ->]].
Qed.

Lemma region_file_some (d : DataFrame) (i : nat) (entry : string * string)
    (path : string) (d_k : DataFrame) :
  region_file d i entry = Some (path, d_k) ->
  path = region_path entry.2
  /\ df_rows d_k = rows_of_region d i entry.1
  /\ df_rows d_k <> [].
Proof.
  unfold region_file. destruct (rows_of_region d i entry.1) as [|row rows];
    [discriminate|].
  intros [= <- <-]. cbn. now repeat split.
Qed.


Lemma region_paths_sublist (d : DataFrame) (i : nat) (entries : list (string * string)) :
  sublist (fst <$> omap (region_file d i) entries)
          ((fun entry => region_path entry.2) <$> entries).
Proof.
  induction entries as [|entry entries IH]; [constructor|].
  cbn [omap list_omap fmap list_fmap].
  destruct (region_file d i entry) as [[path d_k]|] eqn:Hfile.
  - apply region_file_some in Hfile as (-> & _ & _). now constructor.
  - now constructor.
Qed.

Lemma output_paths_distinct :
  NoDup (aggregate_path :: ((fun entry => region_path entry.2) <$> name_to_abb)).
Proof. apply (bool_decide_unpack _). vm_compute. exact I. Qed.

Section Partition.

Variable pd : pandas.

Variables (t : table) (df : DataFrame) (i : nat).
Variables (rows : list (list json)) (missing : list json).
Hypothesis table_frame : DataFrame_of t = Ok df.
Hypothesis kraj_column : position "Kraj" (df_columns df) = Some i.

(** The sort of the rows of [df] by column [i] returns [rows]. *)
Hypothesis sort_ok : sort_rows_by pd (cell i) (df_rows df) = Ok rows.

(** They are the rows of [df], permuted. *)
Hypothesis sort_permutes : Permutation rows (df_rows df).

(** The check of the names returns [missing]. *)
Hypothesis names_ok : names_checked pd rows i missing.

(** The frame after [sort_values]. *)
Let all : DataFrame := {| df_columns := df_columns df; df_rows := rows |}.

(** Up to the aggregate file. *)
Lemma save_aggregate_log (w : world) :
  save_aggregate pd t w
  = (Ok all,
     World (network w) (issued w)
       (log w ++ [Print (Banner "Sorting by Kraj..."); Print (Banner "Saving to kraje...");
                  ToCsv aggregate_path all])).
Proof.
  unfold save_aggregate, sort_values.
  unfold bind at 1, lift at 1. rewrite table_frame.
  unfold bind at 1, print at 1, emit at 1.
  unfold bind at 1, lift at 1. rewrite kraj_column, sort_ok. cbn [Py.bind].
  unfold bind at 1, print at 1, emit at 1.
  unfold bind at 1, to_csv at 1, emit at 1.
  unfold ret. cbn [network issued log]. rewrite <- !app_assoc. reflexivity.
Qed.

Lemma save_tables_log (w : world) :
  save_tables pd t w
  = (Ok tt,
     World (network w) (issued w)
       (log w ++ [Print (Banner "Sorting by Kraj..."); Print (Banner "Saving to kraje...");
                  ToCsv aggregate_path all]
              ++ warning missing
              ++ [Print (Banner "Saving to individual...")]
              ++ ((fun file => ToCsv file.1 file.2)
                    <$> omap (region_file all i) name_to_abb))).
Proof.
  unfold save_tables. rewrite (bind_ok _ _ _ _ _ (save_aggregate_log w)).
  unfold bind at 1.
  rewrite (warn_unmapped_log pd all i kraj_column missing _ names_ok).
  unfold save_regions. unfold bind at 1, print at 1, emit at 1.
  rewrite (save_region_loop all i kraj_column).
  cbn [network issued log]. rewrite <- !app_assoc. reflexivity.
Qed.

(** The files of a run: the aggregate file, then those of the regions. *)
Lemma save_tables_files (w : world) :
  exists tr,
    save_tables pd t w = (Ok tt, World (network w) (issued w) (log w ++ tr))
    /\ files_in tr = (aggregate_path, all) :: omap (region_file all i) name_to_abb
    /\ prints_in tr
       = [Banner "Sorting by Kraj..."; Banner "Saving to kraje..."]
         ++ prints_in (warning missing) ++ [Banner "Saving to individual..."].
Proof.
  eexists. split; [apply save_tables_log|]. split.
  - rewrite !files_in_app, files_in_warning, files_in_to_csv. reflexivity.
  - rewrite !prints_in_app, prints_in_to_csv. reflexivity.
Qed.

Lemma sorted_rows (row : list json) : In row (df_rows all) <-> In row (df_rows df).
Proof.
  cbn. split; apply Permutation_in; [exact sort_permutes | now symmetry].
Qed.

(** A file other than the aggregate one is the file of an entry of
    [name_to_abb], and its rows are rows of that region. *)
Lemma region_files (path : string) (d : DataFrame) :
  In (path, d) (omap (region_file all i) name_to_abb) ->
  exists kraj abb,
    In (kraj, abb) name_to_abb /\ path = region_path abb /\ df_rows d <> []
    /\ forall row, In row (df_rows d) <->
                   In row (df_rows df) /\ cell i row = JStr kraj.
Proof.
  rewrite <- list_elem_of_In, list_elem_of_omap.
  intros ([kraj abb] & Hentry & Hfile). apply list_elem_of_In in Hentry.
  apply region_file_some in Hfile as (-> & Hrows & Hne).
  exists kraj, abb. repeat split; try assumption.
  - rewrite Hrows in H. apply filter_In in H as [H _]. now apply sorted_rows.
  - rewrite Hrows in H. apply filter_In in H as [_ H]. now apply eq_str_true.
  - intros [Hrow Hcell]. rewrite Hrows. apply filter_In.
    split; [now apply sorted_rows|now apply eq_str_true].
Qed.

End Partition.


Lemma insert_perm {A} (key : A -> json) (x : A) (ordered out : list A) :
  Sample.insert key x ordered = Ok out -> Permutation out (x :: ordered).
Proof.
  revert out. induction ordered as [|y rest IH]; intros out; cbn.
  - now intros [= <-].
  - destruct (Sample.lt (key y) (key x)) as [[]|e]; cbn; try discriminate.
    + destruct (Sample.insert key x rest) as [rest'|e]; cbn; [|discriminate].
      intros [= <-]. rewrite (IH rest' eq_refl). apply perm_swap.
    + now intros [= <-].
Qed.

Lemma sort_by_perm {A} (key : A -> json) (xs out : list A) :
  Sample.sort_by key xs = Ok out -> Permutation out xs.
Proof.
  unfold Sample.sort_by. revert out.
  induction xs as [|x xs IH]; intros out; cbn.
  - now intros [= <-].
  - destruct (foldr _ (Ok []) xs) as [ordered|e]; cbn; [|discriminate].
    intros Hins. apply insert_perm in Hins. rewrite Hins.
    constructor. now apply IH.
Qed.

Lemma filter_split_perm {A} (p : A -> bool) (l : list A) :
  Permutation (List.filter (fun x => negb (p x)) l ++ List.filter p l) l.
Proof.
  induction l as [|x l IH]; [reflexivity|].
  cbn. destruct (p x); cbn.
  - rewrite <- Permutation_middle. now constructor.
  - now constructor.
Qed.

(** The sample sort, when it returns, returns the rows permuted. *)
Lemma stable_sort_perm (key : list json -> json) (rows out : list (list json)) :
  Sample.stable_sort key rows = Ok out -> Permutation out rows.
Proof.
  unfold Sample.stable_sort.
  destruct (Sample.sort_by key _) as [ordered|e] eqn:Hsort; cbn; [|discriminate].
  intros [= <-]. rewrite (sort_by_perm _ _ _ Hsort).
  apply filter_split_perm.
Qed.



(** A Kraj that cannot be hashed, a list, passes the sort of a table of
    one row and the writing of the aggregate file; then [unique] raises
    its [TypeError], and no per-region file is written. *)
Example list_name_stops_after_aggregate :
  save_tables Sample.frames Cases.table_list Sample.down
  = (Raise Sample.unhashable,
     World (network Sample.down) (issued Sample.down)
           [Print (Banner "Sorting by Kraj..."); Print (Banner "Saving to kraje...");
            ToCsv aggregate_path Cases.frame_list]).
Proof. vm_compute. reflexivity. Qed.

Example partition_files :
  files_in (log (save_tables Sample.frames Sample.table4 Sample.down).2)
  = [ (aggregate_path,
       {| df_columns := ["Identifikátor"; "Kraj"]%string;
          df_rows := [ [JStr "A4"; JStr ""]; [JStr "A2"; JStr "Atlantis"];
                       [JStr "A3"; JStr "Bratislavský"]; [JStr "A1"; JStr "Žilinský"] ] |});
      (region_path "BSK",
       {| df_columns := ["Identifikátor"; "Kraj"]%string;
          df_rows := [ [JStr "A3"; JStr "Bratislavský"] ] |});
      (region_path "ZSK",
       {| df_columns := ["Identifikátor"; "Kraj"]%string;
          df_rows := [ [JStr "A1"; JStr "Žilinský"] ] |}) ].
Proof. vm_compute. reflexivity. Qed.

(** The warning of that run names "Atlantis" alone: the empty name is
    blank, and the two others are keys of [name_to_abb]. *)
Example partition_warning :
  prints_in (log (save_tables Sample.frames Sample.table4 Sample.down).2)
  = [ Banner "Sorting by Kraj..."; Banner "Saving to kraje...";
      UnmappedNames; Unmapped (JStr "Atlantis");
      Banner "Saving to individual..." ].
Proof. vm_compute. reflexivity. Qed.

(** The table of [create_table] makes a data frame whose second column is
    Kraj, so that the files of a run are those of [rows_are_partitioned]. *)
Lemma create_table_frame (features : list json) (t : table) :
  create_table features = Ok t ->
  exists df, DataFrame_of t = Ok df
             /\ position "Kraj" (df_columns df) = Some 1%nat
             /\ length (df_rows df) = length features.
Proof.
  unfold create_table.
  destruct (flatten_all no_columns features) as [c|e] eqn:Hc; [|discriminate].
  cbn [Py.bind]. intros [= <-].
  pose proof (flatten_all_length features c Hc) as Hlen.
  unfold all_length, res_of in Hlen. rewrite !Forall_cons in Hlen. cbn [snd] in Hlen.
  destruct Hlen as (H1&H2&H3&H4&H5&H6&H7&H8&H9&H10&H11&H12&H13&H14&_).
  unfold DataFrame_of, res_of. cbn [forallb snd].
  rewrite H1, H2, H3, H4, H5, H6, H7, H8, H9, H10, H11, H12, H13, H14.
  rewrite Nat.eqb_refl. cbn [andb].
  eexists. split; [reflexivity|]. split; [reflexivity|].
  cbn [df_rows]. now rewrite length_fmap, length_seq.
Qed.

(** * Further properties *)

(** ** The fetcher on any network *)

Lemma for_return_app {A R} (body : A -> M (option R)) (xs ys : list A) (w : world) :
  for_return (xs ++ ys) body w
  = match for_return xs body w with
    | (Ok None, w') => for_return ys body w'
    | other => other
    end.
Proof.
  revert w. induction xs as [|x xs IH]; intros w; [reflexivity|].
  cbn [app for_return]. unfold bind.
  destruct (body x w) as [[[v|]|e] w1]; try reflexivity. apply IH.
Qed.

Lemma range_split (tries : Z) (k : nat) :
  Z.of_nat k < tries ->
  range tries = (Z.of_nat <$> seq 0 k)
                ++ Z.of_nat k :: (Z.of_nat <$> seq (S k) (Z.to_nat tries - S k)).
Proof.
  intros Hk. unfold range.
  assert (Hn : Z.to_nat tries = (k + S (Z.to_nat tries - S k))%nat) by lia.
  rewrite Hn at 1. rewrite seq_app, fmap_app. reflexivity.
Qed.

Section FetcherOutcomes.

Variable py : interpreter.
Variables (url : json) (session : option session) (tries : Z) (timeout backoff : float).
Variables (w : world) (errs : nat -> exn) (wait : nat -> float) (k : nat).

Hypothesis within_tries : Z.of_nat k < tries.
Hypothesis first_fail :
  forall i, (i < k)%nat ->
    attempt_outcome (network w (issued w + i)%nat url) = Raise (errs i)
    /\ fetch_catches (errs i) = true.
Hypothesis first_waits :
  forall i, (i < k)%nat -> wait_is py backoff i (wait i).

(** The log of [k] caught failures, each followed by its wait. *)
Let failures : list event :=
  flat_map (fun i => failed_attempt (session_or_requests session) url tries
                       timeout (wait i) (errs i) i) (seq 0 k).

(** After [k] caught failures the loop is at attempt [k]. *)
Lemma loop_after_failures :
  for_return (range tries)
    (attempt_once py (session_or_requests session) url tries timeout backoff) w
  = match attempt_once py (session_or_requests session) url tries timeout
            backoff (Z.of_nat k)
            (World (network w) (issued w + k) (log w ++ failures)) with
    | (Ok None, w1) =>
        for_return (Z.of_nat <$> seq (S k) (Z.to_nat tries - S k))
          (attempt_once py (session_or_requests session) url tries timeout
             backoff) w1
    | other => other
    end.
Proof.
  rewrite (range_split tries k within_tries), for_return_app.
  rewrite (retry_all_fail py _ url tries timeout backoff errs wait (issued w) k 0 w).
  - rewrite Nat.add_0_r. cbn [app for_return]. unfold bind at 1.
    destruct (attempt_once _ _ _ _ _ _ _ _) as [[[j|]|e] w1]; reflexivity.
  - lia.
  - intros i Hi. apply first_fail. lia.
  - intros i Hi _. apply first_waits. lia.
Qed.

Lemma reads_of_failures :
  attempts_in failures = replicate k url
  /\ sleeps_in failures = wait <$> seq 0 k
  /\ prints_in failures = [].
Proof.
  apply (reads_of_sleeping_attempts _ url tries timeout errs wait k 0).
  lia.
Qed.

End FetcherOutcomes.

(** X1.  When the first [k] attempts end in caught exceptions, each
    followed by its wait ([backoff ** i] is computed and [time.sleep]
    returns), and attempt [k], still within [tries], gives a body, the
    fetcher returns that body after [k + 1] requests and the [k] sleeps
    [backoff ** 0] to [backoff ** (k - 1)], and prints nothing. *)
Theorem fetch_returns_first_success (py : interpreter)
    (url : json) (session : option session) (tries : Z) (timeout backoff : float)
    (w : world) (errs : nat -> exn) (wait : nat -> float) (k : nat) (j : json) :
  Z.of_nat k < tries ->
  (forall i, (i < k)%nat ->
     attempt_outcome (network w (issued w + i)%nat url) = Raise (errs i)
     /\ fetch_catches (errs i) = true) ->
  (forall i, (i < k)%nat -> wait_is py backoff i (wait i)) ->
  attempt_outcome (network w (issued w + k)%nat url) = Ok j ->
  let s := session_or_requests session in
  let tr := flat_map (fun i => failed_attempt s url tries timeout (wait i) (errs i) i)
                     (seq 0 k)
            ++ [Get s url timeout] in
  fetch_json_with_retry py url session tries timeout backoff w
  = (Ok j, World (network w) (issued w + k + 1) (log w ++ tr))
  /\ attempts_in tr = replicate (S k) url
  /\ sleeps_in tr = wait <$> seq 0 k
  /\ prints_in tr = [].
Proof.
  intros Hk Hfail Hwait Hok s tr. split.
  - unfold fetch_json_with_retry. cbn zeta. unfold bind.
    rewrite (loop_after_failures py url session tries timeout backoff w errs wait k
               Hk Hfail Hwait).
    rewrite attempt_once_unfold. cbn [network issued log]. rewrite Hok. cbn zeta.
    unfold ret. rewrite <- app_assoc. do 2 f_equal. lia.
  - destruct (reads_of_failures url session tries timeout errs wait k Hk)
      as (Ha & Hs & Hp).
    subst tr s. unfold attempts_in, sleeps_in, prints_in in *.
    rewrite !omap_app, Ha, Hs, Hp. cbn. rewrite !app_nil_r.
    repeat split. now rewrite <- replicate_S_end.
Qed.

(** X1 on a server that answers status 500, then a page that is not JSON,
    then the catalog. *)
Lemma fetch_returns_first_success_third :
  let errs := fun i => if Nat.even i then Sample.http_500 else Sample.not_json in
  let wait := fun i => Sample.pow 1.5 (Z.of_nat i) in
  let tr := flat_map (fun i => failed_attempt RequestsModule (JStr "u") 5
                                 30.0 (wait i) (errs i) i) [0; 1]%nat
            ++ [Get RequestsModule (JStr "u") 30.0%float] in
  fetch_json_with_retry Sample.cpython (JStr "u") None 5 30.0 1.5 Cases.third_time
  = (Ok Sample.catalog, World (network Cases.third_time) 3 tr)
  /\ attempts_in tr = [JStr "u"; JStr "u"; JStr "u"]
  /\ sleeps_in tr = [1; 1.5]%float
  /\ prints_in tr = [].
Proof.
  apply (fetch_returns_first_success Sample.cpython (JStr "u") None 5 30.0 1.5
           Cases.third_time
           (fun i => if Nat.even i then Sample.http_500 else Sample.not_json)
           (fun i => Sample.pow 1.5 (Z.of_nat i)) 2).
  - lia.
  - intros i Hi. destruct i as [|[|i]]; [split; reflexivity ..|exfalso; lia].
  - intros i Hi. apply (cpython_waits 1.5 5); [now left | lia | lia].
  - reflexivity.
Defined.

(** X2.  When the first [k] attempts end in caught exceptions, each
    followed by its wait, and attempt [k], still within [tries], raises
    an exception that is neither a [RequestException] nor a [ValueError],
    the fetcher raises that exception at once: no further request, no
    sleep, no diagnostic. *)
Theorem fetch_propagates_uncaught (py : interpreter)
    (url : json) (session : option session) (tries : Z) (timeout backoff : float)
    (w : world) (errs : nat -> exn) (wait : nat -> float) (k : nat) (e : exn) :
  Z.of_nat k < tries ->
  (forall i, (i < k)%nat ->
     attempt_outcome (network w (issued w + i)%nat url) = Raise (errs i)
     /\ fetch_catches (errs i) = true) ->
  (forall i, (i < k)%nat -> wait_is py backoff i (wait i)) ->
  attempt_outcome (network w (issued w + k)%nat url) = Raise e ->
  fetch_catches e = false ->
  let s := session_or_requests session in
  let tr := flat_map (fun i => failed_attempt s url tries timeout (wait i) (errs i) i)
                     (seq 0 k)
            ++ [Get s url timeout] in
  fetch_json_with_retry py url session tries timeout backoff w
  = (Raise e, World (network w) (issued w + k + 1) (log w ++ tr))
  /\ attempts_in tr = replicate (S k) url
  /\ sleeps_in tr = wait <$> seq 0 k
  /\ prints_in tr = [].
Proof.
  intros Hk Hfail Hwait Hraise Hcatch s tr. split.
  - unfold fetch_json_with_retry. cbn zeta. unfold bind.
    rewrite (loop_after_failures py url session tries timeout backoff w errs wait k
               Hk Hfail Hwait).
    rewrite attempt_once_unfold. cbn [network issued log]. rewrite Hraise, Hcatch.
    cbn zeta. rewrite <- app_assoc. do 2 f_equal. lia.
  - destruct (reads_of_failures url session tries timeout errs wait k Hk)
      as (Ha & Hs & Hp).
    subst tr s. unfold attempts_in, sleeps_in, prints_in in *.
    rewrite !omap_app, Ha, Hs, Hp. cbn. rewrite !app_nil_r.
    repeat split. now rewrite <- replicate_S_end.
Qed.

(** X2 on a server that answers status 500 once and then a request that
    ends in an exception of another class. *)
Lemma fetch_propagates_uncaught_second :
  fetch_json_with_retry Sample.cpython (JStr "u") None 5 30.0 1.5 Cases.interrupted
  = (Raise (Exn OtherException "interrupted"),
     World (network Cases.interrupted) 2
       [Get RequestsModule (JStr "u") 30.0%float; Sleep 1%float;
        Get RequestsModule (JStr "u") 30.0%float])
  /\ attempts_in [Get RequestsModule (JStr "u") 30.0%float; Sleep 1%float;
                  Get RequestsModule (JStr "u") 30.0%float]
     = [JStr "u"; JStr "u"]
  /\ sleeps_in [Get RequestsModule (JStr "u") 30.0%float; Sleep 1%float;
                Get RequestsModule (JStr "u") 30.0%float]
     = [1%float]
  /\ prints_in [Get RequestsModule (JStr "u") 30.0%float; Sleep 1%float;
                Get RequestsModule (JStr "u") 30.0%float]
     = [].
Proof.
  apply (fetch_propagates_uncaught Sample.cpython (JStr "u") None 5 30.0 1.5
           Cases.interrupted (fun _ => Sample.http_500) (fun _ => 1%float) 1
           (Exn OtherException "interrupted")).
  - lia.
  - intros i Hi. destruct i; [split; reflexivity|exfalso; lia].
  - intros i Hi. destruct i; [split; reflexivity|exfalso; lia].
  - reflexivity.
  - reflexivity.
Defined.

(** X20.  The handler is outside the [try].  When the first [k] attempts
    end in caught exceptions, each followed by its wait, and attempt [k],
    which is not the last, ends in a caught exception too but its wait
    raises ([backoff ** k] is out of range, or [time.sleep] refuses the
    length), the fetcher raises that exception: no further request, no
    sleep after attempt [k], and no diagnostic. *)
Theorem fetch_propagates_failed_wait (py : interpreter)
    (url : json) (session : option session) (tries : Z) (timeout backoff : float)
    (w : world) (errs : nat -> exn) (wait : nat -> float) (k : nat) (e : exn) :
  Z.of_nat k < tries - 1 ->
  (forall i, (i <= k)%nat ->
     attempt_outcome (network w (issued w + i)%nat url) = Raise (errs i)
     /\ fetch_catches (errs i) = true) ->
  (forall i, (i < k)%nat -> wait_is py backoff i (wait i)) ->
  (float_pow py backoff (Z.of_nat k) = Raise e
   \/ exists d, float_pow py backoff (Z.of_nat k) = Ok d /\ time_sleep py d = Raise e) ->
  let s := session_or_requests session in
  let tr := flat_map (fun i => failed_attempt s url tries timeout (wait i) (errs i) i)
                     (seq 0 k)
            ++ [Get s url timeout] in
  fetch_json_with_retry py url session tries timeout backoff w
  = (Raise e, World (network w) (issued w + k + 1) (log w ++ tr))
  /\ attempts_in tr = replicate (S k) url
  /\ sleeps_in tr = wait <$> seq 0 k
  /\ prints_in tr = [].
Proof.
  intros Hk Hfail Hwait Hraise s tr. split.
  - unfold fetch_json_with_retry. cbn zeta. unfold bind.
    rewrite (loop_after_failures py url session tries timeout backoff w errs wait k);
      [|lia|intros i Hi; apply Hfail; lia|exact Hwait].
    destruct (Hfail k (Nat.le_refl k)) as [Hout Hcatch].
    rewrite attempt_once_unfold. cbn [network issued log]. rewrite Hout, Hcatch.
    cbn zeta.
    replace (Z.of_nat k <? tries - 1) with true by (symmetry; apply Z.ltb_lt; lia).
    destruct Hraise as [Hpow|(d & Hpow & Hsleep)].
    + rewrite Hpow, <- app_assoc. do 2 f_equal. lia.
    + rewrite Hpow, Hsleep, <- app_assoc. do 2 f_equal. lia.
  - destruct (reads_of_failures url session tries timeout errs wait k ltac:(lia))
      as (Ha & Hs & Hp).
    subst tr s. unfold attempts_in, sleeps_in, prints_in in *.
    rewrite !omap_app, Ha, Hs, Hp. cbn. rewrite !app_nil_r.
    repeat split. now rewrite <- replicate_S_end.
Qed.

(** X20 with three tries and the factor [1e10]: the second wait, of
    [1e10] seconds, is refused. *)
Lemma fetch_propagates_failed_wait_long :
  let tr := [Get RequestsModule (JStr "u") 30.0%float; Sleep 1%float;
             Get RequestsModule (JStr "u") 30.0%float] in
  fetch_json_with_retry Sample.cpython (JStr "u") None 3 30.0 1e10 Sample.down
  = (Raise (Exn OverflowError "timestamp too large to convert to C _PyTime_t"),
     World (network Sample.down) 2 tr)
  /\ attempts_in tr = [JStr "u"; JStr "u"]
  /\ sleeps_in tr = [1%float]
  /\ prints_in tr = [].
Proof.
  apply (fetch_propagates_failed_wait Sample.cpython (JStr "u") None 3 30.0 1e10
           Sample.down (fun _ => Sample.http_500) (fun _ => 1%float) 1
           (Exn OverflowError "timestamp too large to convert to C _PyTime_t")).
  - lia.
  - intros i Hi. split; reflexivity.
  - intros i Hi. destruct i; [split; reflexivity|exfalso; lia].
  - right. exists 1e10%float. split; reflexivity.
Defined.

(** X3.  With [tries <= 0] the loop has no iteration: the fetcher returns
    [None] and leaves the world as it is, with no request and no
    diagnostic. *)
Theorem fetch_without_tries (py : interpreter)
    (url : json) (session : option session) (tries : Z) (timeout backoff : float)
    (w : world) :
  tries <= 0 ->
  fetch_json_with_retry py url session tries timeout backoff w = (Ok JNull, w).
Proof.
  intros Htries. unfold fetch_json_with_retry, range.
  replace (Z.to_nat tries) with 0%nat by lia. reflexivity.
Qed.

Lemma fetch_without_tries_zero :
  fetch_json_with_retry Sample.cpython (JStr "u") None 0 30.0 1.5 Sample.served
  = (Ok JNull, Sample.served).
Proof.
  apply (fetch_without_tries Sample.cpython (JStr "u") None 0 30.0 1.5 Sample.served).
  lia.
Defined.

Section FetcherEvents.

Variable py : interpreter.
Variables (s : transport) (url : json) (tries : Z) (timeout backoff : float).

Lemma loop_events :
  forall (n k : nat) (w : world),
  exists tr,
    (for_return (Z.of_nat <$> seq k n)
       (attempt_once py s url tries timeout backoff) w).2
    = World (network w) (issued w + length (attempts_in tr)) (log w ++ tr)
    /\ (length (attempts_in tr) <= n)%nat
    /\ Forall (fetcher_event s url tries timeout) tr.
Proof.
  induction n as [|n IH]; intros k w.
  - exists []. cbn. destruct w; cbn. rewrite app_nil_r, Nat.add_0_r. now repeat split.
  - cbn [seq fmap list_fmap for_return]. unfold bind at 1.
    rewrite attempt_once_unfold. cbn zeta.
    assert (Hstop : forall (r : result (option json)),
               exists tr,
                 (r, World (network w) (S (issued w)) (log w ++ [Get s url timeout])).2
                 = World (network w) (issued w + length (attempts_in tr)) (log w ++ tr)
                 /\ (length (attempts_in tr) <= S n)%nat
                 /\ Forall (fetcher_event s url tries timeout) tr).
    { intros r. exists [Get s url timeout]. cbn. repeat split; try lia.
      - do 2 f_equal. lia.
      - now repeat constructor. }
    assert (Hnext : forall x,
               fetcher_event s url tries timeout x ->
               attempts_in [x] = [] ->
               exists tr,
                 (for_return (Z.of_nat <$> seq (S k) n)
                    (attempt_once py s url tries timeout backoff)
                    (World (network w) (S (issued w))
                           (log w ++ [Get s url timeout; x]))).2
                 = World (network w) (issued w + length (attempts_in tr)) (log w ++ tr)
                 /\ (length (attempts_in tr) <= S n)%nat
                 /\ Forall (fetcher_event s url tries timeout) tr).
    { intros x Hx Hnone.
      destruct (IH (S k) (World (network w) (S (issued w))
                                (log w ++ [Get s url timeout; x])))
        as (tr & Hw & Hn & Hev).
      exists ([Get s url timeout; x] ++ tr).
      assert (Hlen : attempts_in ([Get s url timeout; x] ++ tr) = url :: attempts_in tr).
      { change [Get s url timeout; x] with ([Get s url timeout] ++ [x]).
        unfold attempts_in in *. rewrite !omap_app, Hnone. reflexivity. }
      rewrite Hw, Hlen. cbn [network issued log length].
      split; [|split].
      - rewrite <- app_assoc. f_equal. lia.
      - lia.
      - apply Forall_app. split; [|exact Hev]. now repeat constructor. }
    destruct (attempt_outcome (network w (issued w) url)) as [j|e];
      [apply (Hstop (Ok (Some j)))|].
    destruct (fetch_catches e); [|apply (Hstop (Raise e))].
    destruct (Z.of_nat k <? tries - 1).
    + destruct (float_pow py backoff (Z.of_nat k)) as [d|e'];
        [|apply (Hstop (Raise e'))].
      destruct (time_sleep py d) as [[]|e']; [|apply (Hstop (Raise e'))].
      now apply (Hnext (Sleep d)).
    + now apply (Hnext (Print (FetchFailed url tries e))).
Qed.

End FetcherEvents.

(** The log of a call of the fetcher, on any network. *)
Lemma fetch_events (py : interpreter)
    (url : json) (session : option session) (tries : Z) (timeout backoff : float)
    (w : world) :
  exists tr,
    (fetch_json_with_retry py url session tries timeout backoff w).2
    = World (network w) (issued w + length (attempts_in tr)) (log w ++ tr)
    /\ (length (attempts_in tr) <= Z.to_nat tries)%nat
    /\ Forall (fetcher_event (session_or_requests session) url tries timeout) tr.
Proof.
  destruct (loop_events py (session_or_requests session) url tries timeout
              backoff (Z.to_nat tries) 0 w) as (tr & Hw & Hn & Hev).
  exists tr. split; [|split; [exact Hn|exact Hev]].
  rewrite <- Hw. unfold fetch_json_with_retry, range. cbn zeta. unfold bind.
  destruct (for_return _ _ w) as [[[j|]|e] w1]; reflexivity.
Qed.

(** X4.  On any network, a call of the fetcher leaves the network as it
    is and adds to the log only requests for its own URL, through its own
    transport and with its own timeout, sleeps, and its own diagnostic;
    the requests are at most [tries]. *)
Theorem fetch_stays_within_tries (py : interpreter)
    (url : json) (session : option session) (tries : Z) (timeout backoff : float)
    (w : world) :
  exists tr,
    (fetch_json_with_retry py url session tries timeout backoff w).2
    = World (network w) (issued w + length (attempts_in tr)) (log w ++ tr)
    /\ Z.of_nat (length (attempts_in tr)) <= Z.max 0 tries
    /\ Forall (fetcher_event (session_or_requests session) url tries timeout) tr.
Proof.
  destruct (fetch_events py url session tries timeout backoff w)
    as (tr & Hw & Hn & Hev).
  exists tr. split; [exact Hw|]. split; [lia|exact Hev].
Qed.

(** ** The resolver on documents of other shapes *)

(** X5.  A fetched catalog that is not a map (an array, a string, a
    number, a boolean, or [null]) makes [parse_dataset] raise the
    [AttributeError] of [r.get], in the world the fetch left. *)
Theorem parse_dataset_non_map_document (py : interpreter)
    (uri r : json) (w w' : world) :
  fetch_json_with_retry py uri None default_tries default_timeout default_backoff w
  = (Ok r, w') ->
  is_dict r = false ->
  parse_dataset py uri w = (Raise Py.no_attribute_get, w').
Proof.
  intros Hfetch Hr. unfold parse_dataset. rewrite (bind_ok _ _ _ _ _ Hfetch).
  destruct r; try discriminate; reflexivity.
Qed.

Lemma parse_dataset_non_map_document_array :
  parse_dataset Sample.cpython (JStr URI_root) (Sample.serving (JList [Sample.catalog]))
  = (Raise Py.no_attribute_get,
     World (network (Sample.serving (JList [Sample.catalog]))) 1
           [Get RequestsModule (JStr URI_root) default_timeout]).
Proof.
  apply (parse_dataset_non_map_document Sample.cpython (JStr URI_root)
           (JList [Sample.catalog])); reflexivity.
Defined.

(** X6.  A catalog whose [@graph] is bound to [null], a number or a
    boolean makes [parse_dataset] raise the [TypeError] of the loop: the
    default [[]] stands in for an absent key only. *)
Theorem parse_dataset_graph_not_iterable (py : interpreter)
    (uri : json) (w w' : world) (doc : gmap string json) (graph : json) :
  fetch_json_with_retry py uri None default_tries default_timeout default_backoff w
  = (Ok (JDict doc), w') ->
  doc !! "@graph" = Some graph ->
  scalar graph ->
  parse_dataset py uri w = (Raise Py.not_iterable, w').
Proof.
  intros Hfetch Hgraph Hscalar. unfold parse_dataset.
  rewrite (bind_ok _ _ _ _ _ Hfetch). unfold bind, lift. cbn. rewrite Hgraph.
  destruct graph; try contradiction; reflexivity.
Qed.

Lemma parse_dataset_graph_not_iterable_null :
  parse_dataset Sample.cpython (JStr URI_root) (Sample.serving Cases.catalog_null_graph)
  = (Raise Py.not_iterable,
     World (network (Sample.serving Cases.catalog_null_graph)) 1
           [Get RequestsModule (JStr URI_root) default_timeout]).
Proof.
  eapply (parse_dataset_graph_not_iterable Sample.cpython (JStr URI_root)).
  - reflexivity.
  - vm_compute. reflexivity.
  - exact I.
Defined.

(** X7.  A graph node that is not a map, reached before any node with a
    dataset relation, makes [parse_dataset] raise the [AttributeError] of
    [g.get], whatever the nodes after it list. *)
Theorem parse_dataset_non_map_node (py : interpreter)
    (uri : json) (w w' : world) (doc : gmap string json)
    (before after : list json) (node : json) :
  fetch_json_with_retry py uri None default_tries default_timeout default_backoff w
  = (Ok (JDict doc), w') ->
  default (JList []) (doc !! "@graph") = JList (before ++ node :: after) ->
  Forall no_dataset before ->
  is_dict node = false ->
  parse_dataset py uri w = (Raise Py.no_attribute_get, w').
Proof.
  intros Hfetch Hgraph Hbefore Hnode.
  rewrite (parse_dataset_of_graph py uri w w' doc _ Hfetch Hgraph).
  rewrite for_return_skip.
  - cbn [for_return]. unfold bind at 1.
    destruct node; try discriminate; reflexivity.
  - eapply Forall_impl; [exact Hbefore|]. intros n Hn w0.
    now apply dataset_of_node_none.
Qed.

Lemma parse_dataset_non_map_node_string :
  parse_dataset Sample.cpython (JStr URI_root) (Sample.serving Cases.catalog_string_node)
  = (Raise Py.no_attribute_get,
     World (network (Sample.serving Cases.catalog_string_node)) 1
           [Get RequestsModule (JStr URI_root) default_timeout]).
Proof.
  eapply (parse_dataset_non_map_node Sample.cpython (JStr URI_root) _ _ _ [JDict ∅] _
            (JStr "node")).
  - reflexivity.
  - vm_compute. reflexivity.
  - constructor; [|constructor]. exists ∅. split; [reflexivity|now left].
  - reflexivity.
Defined.

(** ** The collector on any network *)

Lemma for_each_app {A S} (body : S -> A -> M S) (xs ys : list A) :
  forall (acc : S) (w : world),
    for_each (xs ++ ys) acc body w
    = match for_each xs acc body w with
      | (Ok acc', w') => for_each ys acc' body w'
      | (Raise e, w') => (Raise e, w')
      end.
Proof.
  induction xs as [|x xs IH]; intros acc w; [reflexivity|].
  cbn [app for_each]. unfold bind.
  destruct (body acc x w) as [[acc'|e] w1]; [apply IH|reflexivity].
Qed.

Lemma for_each_keeps {A S} (P : S -> Prop) (body : S -> A -> M S) :
  (forall acc x w acc' w', body acc x w = (Ok acc', w') -> P acc -> P acc') ->
  forall xs acc w r w',
    for_each xs acc body w = (Ok r, w') -> P acc -> P r.
Proof.
  intros Hbody. induction xs as [|x xs IH]; intros acc w r w'.
  - cbn. unfold ret. now intros [= <- _].
  - cbn [for_each]. unfold bind.
    destruct (body acc x w) as [[acc'|e] w1] eqn:Hstep; [|discriminate].
    intros Hrest Hacc. apply (IH acc' w1 r w' Hrest).
    now apply (Hbody acc x w acc' w1).
Qed.

Section CollectorEvents.

Variable py : interpreter.

Lemma collect_from_maps (features : list json) (uri : json) (w w' : world)
    (fs : list json) :
  collect_from py Session features uri w = (Ok fs, w') ->
  Forall (fun f => is_dict f = true) features ->
  Forall (fun f => is_dict f = true) fs.
Proof.
  unfold collect_from, bind, lift, print, emit, ret.
  destruct (fetch_json_with_retry _ _ _ _ _ _ w) as [[r|e] w1]; [|discriminate].
  destruct r as [| | | | | |d]; try discriminate; try (now intros [= <- _]).
  cbn.
  destruct (truthy (default (JList []) (d !! "features"))); [|now intros [= <- _]].
  destruct (Py.iter _) as [entries|e]; [|discriminate].
  intros [= <- _] Hfeatures. rewrite append_dicts_filter.
  apply Forall_app. split; [exact Hfeatures|].
  apply Forall_forall. intros f Hf. apply list_elem_of_In, filter_In in Hf. tauto.
Qed.

End CollectorEvents.

(** X8.  Every feature that [collect_features] returns is a map, on any
    network and for any documents. *)
Theorem collect_features_only_maps (py : interpreter)
    (uris fs : list json) (w w' : world) :
  collect_features py uris w = (Ok fs, w') ->
  Forall (fun f => is_dict f = true) fs.
Proof.
  unfold collect_features. cbn zeta. intros Hrun.
  apply (for_each_keeps (Forall (fun f => is_dict f = true))
           (collect_from py Session)
           (fun acc x w0 acc' w1 => collect_from_maps py acc x w0 w1 acc')
           uris [] w fs w' Hrun).
  constructor.
Qed.

Lemma collect_features_only_maps_sample :
  Forall (fun f => is_dict f = true) [Sample.feature1; JDict ∅].
Proof.
  apply (collect_features_only_maps Sample.cpython
           [JStr "http://x/1"; JStr "http://down"; JStr "http://x/2"]
           [Sample.feature1; JDict ∅] Sample.datasets
           (collect_features Sample.cpython
              [JStr "http://x/1"; JStr "http://down"; JStr "http://x/2"]
              Sample.datasets).2).
  vm_compute. reflexivity.
Defined.

Lemma collector_event_of_fetch (uris : list json) (uri : json) (e : event) :
  In uri uris ->
  fetcher_event (ViaSession Session) uri 6 30.0%float e ->
  collector_event uris e.
Proof.
  intros Huri He. destruct e as [| |m| |]; try (now exists uri).
  destruct m; try contradiction. now exists uri.
Qed.

Lemma collector_event_weaken (uris uris' : list json) (e : event) :
  (forall u, In u uris -> In u uris') ->
  collector_event uris e -> collector_event uris' e.
Proof.
  intros Hsub. destruct e as [| |m| |];
    try (intros (u & Hu & He); exists u; now auto).
  destruct m; try (intros (u & Hu & He); exists u; now auto).
  cbn. apply Hsub.
Qed.

Lemma collector_events_read (uris : list json) (tr : list event) :
  Forall (collector_event uris) tr ->
  Forall (fun u => In u uris) (attempts_in tr) /\ files_in tr = [].
Proof.
  induction 1 as [|e tr He _ [IHa IHf]]; [now split|].
  unfold attempts_in, files_in in *.
  destruct e as [via u t|d|m|p|p d]; cbn; try (now split).
  - destruct He as (u' & Hu' & _ & -> & _). split; [now constructor|exact IHf].
  - destruct He as (u' & _ & []).
Qed.

Lemma all_the_same {A} (x : A) (l : list A) :
  Forall (fun y => In y [x]) l -> l = replicate (length l) x.
Proof.
  induction 1 as [|y l [<-|[]] _ IH]; [reflexivity|].
  cbn. now rewrite <- IH.
Qed.

Section CollectorLog.

Variable py : interpreter.

Lemma collect_from_events (features : list json) (uri : json) (w : world) :
  exists tr,
    (collect_from py Session features uri w).2
    = World (network w) (issued w + length (attempts_in tr)) (log w ++ tr)
    /\ (length (attempts_in tr) <= 6)%nat
    /\ Forall (collector_event [uri]) tr
    /\ attempts_in tr = replicate (length (attempts_in tr)) uri.
Proof.
  assert (Hsame : forall tr, Forall (collector_event [uri]) tr ->
                             attempts_in tr = replicate (length (attempts_in tr)) uri).
  { intros tr Hev. apply all_the_same. now apply collector_events_read. }
  destruct (fetch_events py uri (Some Session) 6 30.0%float 1.7%float w)
    as (tr & Hw & Hn & Hev).
  assert (Hev' : Forall (collector_event [uri]) tr).
  { eapply Forall_impl; [exact Hev|]. intros e.
    apply collector_event_of_fetch. now left. }
  destruct (collect_from_world py features uri w) as [H|H];
    cbn zeta in H; rewrite Hw in H; rewrite H.
  - exists tr. repeat split; try assumption. now apply Hsame.
  - exists (tr ++ [Print (FeaturesEmpty uri)]). cbn [network issued log].
    assert (Hlen : attempts_in (tr ++ [Print (FeaturesEmpty uri)]) = attempts_in tr).
    { unfold attempts_in. rewrite omap_app. cbn. now rewrite app_nil_r. }
    assert (Hall : Forall (collector_event [uri]) (tr ++ [Print (FeaturesEmpty uri)])).
    { apply Forall_app. split; [exact Hev'|]. constructor; [|constructor]. now left. }
    rewrite (Hsame _ Hall), Hlen, length_replicate, <- app_assoc.
    repeat split; assumption.
Qed.

(** The requests of the loop: for the URIs in turn, as many for each as
    [counts] says, at most six; the list of counts is shorter than that of
    the URIs when an exception ends the loop. *)
Lemma collect_loop_events (uris : list json) :
  forall (acc : list json) (w : world),
  exists tr counts,
    (for_each uris acc (collect_from py Session) w).2
    = World (network w) (issued w + length (attempts_in tr)) (log w ++ tr)
    /\ (length (attempts_in tr) <= 6 * length uris)%nat
    /\ Forall (collector_event uris) tr
    /\ (length counts <= length uris)%nat
    /\ Forall (fun n => (n <= 6)%nat) counts
    /\ attempts_in tr = concat (zip_with replicate counts uris).
Proof.
  induction uris as [|uri uris IH]; intros acc w.
  - exists [], []. cbn. destruct w; cbn. rewrite app_nil_r, Nat.add_0_r.
    repeat split; auto.
  - cbn [for_each]. unfold bind.
    destruct (collect_from_events acc uri w) as (tr & Hw & Hn & Hev & Hsame).
    assert (Hhead : Forall (collector_event (uri :: uris)) tr).
    { eapply Forall_impl; [exact Hev|]. intros e.
      apply collector_event_weaken. intros u [<-|[]]. now left. }
    destruct (collect_from py Session acc uri w) as [[acc'|e] w1];
      cbn [snd] in Hw; subst w1.
    + destruct (IH acc' (World (network w) (issued w + length (attempts_in tr))
                               (log w ++ tr)))
        as (tr' & counts & Hw' & Hn' & Hev' & Hlen' & Hsix & Hreq).
      exists (tr ++ tr'), (length (attempts_in tr) :: counts).
      rewrite Hw'. cbn [network issued log].
      assert (Hlen : attempts_in (tr ++ tr') = attempts_in tr ++ attempts_in tr').
      { unfold attempts_in. apply omap_app. }
      rewrite Hlen, length_app, <- app_assoc. cbn [length].
      split; [f_equal; lia|]. split; [lia|]. split; [|split; [lia|split]].
      * apply Forall_app. split; [exact Hhead|].
        eapply Forall_impl; [exact Hev'|]. intros e0.
        apply collector_event_weaken. intros u Hu. now right.
      * now constructor.
      * cbn [zip_with concat]. now rewrite <- Hsame, <- Hreq.
    + exists tr, [length (attempts_in tr)]. cbn [snd length].
      split; [reflexivity|]. split; [lia|]. split; [exact Hhead|].
      split; [lia|]. split; [constructor; [exact Hn|constructor]|].
      destruct uris; cbn [zip_with concat]; now rewrite <- Hsame, app_nil_r.
Qed.

End CollectorLog.

(** X9.  On any network [collect_features] leaves the network as it is
    and adds to the log only the events of the patient fetches of the URIs
    of its list, all through its one session, and the warnings for them.
    Its requests are, for the URIs in the order of the list, at most six
    for each one, one URI after the other ([counts] has the number for
    each URI that was reached); there is no request for another URL, and
    no file. *)
Theorem collect_features_requests (py : interpreter)
    (uris : list json) (w : world) :
  exists tr counts,
    (collect_features py uris w).2
    = World (network w) (issued w + length (attempts_in tr)) (log w ++ tr)
    /\ (length counts <= length uris)%nat
    /\ Forall (fun n => (n <= 6)%nat) counts
    /\ attempts_in tr = concat (zip_with replicate counts uris)
    /\ (length (attempts_in tr) <= 6 * length uris)%nat
    /\ Forall (collector_event uris) tr
    /\ Forall (fun u => In u uris) (attempts_in tr)
    /\ files_in tr = [].
Proof.
  destruct (collect_loop_events py uris [] w)
    as (tr & counts & Hw & Hn & Hev & Hlen & Hsix & Hreq).
  exists tr, counts. repeat split; try assumption;
    now apply (collector_events_read uris tr).
Qed.

Example collect_features_requests_sample :
  attempts_in (log (collect_features Sample.cpython
                      [JStr "http://x/1"; JStr "http://down"; JStr "http://x/2"]
                      Sample.datasets).2)
  = concat (zip_with replicate [1; 6; 1]%nat
              [JStr "http://x/1"; JStr "http://down"; JStr "http://x/2"]).
Proof. vm_compute. reflexivity. Qed.

(** X10.  A fetched dataset document that is neither [null] nor a map (an
    array, a string, a number) makes [collect_features] raise the
    [AttributeError] of [r.get]: the features collected so far are not
    returned and the URIs after it are not fetched. *)
Theorem collect_features_non_map_document (py : interpreter)
    (before after docs : list json) (uri doc : json) (w w1 w2 : world) :
  fetched py before w docs w1 ->
  Forall dataset_document docs ->
  fetch_json_with_retry py uri (Some Session) 6 30.0%float 1.7%float w1
  = (Ok doc, w2) ->
  doc <> JNull ->
  is_dict doc = false ->
  collect_features py (before ++ uri :: after) w
  = (Raise Py.no_attribute_get, w2).
Proof.
  intros Hrun Hdocs Hfetch Hnull Hdoc. unfold collect_features. cbn zeta.
  rewrite for_each_app, (collect_loop py before docs w w1 Hrun Hdocs []).
  cbn [for_each]. unfold bind at 1. unfold collect_from.
  rewrite (bind_ok _ _ _ _ _ Hfetch).
  destruct doc; try contradiction; try discriminate; reflexivity.
Qed.

Lemma collect_features_non_map_document_array :
  collect_features Sample.cpython [JStr "http://x/1"; JStr "http://x/list"; JStr "http://x/1"]
                   Cases.arrays
  = (Raise Py.no_attribute_get,
     World (network Cases.arrays) 2
       [Get (ViaSession Session) (JStr "http://x/1") 30.0%float;
        Get (ViaSession Session) (JStr "http://x/list") 30.0%float]).
Proof.
  eapply (collect_features_non_map_document Sample.cpython [JStr "http://x/1"]
            [JStr "http://x/1"] [Sample.dataset_mixed] (JStr "http://x/list")
            (JList [Sample.feature1]) Cases.arrays).
  - eapply fetched_cons; [vm_compute; reflexivity|]. apply fetched_nil.
  - constructor; [|constructor]. right. eexists. split; [reflexivity|].
    right. eexists. vm_compute. reflexivity.
  - vm_compute. reflexivity.
  - discriminate.
  - reflexivity.
Defined.

(** ** The flattener on lists put together and on features of other shapes *)

Lemma flatten_all_concat (a b : list json) :
  forall c, flatten_all c (a ++ b) = let? ca := flatten_all c a in flatten_all ca b.
Proof.
  induction a as [|f a IH]; intros c; [reflexivity|].
  cbn [app flatten_all]. destruct (flatten_feature c f) as [c'|e]; [|reflexivity].
  cbn [Py.bind]. apply IH.
Qed.

Lemma res_of_app (ca cb : columns) :
  res_of (columns_app ca cb) = table_app (res_of ca) (res_of cb).
Proof. reflexivity. Qed.

(** X11.  The table of two lists of features put together is, column by
    column, the table of the first followed by the table of the second;
    when one of the two raises, so does the whole, with the exception of
    the first that raises. *)
Theorem create_table_app (a b : list json) :
  create_table (a ++ b)
  = let? ta := create_table a in
    let? tb := create_table b in
    Ok (table_app ta tb).
Proof.
  unfold create_table. rewrite flatten_all_concat.
  destruct (flatten_all no_columns a) as [ca|e]; [|reflexivity].
  cbn [Py.bind]. rewrite flatten_all_app.
  destruct (flatten_all no_columns b) as [cb|e]; [|reflexivity].
  cbn [Py.bind]. now rewrite res_of_app.
Qed.

(** The exception of one turn of the loop is the exception of the call. *)
Lemma create_table_raises (before after : list json) (feature : json) (e : exn) :
  (exists t, create_table before = Ok t) ->
  (forall c, flatten_feature c feature = Raise e) ->
  create_table (before ++ feature :: after) = Raise e.
Proof.
  intros [t Ht] Hraise. unfold create_table in *. rewrite flatten_all_concat.
  destruct (flatten_all no_columns before) as [c|e0]; [|discriminate].
  cbn [Py.bind flatten_all]. now rewrite Hraise.
Qed.

Lemma map_with_key_truthy (g : gmap string json) (key : string) (v : json) :
  g !! key = Some v -> truthy (JDict g) = true.
Proof.
  intros Hv. cbn. apply negb_true_iff, Nat.eqb_neq. intros Hsize.
  apply map_size_empty_iff in Hsize. subst. now rewrite lookup_empty in Hv.
Qed.

Lemma py_or_truthy (v dflt : json) : truthy v = true -> py_or v dflt = v.
Proof. unfold py_or. now intros ->. Qed.

Lemma get_not_a_map (v : json) (key : string) (dflt : json) :
  is_dict v = false -> Py.get v key dflt = Raise Py.no_attribute_get.
Proof. destruct v; try discriminate; reflexivity. Qed.

(** X12.  A feature that is not a map, or whose [geometry] is a truthy
    value that is not a map, or (with geometry and coordinates of the data
    model) whose [properties] is one, makes [create_table] raise
    [AttributeError] for the whole list: [x or {}] replaces falsy values
    only. *)
Theorem create_table_rejects_non_maps (before after : list json) (feature : json) :
  (exists t, create_table before = Ok t) ->
  (is_dict feature = false
   \/ (exists d v, feature = JDict d /\ d !! "geometry" = Some v /\ not_a_map v)
   \/ (exists d v, feature = JDict d /\ d !! "properties" = Some v /\ not_a_map v
                   /\ map_or_falsy (d !! "geometry")
                   /\ list_or_falsy (geometry_of feature !! "coordinates"))) ->
  create_table (before ++ feature :: after) = Raise Py.no_attribute_get.
Proof.
  intros Hbefore Hbad. apply create_table_raises; [exact Hbefore|].
  intros c. unfold flatten_feature.
  destruct Hbad as [Hf|[(d & v & -> & Hv & Htruthy & Hmap)
                       |(d & v & -> & Hv & [Htruthy Hmap] & Hg & Hc)]].
  - now rewrite (get_not_a_map feature _ _ Hf).
  - rewrite !get_dict. cbn [Py.bind]. rewrite Hv.
    cbn [default from_option id]. rewrite (py_or_truthy v _ Htruthy).
    now rewrite (get_not_a_map v _ _ Hmap).
  - rewrite !get_dict. cbn [Py.bind]. rewrite (py_or_map _ Hg).
    rewrite !get_dict. cbn [Py.bind].
    change (match d !! "geometry" with Some (JDict g) => g | _ => ∅ end)
      with (geometry_of (JDict d)).
    rewrite (py_or_list _ Hc). rewrite Hv. cbn [default from_option id].
    rewrite (py_or_truthy v _ Htruthy).
    destruct (match geometry_of (JDict d) !! "coordinates" with
              | Some (JList l) => l | _ => [] end) as [|x [|y cs]];
      cbn [Py.len Py.bind length]; try (now rewrite (get_not_a_map v _ _ Hmap)).
    replace (2 <=? Z.of_nat (S (S (length cs)))) with true
      by (symmetry; apply Z.leb_le; lia).
    cbn [Py.index Py.bind lookup list_lookup].
    now rewrite (get_not_a_map v _ _ Hmap).
Qed.

Lemma create_table_rejects_non_maps_text :
  create_table [Sample.feature1; Cases.feature_text; Sample.feature1]
  = Raise Py.no_attribute_get.
Proof.
  apply (create_table_rejects_non_maps [Sample.feature1] [Sample.feature1]
           Cases.feature_text).
  - eexists. vm_compute. reflexivity.
  - right. right. eexists _, (JStr "Bratislavský").
    split; [reflexivity|]. split; [vm_compute; reflexivity|].
    split; [split; reflexivity|]. split; vm_compute; exact I.
Defined.

(** X13.  A feature whose [coordinates] is a number other than zero, or
    [true], makes [create_table] raise the [TypeError] of [len] for the
    whole list. *)
Theorem create_table_rejects_numeric_coordinates (before after : list json)
    (d g : gmap string json) (v : json) :
  (exists t, create_table before = Ok t) ->
  d !! "geometry" = Some (JDict g) ->
  g !! "coordinates" = Some v ->
  scalar v ->
  truthy v = true ->
  create_table (before ++ JDict d :: after) = Raise Py.no_len.
Proof.
  intros Hbefore Hg Hv Hscalar Htruthy.
  apply create_table_raises; [exact Hbefore|].
  intros c. unfold flatten_feature. rewrite !get_dict. cbn [Py.bind].
  rewrite Hg. cbn [default from_option id].
  rewrite (py_or_truthy (JDict g) _ (map_with_key_truthy g _ v Hv)).
  rewrite get_dict. cbn [Py.bind]. rewrite Hv. cbn [default from_option id].
  rewrite (py_or_truthy v _ Htruthy).
  destruct v; try contradiction; reflexivity.
Qed.

Lemma create_table_rejects_numeric_coordinates_sample :
  create_table [Cases.feature_number] = Raise Py.no_len.
Proof.
  eapply (create_table_rejects_numeric_coordinates [] [] _ _ (JFloat 17.1)).
  - eexists. reflexivity.
  - vm_compute. reflexivity.
  - vm_compute. reflexivity.
  - exact I.
  - reflexivity.
Defined.

(** X14.  On features of the data model, a property that is present is put
    in its cell as the value it is: [null], a number or a list stay what
    they are, and only an absent property becomes the empty string. *)
Theorem create_table_keeps_values (features : list json) (i : nat)
    (feature v : json) (col prop : string) :
  Forall well_shaped features ->
  features !! i = Some feature ->
  In (col, prop) property_columns ->
  properties_of feature !! prop = Some v ->
  exists t, create_table features = Ok t /\ table_cell t col i = Some v.
Proof.
  intros Hshaped Hi Hcol Hv. exists (res_of (columns_of features)).
  split; [now apply create_table_well_shaped|].
  rewrite (table_cell_property features col prop i Hcol), Hi.
  cbn [fmap option_fmap option_map]. unfold field. now rewrite Hv.
Qed.

Lemma create_table_keeps_values_null :
  exists t,
    create_table [Cases.feature_typed] = Ok t
    /\ table_cell t "Kraj" 0 = Some JNull.
Proof.
  apply (create_table_keeps_values [Cases.feature_typed] 0 Cases.feature_typed JNull
           "Kraj" "nuts3_name").
  - constructor; [shaped|constructor].
  - reflexivity.
  - cbn. tauto.
  - vm_compute. reflexivity.
Defined.

(** ** The files of a run *)

(** X15.  When the sort and the check of the names return, a row whose
    Kraj is not a key of [name_to_abb] (another name, the empty string,
    [null], a number) is in no per-region file: of the files of the run,
    only the aggregate holds it. *)
Theorem unmapped_rows_only_in_aggregate (pd : pandas)
    (t : table) (df : DataFrame) (i : nat) (w : world)
    (rows : list (list json)) (missing : list json) :
  DataFrame_of t = Ok df ->
  position "Kraj" (df_columns df) = Some i ->
  sort_returns pd df i rows ->
  names_checked pd rows i missing ->
  exists tr,
    save_tables pd t w = (Ok tt, World (network w) (issued w) (log w ++ tr))
    /\ forall row path d,
         (forall kraj abb, In (kraj, abb) name_to_abb -> cell i row <> JStr kraj) ->
         In (path, d) (files_in tr) -> In row (df_rows d) ->
         path = aggregate_path.
Proof.
  intros Hframe Hkraj [Hsort Hperm] Hnames.
  destruct (save_tables_files pd t df i rows missing Hframe Hkraj Hsort Hnames w)
    as (tr & Hrun & Hfiles & _).
  exists tr. split; [exact Hrun|].
  intros row path d Hunmapped Hfile Hrow. rewrite Hfiles in Hfile.
  destruct Hfile as [Hfile|Hfile]; [now injection Hfile as <- _|].
  destruct (region_files df i rows Hperm path d Hfile)
    as (kraj & abb & Hentry & _ & _ & Hrows).
  destruct (proj1 (Hrows row) Hrow) as [_ Hcell].
  now destruct (Hunmapped kraj abb Hentry).
Qed.

Lemma table4_sorted :
  sort_returns Sample.frames Sample.frame4 1
    [ [JStr "A4"; JStr ""]; [JStr "A2"; JStr "Atlantis"];
      [JStr "A3"; JStr "Bratislavský"]; [JStr "A1"; JStr "Žilinský"] ].
Proof.
  split; [vm_compute; reflexivity|].
  apply (stable_sort_perm (cell 1)). vm_compute. reflexivity.
Qed.

Lemma table4_checked :
  names_checked Sample.frames
    [ [JStr "A4"; JStr ""]; [JStr "A2"; JStr "Atlantis"];
      [JStr "A3"; JStr "Bratislavský"]; [JStr "A1"; JStr "Žilinský"] ]
    1 [JStr "Atlantis"].
Proof.
  exists [JStr ""; JStr "Atlantis"; JStr "Bratislavský"; JStr "Žilinský"].
  split; vm_compute; reflexivity.
Qed.

Lemma unmapped_rows_only_in_aggregate_sample :
  exists tr,
    save_tables Sample.frames Sample.table4 Sample.down
    = (Ok tt, World (network Sample.down) (issued Sample.down) (log Sample.down ++ tr))
    /\ forall path d,
         In (path, d) (files_in tr) -> In [JStr "A2"; JStr "Atlantis"] (df_rows d) ->
         path = aggregate_path.
Proof.
  destruct (unmapped_rows_only_in_aggregate Sample.frames Sample.table4
              Sample.frame4 1 Sample.down _ _ eq_refl eq_refl
              table4_sorted table4_checked)
    as (tr & Hrun & Honly).
  exists tr. split; [exact Hrun|]. intros path d. apply Honly.
  intros kraj abb Hentry.
  entries Hentry ltac:(fun H => injection H as <- <-; vm_compute; discriminate).
Defined.

(** X16.  When the sort and the check of the names return, the aggregate
    file is written first, with the rows as the sort returned them, and
    the per-region files after it, in the order of [name_to_abb]; the
    lines of the warning are printed between the two of the three
    banners that frame them; no path is written twice; every file has
    the column labels of the frame; and a per-region file holds the rows
    of the aggregate file that are of its region, in the order they have
    there. *)
Theorem files_in_order (pd : pandas)
    (t : table) (df : DataFrame) (i : nat) (w : world)
    (rows : list (list json)) (missing : list json) :
  DataFrame_of t = Ok df ->
  position "Kraj" (df_columns df) = Some i ->
  sort_rows_by pd (cell i) (df_rows df) = Ok rows ->
  names_checked pd rows i missing ->
  exists tr all regions,
    save_tables pd t w = (Ok tt, World (network w) (issued w) (log w ++ tr))
    /\ files_in tr = (aggregate_path, all) :: regions
    /\ df_rows all = rows
    /\ prints_in tr
       = [Banner "Sorting by Kraj..."; Banner "Saving to kraje..."]
         ++ prints_in (warning missing) ++ [Banner "Saving to individual..."]
    /\ sublist (fst <$> regions) ((fun entry => region_path entry.2) <$> name_to_abb)
    /\ NoDup (fst <$> files_in tr)
    /\ Forall (fun file => df_columns file.2 = df_columns df) (files_in tr)
    /\ forall path d,
         In (path, d) regions ->
         exists kraj abb,
           In (kraj, abb) name_to_abb /\ path = region_path abb
           /\ df_rows d = List.filter (fun row => eq_str kraj (cell i row)) (df_rows all).
Proof.
  intros Hframe Hkraj Hsort Hnames.
  destruct (save_tables_files pd t df i rows missing Hframe Hkraj Hsort Hnames w)
    as (tr & Hrun & Hfiles & Hprints).
  set (all := {| df_columns := df_columns df; df_rows := rows |}) in *.
  exists tr, all, (omap (region_file all i) name_to_abb).
  split; [exact Hrun|]. split; [exact Hfiles|]. split; [reflexivity|].
  split; [exact Hprints|].
  split; [apply region_paths_sublist|].
  assert (Hregion : forall path d,
             In (path, d) (omap (region_file all i) name_to_abb) ->
             exists kraj abb,
               In (kraj, abb) name_to_abb /\ path = region_path abb
               /\ df_columns d = df_columns df
               /\ df_rows d = List.filter (fun row => eq_str kraj (cell i row))
                                          (df_rows all)).
  { intros path d Hfile.
    apply list_elem_of_In, list_elem_of_omap in Hfile as ([kraj abb] & Hentry & Hfile).
    apply list_elem_of_In in Hentry. exists kraj, abb.
    unfold region_file in Hfile. cbn [fst snd] in Hfile.
    destruct (rows_of_region all i kraj) as [|row rows'] eqn:Hrows; [discriminate|].
    injection Hfile as <- <-. cbn. now repeat split. }
  split; [|split].
  - rewrite Hfiles. cbn [fmap list_fmap fst].
    eapply sublist_NoDup; [exact output_paths_distinct|].
    constructor. apply region_paths_sublist.
  - rewrite Hfiles. constructor; [reflexivity|].
    apply Forall_forall. intros [path d] Hfile. apply list_elem_of_In in Hfile.
    destruct (Hregion path d Hfile) as (kraj & abb & _ & _ & Hcols & _). exact Hcols.
  - intros path d Hfile.
    destruct (Hregion path d Hfile) as (kraj & abb & Hentry & Hpath & _ & Hrows).
    now exists kraj, abb.
Qed.

Lemma files_in_order_sample :
  exists tr all regions,
    save_tables Sample.frames Sample.table4 Sample.down
    = (Ok tt, World (network Sample.down) (issued Sample.down) (log Sample.down ++ tr))
    /\ files_in tr = (aggregate_path, all) :: regions
    /\ prints_in tr
       = [Banner "Sorting by Kraj..."; Banner "Saving to kraje...";
          UnmappedNames; Unmapped (JStr "Atlantis"); Banner "Saving to individual..."]
    /\ NoDup (fst <$> files_in tr).
Proof.
  destruct (files_in_order Sample.frames Sample.table4 Sample.frame4 1
              Sample.down _ _ eq_refl eq_refl (proj1 table4_sorted) table4_checked)
    as (tr & all & regions & Hrun & Hfiles & _ & Hprints & _ & Hnodup & _).
  now exists tr, all, regions.
Defined.

(** X17.  Every table that [create_table] returns makes a data frame, and
    when the sort returns its rows permuted and the check of the names
    returns, the run succeeds and the aggregate file has the fourteen
    column labels in their order and one row for each feature. *)
Theorem table_rows_reach_aggregate (pd : pandas)
    (features : list json) (t : table) (w : world)
    (rows : list (list json)) (missing : list json) :
  create_table features = Ok t ->
  (forall df, DataFrame_of t = Ok df -> sort_returns pd df 1 rows) ->
  names_checked pd rows 1 missing ->
  exists df tr all regions,
    DataFrame_of t = Ok df
    /\ save_tables pd t w = (Ok tt, World (network w) (issued w) (log w ++ tr))
    /\ files_in tr = (aggregate_path, all) :: regions
    /\ df_columns all
       = [ "Identifikátor"; "Kraj"; "ID kraja"; "Okres"; "ID Okresu"; "Obec";
           "ID obce"; "Časť obce"; "Ulica"; "Súpisné číslo";
           "Orientačné číslo celé"; "PSČ"; "ADRBOD_X"; "ADRBOD_Y" ]%string
    /\ length (df_rows all) = length features.
Proof.
  intros Htable Hsort Hnames.
  destruct (create_table_frame features t Htable) as (df & Hframe & Hkraj & Hlen).
  destruct (Hsort df Hframe) as [Hrows Hperm].
  destruct (save_tables_files pd t df 1 rows missing Hframe Hkraj Hrows Hnames w)
    as (tr & Hrun & Hfiles & _).
  eexists df, tr, _, _. split; [exact Hframe|]. split; [exact Hrun|].
  split; [exact Hfiles|].
  cbn [df_columns df_rows]. split.
  - unfold create_table in Htable.
    destruct (flatten_all no_columns features) as [c|e]; [|discriminate].
    injection Htable as <-. unfold DataFrame_of, res_of in Hframe.
    cbn [forallb snd] in Hframe.
    destruct (_ && _) in Hframe; [|discriminate].
    injection Hframe as <-. reflexivity.
  - rewrite <- Hlen. now apply Permutation_length.
Qed.

Lemma table_rows_reach_aggregate_sample :
  exists df tr all regions,
    DataFrame_of (res_of (columns_of [Sample.feature1; JDict ∅; Sample.feature_short]))
    = Ok df
    /\ save_tables Sample.frames
         (res_of (columns_of [Sample.feature1; JDict ∅; Sample.feature_short])) Sample.down
       = (Ok tt, World (network Sample.down) (issued Sample.down) (log Sample.down ++ tr))
    /\ files_in tr = (aggregate_path, all) :: regions
    /\ length (df_rows all) = 3%nat.
Proof.
  destruct (table_rows_reach_aggregate Sample.frames
              [Sample.feature1; JDict ∅; Sample.feature_short]
              (res_of (columns_of [Sample.feature1; JDict ∅; Sample.feature_short]))
              Sample.down Cases.rows3 [])
    as (df & tr & all & regions & Hframe & Hrun & Hfiles & _ & Hlen).
  - apply create_table_well_shaped.
    constructor; [shaped|constructor; [shaped|constructor; [shaped|constructor]]].
  - intros df Hdf. vm_compute in Hdf. injection Hdf as <-.
    split; [vm_compute; reflexivity|].
    apply (stable_sort_perm (cell 1)). vm_compute. reflexivity.
  - exists [JStr ""; JStr "Bratislavský"]. split; vm_compute; reflexivity.
  - now exists df, tr, all, regions.
Defined.

(** X18.  A table without rows still gives the aggregate file, with the
    column labels and no row, and gives no per-region file: the sort has
    no row to return but none, and the check of the names has no value
    to hash or to compare. *)
Theorem no_rows_only_aggregate (pd : pandas)
    (t : table) (df : DataFrame) (i : nat) (w : world)
    (rows : list (list json)) (missing : list json) :
  DataFrame_of t = Ok df ->
  position "Kraj" (df_columns df) = Some i ->
  df_rows df = [] ->
  sort_returns pd df i rows ->
  names_checked pd rows i missing ->
  exists tr,
    save_tables pd t w = (Ok tt, World (network w) (issued w) (log w ++ tr))
    /\ files_in tr
       = [(aggregate_path, {| df_columns := df_columns df; df_rows := [] |})].
Proof.
  intros Hframe Hkraj Hrows [Hsort Hperm] Hnames.
  destruct (save_tables_files pd t df i rows missing Hframe Hkraj Hsort Hnames w)
    as (tr & Hrun & Hfiles & _).
  exists tr. split; [exact Hrun|]. rewrite Hfiles.
  rewrite Hrows in Hperm. apply Permutation_nil_r in Hperm. subst rows.
  reflexivity.
Qed.

Lemma no_rows_only_aggregate_sample :
  exists tr,
    save_tables Sample.frames Cases.table0 Sample.down
    = (Ok tt, World (network Sample.down) (issued Sample.down) (log Sample.down ++ tr))
    /\ files_in tr = [(aggregate_path, Cases.frame0)].
Proof.
  apply (no_rows_only_aggregate Sample.frames Cases.table0 Cases.frame0 1
           Sample.down [] [] eq_refl eq_refl eq_refl).
  - split; [reflexivity|constructor].
  - exists []. split; reflexivity.
Defined.

(** X21.  When the sort raises (pandas cannot order the Kraj cells, a
    string and a number), the run ends with that exception after the
    first banner of these lines: no file is written, neither the
    aggregate nor a per-region one. *)
Theorem sort_failure_writes_nothing (pd : pandas)
    (t : table) (df : DataFrame) (i : nat) (w : world) (e : exn) :
  DataFrame_of t = Ok df ->
  position "Kraj" (df_columns df) = Some i ->
  sort_rows_by pd (cell i) (df_rows df) = Raise e ->
  save_tables pd t w
  = (Raise e,
     World (network w) (issued w) (log w ++ [Print (Banner "Sorting by Kraj...")]))
  /\ files_in (log (save_tables pd t w).2) = files_in (log w).
Proof.
  intros Hframe Hkraj Hsort.
  assert (Hrun : save_tables pd t w
                 = (Raise e,
                    World (network w) (issued w)
                          (log w ++ [Print (Banner "Sorting by Kraj...")]))).
  { unfold save_tables, save_aggregate, sort_values.
    unfold bind at 1 2, lift at 1. rewrite Hframe.
    unfold bind at 1, print at 1, emit at 1.
    unfold bind at 1, lift at 1. rewrite Hkraj, Hsort. reflexivity. }
  split; [exact Hrun|]. rewrite Hrun. cbn [snd log].
  rewrite files_in_app. cbn. now rewrite app_nil_r.
Qed.

Lemma sort_failure_writes_nothing_mixed :
  save_tables Sample.frames Cases.table_mixed Sample.down
  = (Raise Sample.unorderable,
     World (network Sample.down) (issued Sample.down)
           (log Sample.down ++ [Print (Banner "Sorting by Kraj...")]))
  /\ files_in (log (save_tables Sample.frames Cases.table_mixed Sample.down).2)
     = files_in (log Sample.down).
Proof.
  apply (sort_failure_writes_nothing Sample.frames Cases.table_mixed Cases.frame_mixed 1
           Sample.down Sample.unorderable); reflexivity.
Defined.

(** X22.  When the sort returns and the check of the names raises
    ([unique] on a Kraj that cannot be hashed, a list or a map, or
    [sorted] on names that [<] does not order), the run ends with that
    exception after the aggregate file: no warning is printed and no
    per-region file is written. *)
Theorem names_failure_keeps_aggregate (pd : pandas)
    (t : table) (df : DataFrame) (i : nat) (w : world)
    (rows : list (list json)) (e : exn) :
  DataFrame_of t = Ok df ->
  position "Kraj" (df_columns df) = Some i ->
  sort_rows_by pd (cell i) (df_rows df) = Ok rows ->
  unique pd (dropna (cell i <$> rows)) = Raise e
  \/ (exists values, unique pd (dropna (cell i <$> rows)) = Ok values
                     /\ sorted pd (unmapped values) = Raise e) ->
  let all := {| df_columns := df_columns df; df_rows := rows |} in
  save_tables pd t w
  = (Raise e,
     World (network w) (issued w)
           (log w ++ [Print (Banner "Sorting by Kraj..."); Print (Banner "Saving to kraje...");
                      ToCsv aggregate_path all])).
Proof.
  intros Hframe Hkraj Hsort Hraise all. unfold save_tables.
  rewrite (bind_ok _ _ _ _ _ (save_aggregate_log pd t df i rows Hframe Hkraj Hsort w)).
  unfold bind at 1.
  now rewrite (warn_unmapped_raises pd all i Hkraj e _ Hraise).
Qed.

Lemma names_failure_keeps_aggregate_list :
  save_tables Sample.frames Cases.table_list Sample.down
  = (Raise Sample.unhashable,
     World (network Sample.down) (issued Sample.down)
           (log Sample.down
              ++ [Print (Banner "Sorting by Kraj..."); Print (Banner "Saving to kraje...");
                  ToCsv aggregate_path Cases.frame_list])).
Proof.
  apply (names_failure_keeps_aggregate Sample.frames Cases.table_list Cases.frame_list 1
           Sample.down [ [JStr "A1"; JList [JStr "a"]] ] Sample.unhashable);
    [reflexivity | reflexivity | reflexivity | left; reflexivity].
Defined.

Lemma forallb_false_exists {A} (p : A -> bool) (l : list A) :
  forallb p l = false <-> exists x, In x l /\ p x = false.
Proof.
  induction l as [|x l IH]; cbn.
  - split; [discriminate|now intros (x & [] & _)].
  - rewrite andb_false_iff, IH. split.
    + intros [Hx|(y & Hy & Hpy)]; [now exists x; auto|now exists y; auto].
    + intros (y & [<-|Hy] & Hpy); [now left|right; now exists y].
Qed.

Lemma known_key (s : string) :
  known (JStr s) = true <-> exists abb, In (s, abb) name_to_abb.
Proof.
  unfold known. rewrite existsb_exists. split.
  - intros ([kraj abb] & Hin & Heq). apply String.eqb_eq in Heq. cbn in Heq. subst.
    now exists abb.
  - intros (abb & Hin). exists (s, abb). split; [exact Hin|]. apply String.eqb_refl.
Qed.

(** X23.  The names that the warning is about, [seen - known]: of the
    values of the column, those that are not a string made of white space
    alone (the empty string is one) and are not a key of [name_to_abb].  A
    value that is not a string, a number, is always among them. *)
Theorem unmapped_names (values : list json) (k : json) :
  In k (unmapped values) <->
  In k values
  /\ forall s, k = JStr s ->
       (exists c, In c (Py.chars s) /\ isspace c = false)
       /\ forall abb, ~ In (s, abb) name_to_abb.
Proof.
  unfold unmapped. rewrite !filter_In. split.
  - intros ((Hin & Hblank) & Hknown). split; [exact Hin|].
    intros s ->. split.
    + apply forallb_false_exists. cbn in Hblank. now apply negb_true_iff.
    + intros abb Habb. apply negb_true_iff in Hknown.
      assert (known (JStr s) = true) as Hk by (apply known_key; now exists abb).
      congruence.
  - intros (Hin & Hk). destruct k as [| | | |s| |]; try (now repeat split).
    destruct (Hk s eq_refl) as (Hchar & Hkey). repeat split; [exact Hin| |].
    + cbn. apply negb_true_iff. now apply forallb_false_exists.
    + apply negb_true_iff. destruct (known (JStr s)) eqn:Hknown; [|reflexivity].
      apply known_key in Hknown as (abb & Habb). now destruct (Hkey abb).
Qed.

Example unmapped_names_sample :
  unmapped [JStr ""; JStr "  "; JStr "Atlantis"; JStr "Žilinský"; JInt 5;
            JStr (utf8 [194; 160]%nat); JStr " x "]
  = [JStr "Atlantis"; JInt 5; JStr " x "].
Proof. vm_compute. reflexivity. Qed.

(** ** The collector on lists put together *)

Section CollectorTogether.

Variable py : interpreter.

(** One turn of the loop appends to the features what it appends to an
    empty list. *)
Lemma collect_from_acc (acc : list json) (uri : json) (w : world) :
  collect_from py Session acc uri w
  = match collect_from py Session [] uri w with
    | (Ok found, w') => (Ok (acc ++ found), w')
    | (Raise e, w') => (Raise e, w')
    end.
Proof.
  unfold collect_from, bind, lift, print, emit, ret.
  destruct (fetch_json_with_retry _ _ _ _ _ _ w) as [[r|e] w1]; [|reflexivity].
  destruct r as [| | | | | |d]; try reflexivity; try (now rewrite app_nil_r).
  cbn. destruct (truthy (default (JList []) (d !! "features")));
    [|now rewrite app_nil_r].
  destruct (Py.iter _) as [entries|e]; [|reflexivity].
  now rewrite !append_dicts_filter.
Qed.

Lemma collect_loop_acc (uris : list json) :
  forall (acc : list json) (w : world),
    for_each uris acc (collect_from py Session) w
    = match for_each uris [] (collect_from py Session) w with
      | (Ok found, w') => (Ok (acc ++ found), w')
      | (Raise e, w') => (Raise e, w')
      end.
Proof.
  induction uris as [|uri uris IH]; intros acc w.
  - cbn. unfold ret. now rewrite app_nil_r.
  - cbn [for_each]. unfold bind. rewrite (collect_from_acc acc).
    destruct (collect_from py Session [] uri w) as [[found|e] w1];
      [|reflexivity].
    rewrite (IH (acc ++ found)), (IH ([] ++ found)).
    destruct (for_each uris [] _ w1) as [[rest|e] w2]; [|reflexivity].
    now rewrite app_assoc.
Qed.

End CollectorTogether.

(** X19.  Collecting from two lists of URIs put together is collecting from
    the first and then, in the world that leaves, from the second: the
    features are those of the first followed by those of the second, and
    an exception of either is the exception of the whole. *)
Theorem collect_features_app (py : interpreter)
    (a b : list json) (w : world) :
  collect_features py (a ++ b) w
  = match collect_features py a w with
    | (Ok fa, w1) =>
        match collect_features py b w1 with
        | (Ok fb, w2) => (Ok (fa ++ fb), w2)
        | (Raise e, w2) => (Raise e, w2)
        end
    | (Raise e, w1) => (Raise e, w1)
    end.
Proof.
  unfold collect_features. cbn zeta. rewrite for_each_app.
  destruct (for_each a [] _ w) as [[fa|e] w1]; [|reflexivity].
  apply collect_loop_acc.
Qed.
